(** * Barbershop user service: a shallow embedding and its specification

    The development follows the layout of the Python package [app]:
    [models], [schemas], [utils.auth], [crud], [dependencies] and
    [routers].  Every function of the service becomes a function over an
    explicit table of users; the libraries the service calls (passlib,
    python-jose, email-validator, SQLite's text coercion) are an
    interface, [Libraries], of which the theorems assume nothing unless
    they say so. *)

From Stdlib Require Import ZArith List String Ascii Bool Lia DecimalString.
Import ListNotations.

Local Open Scope bool_scope.
Local Open Scope Z_scope.

(** ** Python values and control *)

(** [str(n)] for an [int]. *)
Definition py_str (n : Z) : string := NilZero.string_of_int (Z.to_int n).

(** Truth value of an optional boolean attribute: [None] is falsy. *)
Definition truthy (b : option bool) : bool :=
  match b with Some true => true | _ => false end.

(** Truth value of a [str]: the empty string is falsy. *)
Definition str_truthy (s : string) : bool :=
  match s with EmptyString => false | _ => true end.

(** A [str] is held as its UTF-8 encoding.  The bytes [10xxxxxx] of an
    encoding continue a character; every other byte starts one. *)
Definition continues (c : ascii) : bool :=
  let n := nat_of_ascii c in
  (128 <=? n)%nat && (n <? 192)%nat.

(** [len(s)] for a [str]: the number of its characters (code points),
    not of the bytes that encode them. *)
Fixpoint py_len (s : string) : nat :=
  match s with
  | EmptyString => 0
  | String c rest => ((if continues c then 0 else 1) + py_len rest)%nat
  end.

Definition opt_eqb {A} (eqb : A -> A -> bool) (x y : option A) : bool :=
  match x, y with
  | Some a, Some b => eqb a b
  | None, None => true
  | _, _ => false
  end.

(** Exceptions that are not [HTTPException]s. *)
Inductive exn :=
| TypeError (msg : string)
| IntegrityError (msg : string)
| UnknownHashError
| OverflowError (msg : string)
| RequestValidationError (loc : list string)
| ResponseValidationError (loc : list string).

(** What running a piece of the service gives: a value, an
    [HTTPException], or another exception. *)
Inductive result (A : Type) :=
| Return (a : A)
| HTTPException (status_code : Z) (detail : string)
                (headers : list (string * string))
| Raise (e : exn).
Arguments Return {A} a.
Arguments HTTPException {A} status_code detail headers.
Arguments Raise {A} e.

(** The status line the framework answers with. *)
Definition status_of {A} (success : Z) (r : result A) : Z :=
  match r with
  | Return _ => success
  | HTTPException c _ _ => c
  | Raise (RequestValidationError _) => 422
  | Raise _ => 500
  end.

(** ** The libraries behind the service *)

Record claims := { exp : option Z; sub : option string }.

Class Libraries := {
  (** [pwd_context.hash]: bcrypt draws a salt. *)
  salt : Type;
  pwd_hash : salt -> string -> string;
  (** [pwd_context.verify] on a stored hash; [None] when the hash is
      not one the context identifies (it raises). *)
  pwd_verify : string -> string -> option bool;
  (** [jose.jws]: signing of a claim set, and signature check plus
      parsing of a token. *)
  jws_sign : claims -> string -> string -> string;
  jws_verify : string -> string -> list string -> option claims;
  (** [pydantic.EmailStr]: the normalised address, or [None] when the
      text is no e-mail address. *)
  EmailStr : string -> option string;
  (** SQLite's coercion of a text operand compared with an INTEGER
      column; [None] when the text is no integer literal. *)
  integer_affinity : string -> option Z;
  (** [os.environ.get("SECRET_KEY")]. *)
  environ_SECRET_KEY : option string
}.

(** ** app/models/user.py *)

Module models.

(** An instance of the mapped class: every attribute may hold
    [None]; the table's constraints are checked when a session is
    flushed.  Instants are seconds. *)
Record User := {
  id : Z;
  email : option string;
  username : option string;
  first_name : option string;
  last_name : option string;
  phone_number : option string;
  hashed_password : option string;
  is_active : option bool;
  is_barber : option bool;
  created_at : option Z;
  updated_at : option Z
}.

Definition columns : list string :=
  ["id"; "email"; "username"; "first_name"; "last_name"; "phone_number";
   "hashed_password"; "is_active"; "is_barber"; "created_at";
   "updated_at"]%string.

End models.

(** ** The users table and the session *)

(** Rows in rowid order. *)
Definition Store := list models.User.

Definition str_opt_eqb := opt_eqb String.eqb.
Definition bool_opt_eqb := opt_eqb Bool.eqb.

(** [filter(column == value)] on a text column: NULL matches nothing. *)
Definition col_is (v : string) (c : option string) : bool :=
  match c with Some s => String.eqb s v | None => false end.

(** The integers SQLite stores, and the driver binds as parameters of
    a statement: 64 bits, signed. *)
Definition in_int64 (n : Z) : bool :=
  (- 2 ^ 63 <=? n) && (n <=? 2 ^ 63 - 1).

(** What [sqlite3] raises when it is given a Python [int] outside that
    range to bind. *)
Definition int_too_large : exn :=
  OverflowError "Python int too large to convert to SQLite INTEGER".

(** The rowid SQLite gives the next inserted row, while the largest
    rowid in use is below the largest integer it stores. *)
Definition next_rowid (db : Store) : Z :=
  match map models.id db with
  | [] => 1
  | i :: rest => 1 + fold_left Z.max rest i
  end.

(** A function that runs against the request's session: it reads the
    table as committed so far and leaves the table as committed at its
    end; an exception keeps what was committed before it. *)
Definition Session (A : Type) : Type := Store -> result A * Store.

Definition ret {A} (a : A) : Session A := fun db => (Return a, db).

Definition bind {A B} (m : Session A) (k : A -> Session B) : Session B :=
  fun db =>
    match m db with
    | (Return a, db') => k a db'
    | (HTTPException c d h, db') => (HTTPException c d h, db')
    | (Raise e, db') => (Raise e, db')
    end.

Definition raise_http {A} (c : Z) (d : string) (h : list (string * string))
  : Session A := fun db => (HTTPException c d h, db).

Definition raise {A} (e : exn) : Session A := fun db => (Raise e, db).

(** Reading through [db.query]. *)
Definition query {A} (f : Store -> A) : Session A :=
  fun db => (Return (f db), db).

(** Reading through [db.query] with parameters the driver has to
    bind, which may raise. *)
Definition execute {A} (f : Store -> result A) : Session A :=
  fun db => (f db, db).

(** Lifting a step that cannot touch the session. *)
Definition lift {A} (r : result A) : Session A := fun db => (r, db).

Declare Scope session_scope.
Delimit Scope session_scope with session.
Notation "x <- m ;; k" := (bind m (fun x => k))
  (at level 61, m at next level, right associativity) : session_scope.

(** INSERT of a new row, with the table's NOT NULL and UNIQUE
    constraints, [default=True] of [is_active] and the server default of
    [created_at]; the flushed row is returned as [db.refresh] reloads
    it. *)
Definition insert (u : models.User) (now : Z) : Session models.User :=
  fun db =>
    match models.email u, models.username u, models.hashed_password u with
    | None, _, _ =>
        (Raise (IntegrityError "NOT NULL constraint failed: users.email"), db)
    | _, None, _ =>
        (Raise (IntegrityError "NOT NULL constraint failed: users.username"),
         db)
    | _, _, None =>
        (Raise (IntegrityError
                  "NOT NULL constraint failed: users.hashed_password"), db)
    | Some e, Some n, Some _ =>
        if existsb (fun r => col_is e (models.email r)) db then
          (Raise (IntegrityError "UNIQUE constraint failed: users.email"), db)
        else if existsb (fun r => col_is n (models.username r)) db then
          (Raise (IntegrityError "UNIQUE constraint failed: users.username"),
           db)
        else
          let row :=
            {| models.id := next_rowid db;
               models.email := models.email u;
               models.username := models.username u;
               models.first_name := models.first_name u;
               models.last_name := models.last_name u;
               models.phone_number := models.phone_number u;
               models.hashed_password := models.hashed_password u;
               models.is_active :=
                 match models.is_active u with
                 | None => Some true
                 | a => a
                 end;
               models.is_barber := models.is_barber u;
               models.created_at := Some now;
               models.updated_at := None |} in
          (Return row, (db ++ [row])%list)
    end.

(** Do the two instances differ in a column other than the keys and
    timestamps the server maintains? *)
Definition modified (old new : models.User) : bool :=
  negb (str_opt_eqb (models.email old) (models.email new)
        && str_opt_eqb (models.username old) (models.username new)
        && str_opt_eqb (models.first_name old) (models.first_name new)
        && str_opt_eqb (models.last_name old) (models.last_name new)
        && str_opt_eqb (models.phone_number old) (models.phone_number new)
        && str_opt_eqb (models.hashed_password old)
                       (models.hashed_password new)
        && bool_opt_eqb (models.is_active old) (models.is_active new)
        && bool_opt_eqb (models.is_barber old) (models.is_barber new)).

(** A changed NOT NULL column may not become NULL. *)
Definition null_violation (name : string) (old new : option string)
  : option exn :=
  if negb (str_opt_eqb old new) then
    match new with
    | None => Some (IntegrityError
                      ("NOT NULL constraint failed: users." ++ name))
    | Some _ => None
    end
  else None.

(** A changed UNIQUE column may not take a value some row holds. *)
Definition unique_violation (name : string)
  (col : models.User -> option string) (old new : models.User) (db : Store)
  : option exn :=
  if negb (str_opt_eqb (col old) (col new)) then
    match col new with
    | Some v =>
        if existsb (fun r => col_is v (col r)) db
        then Some (IntegrityError ("UNIQUE constraint failed: users." ++ name))
        else None
    | None => None
    end
  else None.

Definition first_violation (vs : list (option exn)) : option exn :=
  fold_right (fun v acc => match v with Some e => Some e | None => acc end)
             None vs.

(** The row an UPDATE leaves: the attributes of [new] under the key
    and creation instant of [old], stamped by [onupdate]. *)
Definition flushed (old new : models.User) (now : Z) : models.User :=
  {| models.id := models.id old;
     models.email := models.email new;
     models.username := models.username new;
     models.first_name := models.first_name new;
     models.last_name := models.last_name new;
     models.phone_number := models.phone_number new;
     models.hashed_password := models.hashed_password new;
     models.is_active := models.is_active new;
     models.is_barber := models.is_barber new;
     models.created_at := models.created_at old;
     models.updated_at := Some now |}.

(** The constraints an UPDATE checks, on the columns that changed. *)
Definition violations (old new : models.User) (db : Store)
  : list (option exn) :=
  [null_violation "email" (models.email old) (models.email new);
   null_violation "username" (models.username old) (models.username new);
   null_violation "hashed_password" (models.hashed_password old)
                  (models.hashed_password new);
   unique_violation "email" models.email old new db;
   unique_violation "username" models.username old new db].

(** UPDATE of the row of [old] to the attributes of [new], as a flush
    emits it: only when a column changed, checking the constraints of the
    changed columns, and stamping [updated_at] ([onupdate]); the row is
    returned as [db.refresh] reloads it. *)
Definition update (old new : models.User) (now : Z) : Session models.User :=
  fun db =>
    if modified old new then
      match first_violation (violations old new db) with
      | Some e => (Raise e, db)
      | None =>
          let row := flushed old new now in
          (Return row,
           map (fun r => if models.id r =? models.id old then row else r) db)
      end
    else (Return old, db).

(** DELETE of the row with this primary key. *)
Definition delete (u : models.User) : Session unit :=
  fun db =>
    (Return tt, filter (fun r => negb (models.id r =? models.id u)) db).

(** ** app/schemas *)

(** A value of a dumped model: [None], a [str] or a [bool]. *)
Inductive pyval := PyNone | PyStr (s : string) | PyBool (b : bool).

Definition of_str (v : option string) : pyval :=
  match v with Some s => PyStr s | None => PyNone end.
Definition of_bool (v : option bool) : pyval :=
  match v with Some b => PyBool b | None => PyNone end.

Module schemas.

Section WithLibraries.
Context {L : Libraries}.

(** [UserCreate(UserBase)], validated. *)
Record UserCreate := {
  email : string;
  username : string;
  first_name : option string;
  last_name : option string;
  phone_number : option string;
  is_barber : bool;
  password : string
}.

(** The JSON body of Register, typed as the schema types it; a key
    with a default may be absent. *)
Record UserCreate_body := {
  body_email : string;
  body_username : string;
  body_first_name : option string;
  body_last_name : option string;
  body_phone_number : option string;
  body_is_barber : option bool;
  body_password : string
}.

(** The fields the model rejects, in field order. *)
Definition UserCreate_errors (b : UserCreate_body) : list string :=
  ((match EmailStr (body_email b) with
    | None => ["email"%string]
    | Some _ => []
    end)
   ++
   (if (Z.of_nat (py_len (body_password b)) <? 6)
    then ["password"%string] else []))%list.

(** [email: EmailStr], [is_barber: bool = False],
    [password: str = Field(..., min_length=6)]. *)
Definition UserCreate_validate (b : UserCreate_body) : result UserCreate :=
  match EmailStr (body_email b),
        (Z.of_nat (py_len (body_password b)) <? 6) with
  | Some e, false =>
      Return {| email := e;
                username := body_username b;
                first_name := body_first_name b;
                last_name := body_last_name b;
                phone_number := body_phone_number b;
                is_barber := match body_is_barber b with
                             | Some v => v
                             | None => false
                             end;
                password := body_password b |}
  | _, _ => Raise (RequestValidationError (UserCreate_errors b))
  end.

(** [UserUpdate]: every field is [Optional] with default [None]; the
    outer [option] records whether the field was set by the caller
    (it is in [model_fields_set]), the inner one the value [None]. *)
Record UserUpdate := {
  upd_email : option (option string);
  upd_username : option (option string);
  upd_first_name : option (option string);
  upd_last_name : option (option string);
  upd_phone_number : option (option string);
  upd_password : option (option string);
  upd_is_active : option (option bool);
  upd_is_barber : option (option bool)
}.

(** [email: Optional[EmailStr]]: a given address is validated and
    normalised; the other fields carry no constraint.  The argument is
    the body before validation. *)
Definition UserUpdate_validate (b : UserUpdate) : result UserUpdate :=
  match upd_email b with
  | Some (Some e) =>
      match EmailStr e with
      | Some e' =>
          Return {| upd_email := Some (Some e');
                    upd_username := upd_username b;
                    upd_first_name := upd_first_name b;
                    upd_last_name := upd_last_name b;
                    upd_phone_number := upd_phone_number b;
                    upd_password := upd_password b;
                    upd_is_active := upd_is_active b;
                    upd_is_barber := upd_is_barber b |}
      | None => Raise (RequestValidationError ["email"%string])
      end
  | _ => Return b
  end.

Definition item {A} (key : string) (conv : A -> pyval) (f : option A)
  : list (string * pyval) :=
  match f with Some v => [(key, conv v)] | None => [] end.

(** [user.dict(exclude_unset=True)], in field order. *)
Definition dict_exclude_unset (u : UserUpdate) : list (string * pyval) :=
  (item "email" of_str (upd_email u)
   ++ item "username" of_str (upd_username u)
   ++ item "first_name" of_str (upd_first_name u)
   ++ item "last_name" of_str (upd_last_name u)
   ++ item "phone_number" of_str (upd_phone_number u)
   ++ item "password" of_str (upd_password u)
   ++ item "is_active" of_bool (upd_is_active u)
   ++ item "is_barber" of_bool (upd_is_barber u))%list.

(** [User(UserBase)], the response model. *)
Record User := {
  out_email : string;
  out_username : string;
  out_first_name : option string;
  out_last_name : option string;
  out_phone_number : option string;
  out_is_barber : bool;
  out_id : Z;
  out_is_active : bool;
  out_created_at : Z;
  out_updated_at : option Z
}.

Definition missing {A} (loc : string) (v : option A) : list string :=
  match v with None => [loc] | Some _ => [] end.

(** The attributes the response model rejects, in field order. *)
Definition User_errors (u : models.User) : list string :=
  (missing "email" (match models.email u with
                    | Some e => EmailStr e
                    | None => None
                    end)
   ++ missing "username" (models.username u)
   ++ missing "is_barber" (models.is_barber u)
   ++ missing "is_active" (models.is_active u)
   ++ missing "created_at" (models.created_at u))%list.

(** Validation of a mapped instance against the response model
    ([from_attributes = True]). *)
Definition User_validate (u : models.User) : result User :=
  match (match models.email u with Some e => EmailStr e | None => None end),
        models.username u, models.is_barber u, models.is_active u,
        models.created_at u with
  | Some e, Some n, Some b, Some a, Some c =>
      Return {| out_email := e;
                out_username := n;
                out_first_name := models.first_name u;
                out_last_name := models.last_name u;
                out_phone_number := models.phone_number u;
                out_is_barber := b;
                out_id := models.id u;
                out_is_active := a;
                out_created_at := c;
                out_updated_at := models.updated_at u |}
  | _, _, _, _, _ => Raise (ResponseValidationError (User_errors u))
  end.

(** Validation of a list against [List[User]]: every row is
    validated, and the error names the rejected attributes of every
    rejected row, in row order. *)
Fixpoint Users_validate (us : list models.User) : result (list User) :=
  match us with
  | [] => Return []
  | u :: rest =>
      match User_validate u, Users_validate rest with
      | Return o, Return os => Return (o :: os)
      | Return _, r => r
      | Raise (ResponseValidationError loc),
        Raise (ResponseValidationError loc') =>
          Raise (ResponseValidationError (loc ++ loc'))
      | Raise e, _ => Raise e
      | HTTPException c d h, _ => HTTPException c d h
      end
  end.

(** [Token]. *)
Record Token := { access_token : string; token_type : string }.

(** [LoginRequest], validated ([email: EmailStr]). *)
Record LoginRequest := { login_email : string; login_password : string }.

(** [OAuth2PasswordRequestForm]: the fields the service reads. *)
Record OAuth2PasswordRequestForm := {
  form_username : string;
  form_password : string
}.

Definition LoginRequest_validate (b : LoginRequest) : result LoginRequest :=
  match EmailStr (login_email b) with
  | Some e => Return {| login_email := e;
                        login_password := login_password b |}
  | None => Raise (RequestValidationError ["email"%string])
  end.

(** JSON values of a response body. *)
Inductive json :=
| JNull
| JString (s : string)
| JBool (b : bool)
| JNumber (n : Z)
| JDatetime (t : Z).

Definition j_str (v : option string) : json :=
  match v with Some s => JString s | None => JNull end.

(** The body the response model serialises to. *)
Definition User_json (u : User) : list (string * json) :=
  [("email", JString (out_email u));
   ("username", JString (out_username u));
   ("first_name", j_str (out_first_name u));
   ("last_name", j_str (out_last_name u));
   ("phone_number", j_str (out_phone_number u));
   ("is_barber", JBool (out_is_barber u));
   ("id", JNumber (out_id u));
   ("is_active", JBool (out_is_active u));
   ("created_at", JDatetime (out_created_at u));
   ("updated_at", match out_updated_at u with
                  | Some t => JDatetime t
                  | None => JNull
                  end)]%string.

End WithLibraries.

End schemas.

(** ** app/utils/auth.py *)

Module utils_auth.

Section WithLibraries.
Context {L : Libraries}.

Definition SECRET_KEY : string :=
  match environ_SECRET_KEY with
  | Some k => k
  | None => "secret_key_123"
  end.
Definition ALGORITHM : string := "HS256".
Definition ACCESS_TOKEN_EXPIRE_MINUTES : Z := 30.

(** [timedelta(minutes=m)], in seconds. *)
Definition timedelta_minutes (m : Z) : Z := 60 * m.

(** [pwd_context.verify]: no hash verifies nothing, an unidentified
    hash raises. *)
Definition verify_password (plain_password : string)
  (hashed_password : option string) : result bool :=
  match hashed_password with
  | None => Return false
  | Some h =>
      match pwd_verify plain_password h with
      | Some b => Return b
      | None => Raise UnknownHashError
      end
  end.

Definition get_password_hash (s : salt) (password : string) : string :=
  pwd_hash s password.

(** The body of [create_access_token]; [now] is [datetime.utcnow()]. *)
Definition create_access_token (now : Z) (subject : Z)
  (expires_delta : option Z) : string :=
  let expire :=
    match expires_delta with
    | Some d =>
        if negb (d =? 0) then now + d
        else now + timedelta_minutes ACCESS_TOKEN_EXPIRE_MINUTES
    | None => now + timedelta_minutes ACCESS_TOKEN_EXPIRE_MINUTES
    end in
  jws_sign {| exp := Some expire; sub := Some (py_str subject) |}
           SECRET_KEY ALGORITHM.

(** The parameters [create_access_token] declares. *)
Definition create_access_token_parameters : list string :=
  ["subject"; "expires_delta"]%string.

(** A call by keywords binds each keyword to a declared parameter; a
    function without [**kwargs] raises on the first keyword it does
    not declare, before its body runs. *)
Definition unexpected_keyword (parameters keywords : list string)
  : option string :=
  find (fun k => negb (existsb (String.eqb k) parameters)) keywords.

Definition call_create_access_token (keywords : list string) (now : Z)
  (subject : Z) (expires_delta : option Z) : result string :=
  match unexpected_keyword create_access_token_parameters keywords with
  | Some k =>
      Raise (TypeError
               ("create_access_token() got an unexpected keyword argument '"
                ++ k ++ "'"))
  | None => Return (create_access_token now subject expires_delta)
  end.

(** [jose.jwt.decode(token, key, algorithms)] at instant [now]: the
    signature, then the [exp] claim; [None] is a [JWTError]. *)
Definition jwt_decode (token key : string) (algorithms : list string)
  (now : Z) : option claims :=
  match jws_verify token key algorithms with
  | None => None
  | Some c =>
      match exp c with
      | Some e => if e <? now then None else Some c
      | None => Some c
      end
  end.

End WithLibraries.

End utils_auth.

(** ** Attribute access on a mapped instance *)

Module attrs.
Import models.

Definition set_email v (u : User) : User :=
  {| id := id u; email := v; username := username u;
     first_name := first_name u; last_name := last_name u;
     phone_number := phone_number u; hashed_password := hashed_password u;
     is_active := is_active u; is_barber := is_barber u;
     created_at := created_at u; updated_at := updated_at u |}.
Definition set_username v (u : User) : User :=
  {| id := id u; email := email u; username := v;
     first_name := first_name u; last_name := last_name u;
     phone_number := phone_number u; hashed_password := hashed_password u;
     is_active := is_active u; is_barber := is_barber u;
     created_at := created_at u; updated_at := updated_at u |}.
Definition set_first_name v (u : User) : User :=
  {| id := id u; email := email u; username := username u;
     first_name := v; last_name := last_name u;
     phone_number := phone_number u; hashed_password := hashed_password u;
     is_active := is_active u; is_barber := is_barber u;
     created_at := created_at u; updated_at := updated_at u |}.
Definition set_last_name v (u : User) : User :=
  {| id := id u; email := email u; username := username u;
     first_name := first_name u; last_name := v;
     phone_number := phone_number u; hashed_password := hashed_password u;
     is_active := is_active u; is_barber := is_barber u;
     created_at := created_at u; updated_at := updated_at u |}.
Definition set_phone_number v (u : User) : User :=
  {| id := id u; email := email u; username := username u;
     first_name := first_name u; last_name := last_name u;
     phone_number := v; hashed_password := hashed_password u;
     is_active := is_active u; is_barber := is_barber u;
     created_at := created_at u; updated_at := updated_at u |}.
Definition set_hashed_password v (u : User) : User :=
  {| id := id u; email := email u; username := username u;
     first_name := first_name u; last_name := last_name u;
     phone_number := phone_number u; hashed_password := v;
     is_active := is_active u; is_barber := is_barber u;
     created_at := created_at u; updated_at := updated_at u |}.
Definition set_is_active v (u : User) : User :=
  {| id := id u; email := email u; username := username u;
     first_name := first_name u; last_name := last_name u;
     phone_number := phone_number u; hashed_password := hashed_password u;
     is_active := v; is_barber := is_barber u;
     created_at := created_at u; updated_at := updated_at u |}.
Definition set_is_barber v (u : User) : User :=
  {| id := id u; email := email u; username := username u;
     first_name := first_name u; last_name := last_name u;
     phone_number := phone_number u; hashed_password := hashed_password u;
     is_active := is_active u; is_barber := v;
     created_at := created_at u; updated_at := updated_at u |}.

(** [hasattr(db_user, field)]: the mapped columns. *)
Definition hasattr (field : string) : bool :=
  existsb (String.eqb field) columns.

(** The value as a text column holds it; a [bool] is none. *)
Definition as_text (v : pyval) : option (option string) :=
  match v with
  | PyNone => Some None
  | PyStr s => Some (Some s)
  | PyBool _ => None
  end.

(** The value as a boolean column holds it; a [str] is none. *)
Definition as_flag (v : pyval) : option (option bool) :=
  match v with
  | PyNone => Some None
  | PyBool b => Some (Some b)
  | PyStr _ => None
  end.

Definition set_text (set : option string -> User -> User) (v : pyval)
  (u : User) : User :=
  match as_text v with Some t => set t u | None => u end.

Definition set_flag (set : option bool -> User -> User) (v : pyval)
  (u : User) : User :=
  match as_flag v with Some t => set t u | None => u end.

(** [setattr(db_user, field, value)] for the columns an update
    payload can name.  The payload's fields are typed, so a value
    always has the type of its column; any other assignment is left
    out (the instance is returned as it is). *)
Definition setattr (u : User) (field : string) (value : pyval) : User :=
  if String.eqb field "email" then set_text set_email value u
  else if String.eqb field "username" then set_text set_username value u
  else if String.eqb field "first_name" then set_text set_first_name value u
  else if String.eqb field "last_name" then set_text set_last_name value u
  else if String.eqb field "phone_number"
       then set_text set_phone_number value u
  else if String.eqb field "hashed_password"
       then set_text set_hashed_password value u
  else if String.eqb field "is_active" then set_flag set_is_active value u
  else if String.eqb field "is_barber" then set_flag set_is_barber value u
  else u.

End attrs.

(** Dictionaries in insertion order. *)
Definition dict := list (string * pyval).

Definition dict_get (k : string) (d : dict) : option pyval :=
  option_map snd (find (fun kv => String.eqb (fst kv) k) d).

Definition dict_pop (k : string) (d : dict) : dict :=
  filter (fun kv => negb (String.eqb (fst kv) k)) d.

Definition dict_set (k : string) (v : pyval) (d : dict) : dict :=
  if existsb (fun kv => String.eqb (fst kv) k) d
  then map (fun kv => if String.eqb (fst kv) k then (k, v) else kv) d
  else (d ++ [(k, v)])%list.

(** The rows [LIMIT limit OFFSET skip] keeps: a negative offset is
    none, a negative limit is no limit. *)
Definition window {A} (skip limit : Z) (rows : list A) : list A :=
  let rest := skipn (Z.to_nat skip) rows in
  if limit <? 0 then rest else firstn (Z.to_nat limit) rest.

(** [db.query(User)....offset(skip).limit(limit).all()]: the offset
    and the limit are bound as parameters of the statement. *)
Definition offset_limit {A} (skip limit : Z) (rows : list A)
  : result (list A) :=
  if in_int64 skip && in_int64 limit
  then Return (window skip limit rows)
  else Raise int_too_large.

(** ** app/crud/user.py *)

Module crud.

Section WithLibraries.
Context {L : Libraries}.
Local Open Scope session_scope.

(** [user_id] is bound as the parameter of [User.id == user_id]. *)
Definition get_user (db : Store) (user_id : Z)
  : result (option models.User) :=
  if in_int64 user_id
  then Return (find (fun r => models.id r =? user_id) db)
  else Raise int_too_large.

Definition get_user_by_email (db : Store) (email : string)
  : option models.User :=
  find (fun r => col_is email (models.email r)) db.

Definition get_user_by_username (db : Store) (username : string)
  : option models.User :=
  find (fun r => col_is username (models.username r)) db.

Definition get_users (db : Store) (skip limit : Z)
  : result (list models.User) :=
  offset_limit skip limit db.

Definition get_barbers (db : Store) (skip limit : Z)
  : result (list models.User) :=
  offset_limit skip limit (filter (fun r => truthy (models.is_barber r)) db).

(** The primary key of the new instance is unassigned until the
    INSERT (it is written 0 and replaced there), as are [is_active]
    and the timestamps. *)
Definition create_user (user : schemas.UserCreate) (s : salt) (now : Z)
  : Session models.User :=
  let db_user :=
    {| models.id := 0;
       models.email := Some (schemas.email user);
       models.username := Some (schemas.username user);
       models.first_name := schemas.first_name user;
       models.last_name := schemas.last_name user;
       models.phone_number := schemas.phone_number user;
       models.hashed_password :=
         Some (utils_auth.get_password_hash s (schemas.password user));
       models.is_active := None;
       models.is_barber := Some (schemas.is_barber user);
       models.created_at := None;
       models.updated_at := None |} in
  insert db_user now.

(** The dictionary after the password step:
    [if "password" in update_data and update_data["password"]]. *)
Definition hash_password_item (s : salt) (update_data : dict) : dict :=
  match dict_get "password" update_data with
  | Some (PyStr password) =>
      if str_truthy password then
        dict_set "hashed_password"
                 (PyStr (utils_auth.get_password_hash s password))
                 (dict_pop "password" update_data)
      else update_data
  | _ => update_data
  end.

(** The loop over [update_data.items()]. *)
Definition apply_items (update_data : dict) (db_user : models.User)
  : models.User :=
  fold_left
    (fun o kv =>
       if attrs.hasattr (fst kv) then attrs.setattr o (fst kv) (snd kv)
       else o)
    update_data db_user.

Definition update_user (user_id : Z) (user : schemas.UserUpdate)
  (s : salt) (now : Z) : Session (option models.User) :=
  db_user <- execute (fun db => get_user db user_id) ;;
  match db_user with
  | None => ret None
  | Some db_user =>
      let update_data := schemas.dict_exclude_unset user in
      let update_data := hash_password_item s update_data in
      let changed := apply_items update_data db_user in
      row <- update db_user changed now ;;
      ret (Some row)
  end.

Definition delete_user (user_id : Z) : Session bool :=
  db_user <- execute (fun db => get_user db user_id) ;;
  match db_user with
  | None => ret false
  | Some db_user =>
      _ <- delete db_user ;;
      ret true
  end.

End WithLibraries.

End crud.

(** ** app/dependencies.py *)

Module dependencies.

Section WithLibraries.
Context {L : Libraries}.
Local Open Scope session_scope.

(** [OAuth2PasswordBearer]: the credentials of the request's
    [Authorization: Bearer] header, [None] when it carries none. *)
Definition oauth2_scheme (authorization : option string) : Session string :=
  match authorization with
  | Some token => ret token
  | None =>
      raise_http 401 "Not authenticated"
                 [("WWW-Authenticate", "Bearer")]%string
  end.

Definition credentials_exception {A} : Session A :=
  raise_http 401 "Could not validate credentials"
             [("WWW-Authenticate", "Bearer")]%string.

(** [filter(User.id == user_id)] with [user_id] a [str]: the text is
    bound as it is and compared as an integer when it reads as one that
    fits 64 bits; a text that reads as a larger one is compared as a
    REAL, which no id equals. *)
Definition id_is (user_id : string) (r : models.User) : bool :=
  match integer_affinity user_id with
  | Some n => in_int64 n && (models.id r =? n)
  | None => false
  end.

Definition get_current_user (token : string) (now : Z)
  : Session models.User :=
  match utils_auth.jwt_decode token utils_auth.SECRET_KEY
                              [utils_auth.ALGORITHM] now with
  | None => credentials_exception
  | Some payload =>
      match sub payload with
      | None => credentials_exception
      | Some user_id =>
          user <- query (fun db => find (id_is user_id) db) ;;
          match user with
          | None => credentials_exception
          | Some user =>
              if negb (truthy (models.is_active user))
              then raise_http 400 "Inactive user" []
              else ret user
          end
      end
  end.

Definition get_barber_user (current_user : models.User)
  : Session models.User :=
  if negb (truthy (models.is_barber current_user))
  then raise_http 403 "Not enough permissions" []
  else ret current_user.

End WithLibraries.

End dependencies.

(** ** app/routers/auth.py *)

Module routers_auth.

Section WithLibraries.
Context {L : Libraries}.
Local Open Scope session_scope.

(** The keywords both login handlers pass to [create_access_token]. *)
Definition token_call_keywords : list string :=
  ["subject"; "is_barber"; "expires_delta"]%string.

Definition issue (user : models.User) (now : Z) : Session schemas.Token :=
  let access_token_expires :=
    utils_auth.timedelta_minutes utils_auth.ACCESS_TOKEN_EXPIRE_MINUTES in
  access_token <-
    lift (utils_auth.call_create_access_token
            token_call_keywords now (models.id user)
            (Some access_token_expires)) ;;
  ret {| schemas.access_token := access_token;
         schemas.token_type := "bearer" |}.

Definition login_for_access_token
  (form_data : schemas.OAuth2PasswordRequestForm) (now : Z)
  : Session schemas.Token :=
  user <- query (fun db => crud.get_user_by_email
                             db (schemas.form_username form_data)) ;;
  match user with
  | None =>
      raise_http 401 "Incorrect email or password"
                 [("WWW-Authenticate", "Bearer")]%string
  | Some user =>
      verified <- lift (utils_auth.verify_password
                          (schemas.form_password form_data)
                          (models.hashed_password user)) ;;
      if negb verified then
        raise_http 401 "Incorrect email or password"
                   [("WWW-Authenticate", "Bearer")]%string
      else issue user now
  end.

Definition login_with_email (login_data : schemas.LoginRequest) (now : Z)
  : Session schemas.Token :=
  user <- query (fun db => crud.get_user_by_email
                             db (schemas.login_email login_data)) ;;
  match user with
  | None => raise_http 401 "Incorrect email or password" []
  | Some user =>
      verified <- lift (utils_auth.verify_password
                          (schemas.login_password login_data)
                          (models.hashed_password user)) ;;
      if negb verified then
        raise_http 401 "Incorrect email or password" []
      else issue user now
  end.

End WithLibraries.

End routers_auth.

(** ** app/routers/user.py *)

Module routers_user.

Section WithLibraries.
Context {L : Libraries}.
Local Open Scope session_scope.

Definition create_user (user : schemas.UserCreate) (s : salt) (now : Z)
  : Session models.User :=
  db_user <- query (fun db => crud.get_user_by_email db (schemas.email user)) ;;
  match db_user with
  | Some _ => raise_http 400 "Email already registered" []
  | None =>
      db_user <- query (fun db => crud.get_user_by_username
                                    db (schemas.username user)) ;;
      match db_user with
      | Some _ => raise_http 400 "Username already taken" []
      | None => crud.create_user user s now
      end
  end.

Definition read_users (skip limit : Z) (current_user : models.User)
  : Session (list models.User) :=
  execute (fun db => crud.get_users db skip limit).

Definition read_users_me (current_user : models.User)
  : Session models.User :=
  ret current_user.

Definition read_user (user_id : Z) (current_user : models.User)
  : Session models.User :=
  db_user <- execute (fun db => crud.get_user db user_id) ;;
  match db_user with
  | None => raise_http 404 "User not found" []
  | Some db_user => ret db_user
  end.

Definition update_user (user_id : Z) (user : schemas.UserUpdate)
  (current_user : models.User) (s : salt) (now : Z)
  : Session (option models.User) :=
  db_user <- execute (fun db => crud.get_user db user_id) ;;
  match db_user with
  | None => raise_http 404 "User not found" []
  | Some _ =>
      if negb (models.id current_user =? user_id)
         && negb (truthy (models.is_barber current_user))
      then raise_http 403 "Not enough permissions" []
      else crud.update_user user_id user s now
  end.

Definition delete_user (user_id : Z) (current_user : models.User)
  : Session unit :=
  success <- crud.delete_user user_id ;;
  if negb success then raise_http 404 "User not found" []
  else ret tt.

Definition read_barbers (skip limit : Z) : Session (list models.User) :=
  execute (fun db => crud.get_barbers db skip limit).

End WithLibraries.

End routers_user.

(** ** The operations as the application serves them

    A request runs its dependencies first ([get_current_user],
    [get_barber_user]), then the validation of its body, then the
    handler, and last the validation of what the handler returned
    against the response model.  A request is given with its path and
    query parameters as the framework parsed them: an [int] parameter
    is a Python [int], which has no bound. *)

Module app.

Section WithLibraries.
Context {L : Libraries}.
Local Open Scope session_scope.

Inductive request :=
| Register (body : schemas.UserCreate_body)
| ListUsers (authorization : option string) (skip limit : Z)
| GetSelf (authorization : option string)
| GetById (authorization : option string) (user_id : Z)
| Update (authorization : option string) (user_id : Z)
         (body : schemas.UserUpdate)
| Delete (authorization : option string) (user_id : Z)
| ListBarbers (skip limit : Z)
| LoginForm (form_data : schemas.OAuth2PasswordRequestForm)
| LoginEmail (body : schemas.LoginRequest).

Inductive content :=
| UserBody (u : schemas.User)
| UsersBody (us : list schemas.User)
| TokenBody (t : schemas.Token)
| NoContent.

(** The operations behind [Depends(get_current_user)], directly or
    through [get_barber_user]. *)
Definition protected (r : request) : option (option string) :=
  match r with
  | ListUsers a _ _ | GetSelf a | GetById a _ | Update a _ _ | Delete a _ =>
      Some a
  | _ => None
  end.

Definition success_status (r : request) : Z :=
  match r with
  | Register _ => 201
  | Delete _ _ => 204
  | _ => 200
  end.

Definition current_user (authorization : option string) (now : Z)
  : Session models.User :=
  token <- dependencies.oauth2_scheme authorization ;;
  dependencies.get_current_user token now.

Definition barber_user (authorization : option string) (now : Z)
  : Session models.User :=
  user <- current_user authorization now ;;
  dependencies.get_barber_user user.

Definition respond_user (u : models.User) : Session content :=
  o <- lift (schemas.User_validate u) ;;
  ret (UserBody o).

Definition respond_users (us : list models.User) : Session content :=
  os <- lift (schemas.Users_validate us) ;;
  ret (UsersBody os).

Definition serve (r : request) (s : salt) (now : Z) : Session content :=
  match r with
  | Register body =>
      user <- lift (schemas.UserCreate_validate body) ;;
      u <- routers_user.create_user user s now ;;
      respond_user u
  | ListUsers authorization skip limit =>
      me <- current_user authorization now ;;
      us <- routers_user.read_users skip limit me ;;
      respond_users us
  | GetSelf authorization =>
      me <- current_user authorization now ;;
      u <- routers_user.read_users_me me ;;
      respond_user u
  | GetById authorization user_id =>
      me <- current_user authorization now ;;
      u <- routers_user.read_user user_id me ;;
      respond_user u
  | Update authorization user_id body =>
      me <- current_user authorization now ;;
      user <- lift (schemas.UserUpdate_validate body) ;;
      u <- routers_user.update_user user_id user me s now ;;
      match u with
      | Some u => respond_user u
      | None => raise (ResponseValidationError [])
      end
  | Delete authorization user_id =>
      me <- barber_user authorization now ;;
      _ <- routers_user.delete_user user_id me ;;
      ret NoContent
  | ListBarbers skip limit =>
      us <- routers_user.read_barbers skip limit ;;
      respond_users us
  | LoginForm form_data =>
      t <- routers_auth.login_for_access_token form_data now ;;
      ret (TokenBody t)
  | LoginEmail body =>
      login_data <- lift (schemas.LoginRequest_validate body) ;;
      t <- routers_auth.login_with_email login_data now ;;
      ret (TokenBody t)
  end.

(** The status code of the answer. *)
Definition status (r : request) (s : salt) (now : Z) (db : Store) : Z :=
  status_of (success_status r) (fst (serve r s now db)).

End WithLibraries.

End app.

(** ** A small instance of the libraries

    Used to run the service on concrete requests: a hash is the salt
    and the password behind a marker, a token is the key and the claims
    in the clear. *)

Module Toy.

Definition marker : string := "$toy$".

Definition hash (s : string) (password : string) : string :=
  (marker ++ s ++ "$" ++ password)%string.

Fixpoint after_dollar (h : string) : option string :=
  match h with
  | EmptyString => None
  | String c rest =>
      if Ascii.eqb c "$" then Some rest else after_dollar rest
  end.

Definition verify (password h : string) : option bool :=
  if String.prefix marker h then
    match after_dollar (String.substring 5 (String.length h - 5) h) with
    | Some p => Some (String.eqb p password)
    | None => None
    end
  else None.

Definition show_claims (c : claims) : string :=
  ((match exp c with Some e => py_str e | None => EmptyString end)
   ++ ";" ++ (match sub c with Some s => s | None => EmptyString end))%string.

Definition sign (c : claims) (key alg : string) : string :=
  (key ++ "." ++ alg ++ "." ++ show_claims c)%string.

Fixpoint split_at (sep : ascii) (s : string) : option (string * string) :=
  match s with
  | EmptyString => None
  | String c rest =>
      if Ascii.eqb c sep then Some (EmptyString, rest)
      else match split_at sep rest with
           | Some (a, b) => Some (String c a, b)
           | None => None
           end
  end.

Definition to_Z (s : string) : option Z :=
  option_map Z.of_int (NilZero.int_of_string s).

Definition read_claims (s : string) : option claims :=
  match split_at ";" s with
  | Some (e, u) =>
      Some {| exp := to_Z e;
              sub := match u with EmptyString => None | _ => Some u end |}
  | None => None
  end.

Definition check (token key : string) (algs : list string) : option claims :=
  match split_at "." token with
  | Some (k, rest) =>
      match split_at "." rest with
      | Some (alg, body) =>
          if String.eqb k key && existsb (String.eqb alg) algs
          then read_claims body else None
      | None => None
      end
  | None => None
  end.

Definition lower (c : ascii) : ascii :=
  let n := nat_of_ascii c in
  if (65 <=? n)%nat && (n <=? 90)%nat then ascii_of_nat (n + 32) else c.

Fixpoint lowercase (s : string) : string :=
  match s with
  | EmptyString => EmptyString
  | String c rest => String (lower c) (lowercase rest)
  end.

(** An address is a local part, an at sign and a domain; it is
    normalised by writing the domain in lower case. *)
Definition email_str (s : string) : option string :=
  match split_at "@" s with
  | Some (local, domain) => Some (local ++ "@" ++ lowercase domain)%string
  | None => None
  end.

Definition libraries : Libraries := {|
  salt := string;
  pwd_hash := hash;
  pwd_verify := verify;
  jws_sign := sign;
  jws_verify := check;
  EmailStr := email_str;
  integer_affinity := to_Z;
  environ_SECRET_KEY := None
|}.

(** A table of three users: alice, a regular user; bob, a barber;
    carol, whose account is inactive. *)
Definition alice : models.User :=
  {| models.id := 1;
     models.email := Some "a@x.com"%string;
     models.username := Some "alice"%string;
     models.first_name := None;
     models.last_name := None;
     models.phone_number := None;
     models.hashed_password := Some (hash "s1" "secret1");
     models.is_active := Some true;
     models.is_barber := Some false;
     models.created_at := Some 100;
     models.updated_at := None |}.

Definition bob : models.User :=
  {| models.id := 2;
     models.email := Some "b@x.com"%string;
     models.username := Some "bob"%string;
     models.first_name := Some "Bob"%string;
     models.last_name := None;
     models.phone_number := None;
     models.hashed_password := Some (hash "s2" "barber123");
     models.is_active := Some true;
     models.is_barber := Some true;
     models.created_at := Some 110;
     models.updated_at := None |}.

Definition carol : models.User :=
  {| models.id := 3;
     models.email := Some "c@x.com"%string;
     models.username := Some "carol"%string;
     models.first_name := None;
     models.last_name := None;
     models.phone_number := None;
     models.hashed_password := Some (hash "s3" "carol123");
     models.is_active := Some false;
     models.is_barber := Some false;
     models.created_at := Some 120;
     models.updated_at := None |}.

Definition users : Store := [alice; bob; carol].

(** A token signed with the service's key for the user with this
    id, expiring at instant 2000. *)
Definition token_of (user_id : Z) : string :=
  sign {| exp := Some 2000; sub := Some (py_str user_id) |}
       "secret_key_123" "HS256".

End Toy.

(** ** Vocabulary of the statements *)

Definition by_form (e p : string) : schemas.OAuth2PasswordRequestForm :=
  {| schemas.form_username := e; schemas.form_password := p |}.

Definition by_json (e p : string) : schemas.LoginRequest :=
  {| schemas.login_email := e; schemas.login_password := p |}.

Definition unexpected_is_barber : exn :=
  TypeError
    "create_access_token() got an unexpected keyword argument 'is_barber'".

Definition invalid_credentials (headers : list (string * string))
  : result schemas.Token :=
  HTTPException 401 "Incorrect email or password" headers.

Ltac session :=
  unfold bind, query, execute, ret, raise_http, raise, lift in *.

(** ** Concrete requests *)

(** The least integer above those SQLite stores. *)
Definition beyond_int64 : Z := 2 ^ 63.

Module Examples.

(** A registration with a new address under bob's username. *)
Definition bob_again : schemas.UserCreate :=
  {| schemas.email := "bob2@x.com";
     schemas.username := "bob";
     schemas.first_name := None;
     schemas.last_name := None;
     schemas.phone_number := None;
     schemas.is_barber := false;
     schemas.password := "password123" |}.

(** The body [{"first_name": "Al", "last_name": "Ice"}]. *)
Definition names : schemas.UserUpdate :=
  {| schemas.upd_email := None;
     schemas.upd_username := None;
     schemas.upd_first_name := Some (Some "Al"%string);
     schemas.upd_last_name := Some (Some "Ice"%string);
     schemas.upd_phone_number := None;
     schemas.upd_password := None;
     schemas.upd_is_active := None;
     schemas.upd_is_barber := None |}.

(** The body [{"is_barber": true}]. *)
Definition make_barber : schemas.UserUpdate :=
  {| schemas.upd_email := None;
     schemas.upd_username := None;
     schemas.upd_first_name := None;
     schemas.upd_last_name := None;
     schemas.upd_phone_number := None;
     schemas.upd_password := None;
     schemas.upd_is_active := None;
     schemas.upd_is_barber := Some (Some true) |}.


End Examples.

(** ** The merge an update amounts to *)

Section Merge.
Context {L : Libraries}.

(** A field that was set gives the column its value; one that was not
    leaves the column. *)
Definition merge {A} (field : option A) (column : A) : A :=
  match field with Some v => v | None => column end.

(** The password field reaches the hash column only when it holds a
    non-empty string, and then as its hash. *)
Definition merge_password (s : salt) (field : option (option string))
  (column : option string) : option string :=
  match field with
  | Some (Some password) =>
      if str_truthy password
      then Some (utils_auth.get_password_hash s password)
      else column
  | _ => column
  end.

(** The instance as the payload says it should be, column by column. *)
Definition merged (s : salt) (p : schemas.UserUpdate) (u : models.User)
  : models.User :=
  {| models.id := models.id u;
     models.email := merge (schemas.upd_email p) (models.email u);
     models.username := merge (schemas.upd_username p) (models.username u);
     models.first_name :=
       merge (schemas.upd_first_name p) (models.first_name u);
     models.last_name := merge (schemas.upd_last_name p) (models.last_name u);
     models.phone_number :=
       merge (schemas.upd_phone_number p) (models.phone_number u);
     models.hashed_password :=
       merge_password s (schemas.upd_password p) (models.hashed_password u);
     models.is_active := merge (schemas.upd_is_active p) (models.is_active u);
     models.is_barber := merge (schemas.upd_is_barber p) (models.is_barber u);
     models.created_at := models.created_at u;
     models.updated_at := models.updated_at u |}.

(** The validator accepts, unchanged, every address it has returned. *)
Definition email_stable : Prop :=
  forall e e', EmailStr e = Some e' -> EmailStr e' = Some e'.

(** What every row written through the service satisfies: the columns
    the response model requires besides the two flags. *)
Definition row_ok (r : models.User) : Prop :=
  (exists e, models.email r = Some e /\ EmailStr e = Some e)
  /\ models.username r <> None
  /\ models.hashed_password r <> None
  /\ models.created_at r <> None.

(** The tables the service can be in: the empty one, and those a
    request leads to. *)
Inductive reachable : Store -> Prop :=
| reach_empty : reachable []
| reach_serve db r s now :
    reachable db -> reachable (snd (app.serve r s now db)).

End Merge.

(** ** The frame of an update *)

(** Every column whose field the payload leaves unset has in [row]
    the value it has in [old]; the password field stands for the hash
    column. *)
Definition unset_kept (p : schemas.UserUpdate) (old row : models.User)
  : Prop :=
  (schemas.upd_email p = None -> models.email row = models.email old)
  /\ (schemas.upd_username p = None ->
      models.username row = models.username old)
  /\ (schemas.upd_first_name p = None ->
      models.first_name row = models.first_name old)
  /\ (schemas.upd_last_name p = None ->
      models.last_name row = models.last_name old)
  /\ (schemas.upd_phone_number p = None ->
      models.phone_number row = models.phone_number old)
  /\ (schemas.upd_password p = None ->
      models.hashed_password row = models.hashed_password old)
  /\ (schemas.upd_is_active p = None ->
      models.is_active row = models.is_active old)
  /\ (schemas.upd_is_barber p = None ->
      models.is_barber row = models.is_barber old).

(** The columns other than the hash take their value from their own
    field of the payload, or keep it. *)
Definition columns_from_own_fields (p : schemas.UserUpdate)
  (old row : models.User) : Prop :=
  models.email row = merge (schemas.upd_email p) (models.email old)
  /\ models.username row
     = merge (schemas.upd_username p) (models.username old)
  /\ models.first_name row
     = merge (schemas.upd_first_name p) (models.first_name old)
  /\ models.last_name row
     = merge (schemas.upd_last_name p) (models.last_name old)
  /\ models.phone_number row
     = merge (schemas.upd_phone_number p) (models.phone_number old)
  /\ models.is_active row
     = merge (schemas.upd_is_active p) (models.is_active old)
  /\ models.is_barber row
     = merge (schemas.upd_is_barber p) (models.is_barber old).

(** The columns a payload can write hold in [row] what they hold in
    [old]. *)
Definition same_columns (old row : models.User) : Prop :=
  models.email row = models.email old
  /\ models.username row = models.username old
  /\ models.first_name row = models.first_name old
  /\ models.last_name row = models.last_name old
  /\ models.phone_number row = models.phone_number old
  /\ models.hashed_password row = models.hashed_password old
  /\ models.is_active row = models.is_active old
  /\ models.is_barber row = models.is_barber old.

(** alice after [{"first_name": "Al", "last_name": "Ice"}] at 200. *)
Definition alice_renamed : models.User :=
  {| models.id := 1;
     models.email := Some "a@x.com"%string;
     models.username := Some "alice"%string;
     models.first_name := Some "Al"%string;
     models.last_name := Some "Ice"%string;
     models.phone_number := None;
     models.hashed_password := Some (Toy.hash "s1" "secret1");
     models.is_active := Some true;
     models.is_barber := Some false;
     models.created_at := Some 100;
     models.updated_at := Some 200 |}.


(** ** Invariants of session code *)

(** [m] keeps the table within [I], and what it returns satisfies [Q]. *)
Definition keeps {A} (I : Store -> Prop) (m : Session A) (Q : A -> Prop)
  : Prop :=
  forall db,
    I db -> I (snd (m db)) /\ forall a, fst (m db) = Return a -> Q a.

(** Every row of the table is well formed. *)
Definition rows_ok {L : Libraries} (db : Store) : Prop := Forall row_ok db.

(** A validated payload's address is one the validator returned. *)
Definition address_validated {L : Libraries} (p : schemas.UserUpdate) : Prop :=
  forall e, schemas.upd_email p = Some (Some e) -> EmailStr e = Some e.

(** ** Registration, as the caller sees it *)

(** The row a registration inserts. *)
Definition new_row {L : Libraries} (user : schemas.UserCreate) (s : salt)
  (rowid now : Z) : models.User :=
  {| models.id := rowid;
     models.email := Some (schemas.email user);
     models.username := Some (schemas.username user);
     models.first_name := schemas.first_name user;
     models.last_name := schemas.last_name user;
     models.phone_number := schemas.phone_number user;
     models.hashed_password :=
       Some (utils_auth.get_password_hash s (schemas.password user));
     models.is_active := Some true;
     models.is_barber := Some (schemas.is_barber user);
     models.created_at := Some now;
     models.updated_at := None |}.

(** The same body with another password. *)
Definition with_password (password : string) (b : schemas.UserCreate_body)
  : schemas.UserCreate_body :=
  {| schemas.body_email := schemas.body_email b;
     schemas.body_username := schemas.body_username b;
     schemas.body_first_name := schemas.body_first_name b;
     schemas.body_last_name := schemas.body_last_name b;
     schemas.body_phone_number := schemas.body_phone_number b;
     schemas.body_is_barber := schemas.body_is_barber b;
     schemas.body_password := password |}.

(** No stored user has the address or the username. *)
Definition unused (db : Store) (email username : string) : Prop :=
  forall r, In r db ->
            models.email r <> Some email /\ models.username r <> Some username.

(** The keys of a response body. *)
Definition keys (body : list (string * schemas.json)) : list string :=
  map fst body.

(** Bodies of Register. *)
Definition dave_body : schemas.UserCreate_body :=
  {| schemas.body_email := "d@x.com";
     schemas.body_username := "dave";
     schemas.body_first_name := Some "Dave"%string;
     schemas.body_last_name := None;
     schemas.body_phone_number := None;
     schemas.body_is_barber := Some true;
     schemas.body_password := "password123" |}.

Definition short_password_body : schemas.UserCreate_body :=
  with_password "12345" dave_body.

(** A password of three characters, each of three bytes in UTF-8
    (U+65E5, U+672C, U+8A9E). *)
Definition three_characters : string :=
  String "230" (String "151" (String "165"
    (String "230" (String "156" (String "172"
      (String "232" (String "170" (String "158" EmptyString)))))))).

Definition three_characters_body : schemas.UserCreate_body :=
  with_password three_characters dave_body.

(** The body that registers alice. *)
Definition alice_body : schemas.UserCreate_body :=
  {| schemas.body_email := "a@x.com";
     schemas.body_username := "alice";
     schemas.body_first_name := None;
     schemas.body_last_name := None;
     schemas.body_phone_number := None;
     schemas.body_is_barber := None;
     schemas.body_password := "secret1" |}.

(** dave's body with the domain of the address in capitals. *)
Definition capitals_body : schemas.UserCreate_body :=
  {| schemas.body_email := "d@X.COM";
     schemas.body_username := "dave";
     schemas.body_first_name := Some "Dave"%string;
     schemas.body_last_name := None;
     schemas.body_phone_number := None;
     schemas.body_is_barber := Some true;
     schemas.body_password := "password123" |}.

(** dave as validated from [dave_body]. *)
Definition dave_validated : schemas.UserCreate :=
  {| schemas.email := "d@x.com";
     schemas.username := "dave";
     schemas.first_name := Some "Dave"%string;
     schemas.last_name := None;
     schemas.phone_number := None;
     schemas.is_barber := true;
     schemas.password := "password123" |}.

(** ** Vocabulary of the further statements *)

(** The lifetime [create_access_token] gives a token: the given delta
    unless it is absent or zero. *)
Definition lifetime (expires_delta : option Z) : Z :=
  match expires_delta with
  | Some d => if d =? 0 then 1800 else d
  | None => 1800
  end.

(** An answer that is neither an [HTTPException] nor a rejected
    request body. *)
Definition past_the_checks {A} (res : result A) : Prop :=
  match res with
  | HTTPException _ _ _ => False
  | Raise (RequestValidationError _) => False
  | _ => True
  end.

(** What serving a request can do to the table: nothing; one INSERT,
    by a valid Register of an unused address and username; one UPDATE,
    by an Update-by-id of a resolved caller who is the target or a
    barber; one DELETE, by a Delete-by-id of a resolved barber. *)
Inductive effect {L : Libraries} (s : salt) (now : Z) (db : Store)
  : app.request -> result app.content -> Store -> Prop :=
| effect_none r res : effect s now db r res db
| effect_insert body user res :
    schemas.UserCreate_validate body = Return user ->
    unused db (schemas.email user) (schemas.username user) ->
    past_the_checks res ->
    effect s now db (app.Register body) res
           (db ++ [new_row user s (next_rowid db) now])%list
| effect_update authorization user_id body p me old res :
    app.current_user authorization now db = (Return me, db) ->
    schemas.UserUpdate_validate body = Return p ->
    crud.get_user db user_id = Return (Some old) ->
    models.id me = user_id \/ truthy (models.is_barber me) = true ->
    first_violation (violations old (merged s p old) db) = None ->
    past_the_checks res ->
    effect s now db (app.Update authorization user_id body) res
           (map (fun r => if models.id r =? models.id old
                          then flushed old (merged s p old) now else r) db)
| effect_delete authorization user_id me old :
    app.current_user authorization now db = (Return me, db) ->
    truthy (models.is_barber me) = true ->
    crud.get_user db user_id = Return (Some old) ->
    effect s now db (app.Delete authorization user_id)
           (Return app.NoContent)
           (filter (fun r => negb (models.id r =? models.id old)) db).

(** No two rows share an id, an address or a username, and no row
    lacks an address or a username. *)
Definition distinct_keys (db : Store) : Prop :=
  NoDup (map models.id db)
  /\ NoDup (map models.email db)
  /\ NoDup (map models.username db)
  /\ Forall (fun r => models.email r <> None /\ models.username r <> None) db.

(** The hash column holds a hash the context made. *)
Definition holds_a_hash {L : Libraries} (r : models.User) : Prop :=
  exists s password, models.hashed_password r = Some (pwd_hash s password).

(** The bodies [{"is_active": false}] and [{"is_barber": null}]. *)
Definition deactivate : schemas.UserUpdate :=
  {| schemas.upd_email := None;
     schemas.upd_username := None;
     schemas.upd_first_name := None;
     schemas.upd_last_name := None;
     schemas.upd_phone_number := None;
     schemas.upd_password := None;
     schemas.upd_is_active := Some (Some false);
     schemas.upd_is_barber := None |}.

Definition null_barber : schemas.UserUpdate :=
  {| schemas.upd_email := None;
     schemas.upd_username := None;
     schemas.upd_first_name := None;
     schemas.upd_last_name := None;
     schemas.upd_phone_number := None;
     schemas.upd_password := None;
     schemas.upd_is_active := None;
     schemas.upd_is_barber := Some None |}.

(** The body [{"email": e}], [e] a string or null. *)
Definition new_email (e : option string) : schemas.UserUpdate :=
  {| schemas.upd_email := Some e;
     schemas.upd_username := None;
     schemas.upd_first_name := None;
     schemas.upd_last_name := None;
     schemas.upd_phone_number := None;
     schemas.upd_password := None;
     schemas.upd_is_active := None;
     schemas.upd_is_barber := None |}.

(** ** app/utils/logging.py *)

Module utils_logging.

(** A handler: its stream and the format of its formatter. *)
Record Handler := { stream : string; format : string }.

(** The attributes of a logger the module touches. *)
Record Logger := {
  level : Z;
  propagate : bool;
  handlers : list Handler
}.

(** The loggers [logging.getLogger] knows, by name: the same name gives
    the same logger, so a logger is spoken of by its name.  The names
    are those of loggers below the root, as the module passes them;
    the empty name, which stands for the root logger, is none of
    them. *)
Definition Registry := list (string * Logger).

Definition lookup (name : string) (reg : Registry) : option Logger :=
  option_map snd (find (fun kv => String.eqb (fst kv) name) reg).

Definition store (name : string) (l : Logger) (reg : Registry) : Registry :=
  if existsb (fun kv => String.eqb (fst kv) name) reg
  then map (fun kv => if String.eqb (fst kv) name then (name, l) else kv) reg
  else (reg ++ [(name, l)])%list.

(** A logger as [logging.getLogger] first makes it. *)
Definition fresh_logger : Logger :=
  {| level := 0; propagate := true; handlers := [] |}.

Definition getLogger (name : string) (reg : Registry) : Logger * Registry :=
  match lookup name reg with
  | Some l => (l, reg)
  | None => (fresh_logger, store name fresh_logger reg)
  end.

Definition LOG_FORMAT : string :=
  "%(asctime)s - %(name)s - %(levelname)s - %(message)s".

(** [getattr(logging, LOG_LEVEL)] followed by [setLevel]: the level
    names of the module; any other name raises ([None]). *)
Definition level_named (name : string) : option Z :=
  if String.eqb name "CRITICAL" then Some 50
  else if String.eqb name "FATAL" then Some 50
  else if String.eqb name "ERROR" then Some 40
  else if String.eqb name "WARNING" then Some 30
  else if String.eqb name "WARN" then Some 30
  else if String.eqb name "INFO" then Some 20
  else if String.eqb name "DEBUG" then Some 10
  else if String.eqb name "NOTSET" then Some 0
  else None.

Definition console_handler : Handler :=
  {| stream := "sys.stdout"; format := LOG_FORMAT |}.

Definition main_name : string := "barbershop-user-service".

Section WithLevel.
(** The module constant [LOG_LEVEL]: the environment's value, or
    "INFO", upper-cased. *)
Variable LOG_LEVEL : string.

(** [setup_logger(name)]: the name of the logger it returns and the
    registry it leaves; [None] when [LOG_LEVEL] names no level, in which
    case the logger has still been looked up (and made, if new). *)
Definition setup_logger (name : string) (reg : Registry)
  : option string * Registry :=
  let (logger, reg) := getLogger name reg in
  match level_named LOG_LEVEL with
  | None => (None, reg)
  | Some lv =>
      let kept :=
        match handlers logger with
        | [] => handlers logger
        | _ :: _ => []
        end in
      (Some name,
       store name
             {| level := lv;
                propagate := false;
                handlers := (kept ++ [console_handler])%list |}
             reg)
  end.

(** The registry once the module is imported: [logger = setup_logger()]. *)
Definition imported (reg : Registry) : option string * Registry :=
  setup_logger main_name reg.

(** [get_logger(name)], [name] being [None] or a string. *)
Definition get_logger (name : option string) (reg : Registry)
  : option string * Registry :=
  match name with
  | Some n =>
      if str_truthy n
      then setup_logger (main_name ++ "." ++ n) reg
      else (Some main_name, reg)
  | None => (Some main_name, reg)
  end.

(** The registries the module leaves: after its import, and after each
    further call of [get_logger]. *)
Inductive configured : Registry -> Prop :=
| configured_import : configured (snd (imported []))
| configured_get name reg :
    configured reg -> configured (snd (get_logger name reg)).

End WithLevel.

End utils_logging.

(** * Properties *)

(** ** Login *)

Section Login.
Context {L : Libraries}.

Lemma issue_raises (u : models.User) (now : Z) (db : Store) :
  routers_auth.issue u now db = (Raise unexpected_is_barber, db).
Proof. reflexivity. Qed.

(** C1 (as the code runs): for every stored user and either login
    operation, a request carrying the user's e-mail address and a
    password that verifies against the stored hash does not answer
    with a token: the call of [create_access_token] passes the keyword
    [is_barber], which the function does not declare, and the request
    ends in a [TypeError], answered 500, with the table untouched. *)
Theorem login_correct_password_raises
    (db : Store) (u : models.User) (e p : string) (s : salt) (now : Z) :
  crud.get_user_by_email db e = Some u ->
  utils_auth.verify_password p (models.hashed_password u) = Return true ->
  (routers_auth.login_for_access_token (by_form e p) now db
   = (Raise unexpected_is_barber, db)
   /\ app.status (app.LoginForm (by_form e p)) s now db = 500)
  /\ (routers_auth.login_with_email (by_json e p) now db
      = (Raise unexpected_is_barber, db)
      /\ forall body,
          schemas.LoginRequest_validate body = Return (by_json e p) ->
          app.status (app.LoginEmail body) s now db = 500).
Proof.
  intros Hfind Hverify.
  assert (Hform : routers_auth.login_for_access_token (by_form e p) now db
                  = (Raise unexpected_is_barber, db)).
  { unfold routers_auth.login_for_access_token. session; simpl.
    rewrite Hfind, Hverify; simpl. now rewrite issue_raises. }
  assert (Hjson : routers_auth.login_with_email (by_json e p) now db
                  = (Raise unexpected_is_barber, db)).
  { unfold routers_auth.login_with_email. session; simpl.
    rewrite Hfind, Hverify; simpl. now rewrite issue_raises. }
  split; split; try assumption.
  - unfold app.status, app.serve, bind. now rewrite Hform.
  - intros body Hbody.
    unfold app.status, app.serve, bind, lift. now rewrite Hbody, Hjson.
Qed.

(** The token [create_access_token] builds when it is called with the
    parameters it declares: any signing scheme whose tokens verify
    under their key gives a token that [jwt.decode] accepts until its
    expiry, with the user's id as a string for subject and an expiry
    30 minutes after the issue. *)
Lemma create_access_token_accepted (user_id now later : Z) :
  (forall c key alg, jws_verify (jws_sign c key alg) key [alg] = Some c) ->
  later <= now + 1800 ->
  utils_auth.jwt_decode
    (utils_auth.create_access_token
       now user_id
       (Some (utils_auth.timedelta_minutes
                utils_auth.ACCESS_TOKEN_EXPIRE_MINUTES)))
    utils_auth.SECRET_KEY [utils_auth.ALGORITHM] later
  = Some {| exp := Some (now + 1800); sub := Some (py_str user_id) |}.
Proof.
  intros Hsig Hlater.
  unfold utils_auth.jwt_decode, utils_auth.create_access_token.
  rewrite Hsig.
  change (utils_auth.timedelta_minutes utils_auth.ACCESS_TOKEN_EXPIRE_MINUTES)
    with 1800.
  cbn [exp negb Z.eqb].
  destruct (now + 1800 <? later) eqn:E; [|reflexivity].
  apply Z.ltb_lt in E; lia.
Qed.

(** C4: both login operations look the user up by e-mail address (the
    form's [username] is the address), and a run that fails because the
    address is unknown and a run that fails because the password does
    not verify end in the same 401 outcome: the same detail for both
    operations, and within each operation the same answer altogether,
    headers included. *)
Theorem login_failures_indistinguishable
    (db1 db2 : Store) (e1 p1 e2 p2 : string) (u : models.User)
    (now1 now2 : Z) :
  crud.get_user_by_email db1 e1 = None ->
  crud.get_user_by_email db2 e2 = Some u ->
  utils_auth.verify_password p2 (models.hashed_password u) = Return false ->
  (fst (routers_auth.login_for_access_token (by_form e1 p1) now1 db1)
     = invalid_credentials [("WWW-Authenticate", "Bearer")]%string
   /\ fst (routers_auth.login_for_access_token (by_form e2 p2) now2 db2)
     = fst (routers_auth.login_for_access_token (by_form e1 p1) now1 db1))
  /\ (fst (routers_auth.login_with_email (by_json e1 p1) now1 db1)
        = invalid_credentials []
      /\ fst (routers_auth.login_with_email (by_json e2 p2) now2 db2)
        = fst (routers_auth.login_with_email (by_json e1 p1) now1 db1)).
Proof.
  intros Hunknown Hknown Hwrong.
  unfold routers_auth.login_for_access_token, routers_auth.login_with_email.
  session; simpl.
  rewrite Hunknown, Hknown, Hwrong; simpl.
  repeat split.
Qed.

End Login.

Lemma login_correct_password_raises_witness :
  routers_auth.login_for_access_token
    (L := Toy.libraries) (by_form "a@x.com" "secret1") 150 Toy.users
  = (Raise unexpected_is_barber, Toy.users)
  /\ app.status (L := Toy.libraries)
                (app.LoginEmail (by_json "a@x.com" "secret1"))
                "s4"%string 150 Toy.users = 500.
Proof.
  destruct (login_correct_password_raises
              (L := Toy.libraries) Toy.users Toy.alice "a@x.com" "secret1"
              "s4"%string 150 eq_refl eq_refl)
    as [[Hform _] [_ Hjson]].
  split; [exact Hform | exact (Hjson (by_json "a@x.com" "secret1") eq_refl)].
Defined.

Lemma login_failures_indistinguishable_witness :
  fst (routers_auth.login_for_access_token
         (L := Toy.libraries) (by_form "a@x.com" "guess") 160 Toy.users)
  = fst (routers_auth.login_for_access_token
           (L := Toy.libraries) (by_form "z@x.com" "guess") 150 Toy.users).
Proof.
  apply (login_failures_indistinguishable (L := Toy.libraries)
           Toy.users Toy.users "z@x.com" "guess" "a@x.com" "guess"
           Toy.alice 150 160);
    reflexivity.
Defined.

(** ** The table *)

Section Table.

Lemma col_is_eq (v : string) (c : option string) :
  col_is v c = true <-> c = Some v.
Proof.
  destruct c as [s|]; simpl.
  - rewrite String.eqb_eq. split; [intros -> | intros [= ->]]; reflexivity.
  - split; discriminate.
Qed.

Lemma find_col_none (col : models.User -> option string) (v : string)
    (db : Store) :
  (forall r, In r db -> col r <> Some v) ->
  find (fun r => col_is v (col r)) db = None.
Proof.
  induction db as [|r db IH]; simpl; intros H; [reflexivity|].
  destruct (col_is v (col r)) eqn:E.
  - apply col_is_eq in E. now destruct (H r (or_introl eq_refl)).
  - apply IH. intros r' Hin. apply H. now right.
Qed.

Lemma find_col_some (col : models.User -> option string) (v : string)
    (db : Store) (r : models.User) :
  In r db -> col r = Some v ->
  exists r', find (fun r => col_is v (col r)) db = Some r'.
Proof.
  intros Hin Hcol.
  destruct (find (fun r => col_is v (col r)) db) as [r'|] eqn:E;
    [now exists r'|].
  apply (find_none _ _ E) in Hin.
  apply col_is_eq in Hcol. congruence.
Qed.

Lemma existsb_col_none (col : models.User -> option string) (v : string)
    (db : Store) :
  (forall r, In r db -> col r <> Some v) ->
  existsb (fun r => col_is v (col r)) db = false.
Proof.
  intros H. apply not_true_is_false. intros E.
  apply existsb_exists in E as (r & Hin & Hr).
  apply col_is_eq in Hr. now apply (H r).
Qed.

Lemma fold_max_bounds (l : list Z) (a : Z) :
  a <= fold_left Z.max l a /\ Forall (fun x => x <= fold_left Z.max l a) l.
Proof.
  revert a; induction l as [|x l IH]; intros a; simpl.
  - split; [lia | constructor].
  - destruct (IH (Z.max a x)) as [Hle Hall]. split; [lia|].
    constructor; [lia | exact Hall].
Qed.

(** The rowid of an inserted row is above every rowid in use. *)
Lemma next_rowid_above (db : Store) (r : models.User) :
  In r db -> models.id r < next_rowid db.
Proof.
  intros Hin. apply (in_map models.id) in Hin.
  unfold next_rowid. destruct (map models.id db) as [|i rest]; [easy|].
  destruct (fold_max_bounds rest i) as [Hle Hall].
  destruct Hin as [<- | Hin]; [lia|].
  rewrite Forall_forall in Hall. specialize (Hall _ Hin). simpl in Hall. lia.
Qed.

Lemma find_id_in (db : Store) (n : Z) (u : models.User) :
  find (fun r => models.id r =? n) db = Some u ->
  In u db /\ models.id u = n.
Proof.
  intros H. apply find_some in H as [Hin Hid].
  split; [exact Hin | now apply Z.eqb_eq].
Qed.

(** No row with the primary key is left after a DELETE of it. *)
Lemma find_deleted (db : Store) (n : Z) :
  find (fun r => models.id r =? n)
       (filter (fun r => negb (models.id r =? n)) db) = None.
Proof.
  induction db as [|r db IH]; simpl; [reflexivity|].
  destruct (models.id r =? n) eqn:E; simpl; [exact IH|].
  now rewrite E.
Qed.

Lemma find_other_after_delete (db : Store) (n m : Z) :
  m <> n ->
  find (fun r => models.id r =? m)
       (filter (fun r => negb (models.id r =? n)) db)
  = find (fun r => models.id r =? m) db.
Proof.
  intros Hne. induction db as [|r db IH]; simpl; [reflexivity|].
  destruct (models.id r =? n) eqn:En; simpl.
  - apply Z.eqb_eq in En.
    destruct (models.id r =? m) eqn:Em; [apply Z.eqb_eq in Em; lia | exact IH].
  - destruct (models.id r =? m); [reflexivity | exact IH].
Qed.

(** An UPDATE of the rows with primary key [n] to [row], itself of
    key [n]. *)
Lemma find_updated (db : Store) (n : Z) (row old : models.User) :
  models.id row = n ->
  find (fun r => models.id r =? n) db = Some old ->
  find (fun r => models.id r =? n)
       (map (fun r => if models.id r =? n then row else r) db) = Some row.
Proof.
  intros Hrow. induction db as [|r db IH]; simpl; [discriminate|].
  destruct (models.id r =? n) eqn:E.
  - intros _. now rewrite Hrow, Z.eqb_refl.
  - rewrite E. exact IH.
Qed.

Lemma find_other_after_update (db : Store) (n m : Z) (row : models.User) :
  models.id row = n -> m <> n ->
  find (fun r => models.id r =? m)
       (map (fun r => if models.id r =? n then row else r) db)
  = find (fun r => models.id r =? m) db.
Proof.
  intros Hrow Hne. induction db as [|r db IH]; simpl; [reflexivity|].
  destruct (models.id r =? n) eqn:En.
  - apply Z.eqb_eq in En.
    destruct (models.id row =? m) eqn:E1; [apply Z.eqb_eq in E1; lia|].
    destruct (models.id r =? m) eqn:E2; [apply Z.eqb_eq in E2; lia|].
    exact IH.
  - destruct (models.id r =? m); [reflexivity | exact IH].
Qed.

(** The lookup by id: within the range of SQLite's integers it is the
    first row of that id; beyond it the driver raises. *)
Lemma get_user_returns (db : Store) (n : Z) (o : option models.User) :
  crud.get_user db n = Return o <->
  in_int64 n = true /\ find (fun r => models.id r =? n) db = o.
Proof.
  unfold crud.get_user. destruct (in_int64 n).
  - split; [intros [= <-]; auto | intros [_ <-]; reflexivity].
  - split; [discriminate | intros [H _]; discriminate].
Qed.

Lemma get_user_overflow (db : Store) (n : Z) :
  in_int64 n = false -> crud.get_user db n = Raise int_too_large.
Proof. intros H. unfold crud.get_user. now rewrite H. Qed.

Lemma get_user_in_range (db : Store) (n : Z) :
  in_int64 n = true ->
  crud.get_user db n = Return (find (fun r => models.id r =? n) db).
Proof. intros H. unfold crud.get_user. now rewrite H. Qed.

Lemma get_user_in (db : Store) (n : Z) (u : models.User) :
  crud.get_user db n = Return (Some u) ->
  in_int64 n = true /\ In u db /\ models.id u = n.
Proof.
  intros H. apply get_user_returns in H as [Hr H].
  split; [exact Hr | now apply find_id_in].
Qed.

Lemma find_id_absent (db : Store) (n : Z) :
  find (fun r => models.id r =? n) db = None <->
  forall r, In r db -> models.id r <> n.
Proof.
  split.
  - intros H r Hin Hid. apply (find_none _ _ H) in Hin.
    apply Z.eqb_neq in Hin. contradiction.
  - intros H. destruct (find _ db) as [u|] eqn:E; [|reflexivity].
    apply find_id_in in E as [Hin Hid]. now destruct (H u Hin).
Qed.

Lemma find_id_present (db : Store) (n : Z) :
  (exists r, In r db /\ models.id r = n) ->
  exists u, find (fun r => models.id r =? n) db = Some u.
Proof.
  intros (r & Hin & Hid).
  destruct (find (fun r => models.id r =? n) db) as [u|] eqn:E;
    [now exists u|].
  now destruct (proj1 (find_id_absent db n) E r Hin).
Qed.

(** No user has the id: the lookup returns [None], when the id is one
    SQLite stores. *)
Lemma get_user_absent (db : Store) (n : Z) :
  in_int64 n = true ->
  (forall r, In r db -> models.id r <> n) ->
  crud.get_user db n = Return None.
Proof.
  intros Hr H. rewrite (get_user_in_range db n Hr).
  f_equal. now apply find_id_absent.
Qed.

Lemma get_user_present (db : Store) (n : Z) :
  in_int64 n = true ->
  (exists r, In r db /\ models.id r = n) ->
  exists u, crud.get_user db n = Return (Some u).
Proof.
  intros Hr H. rewrite (get_user_in_range db n Hr).
  destruct (find_id_present db n H) as [u ->]. now exists u.
Qed.

Lemma get_user_none (db : Store) (n : Z) :
  crud.get_user db n = Return None ->
  in_int64 n = true /\ forall r, In r db -> models.id r <> n.
Proof.
  intros H. apply get_user_returns in H as [Hr H].
  split; [exact Hr | now apply find_id_absent].
Qed.

End Table.

(** ** The permission rule of Update-by-id *)

Section Handlers.
Context {L : Libraries}.

(** The handler past its checks, for a caller who may update. *)
Lemma update_user_allowed (db : Store) (user_id : Z)
    (user : schemas.UserUpdate) (current_user old : models.User)
    (s : salt) (now : Z) :
  crud.get_user db user_id = Return (Some old) ->
  models.id current_user = user_id
  \/ truthy (models.is_barber current_user) = true ->
  routers_user.update_user user_id user current_user s now db
  = crud.update_user user_id user s now db.
Proof.
  intros Hold Hallowed.
  unfold routers_user.update_user. session. rewrite Hold.
  destruct Hallowed as [Hid | Hb].
  - apply Z.eqb_eq in Hid. now rewrite Hid.
  - rewrite Hb. now rewrite andb_false_r.
Qed.

(** What the handler raises is what the operation as served answers. *)
Lemma update_served_raises (db : Store) (user_id : Z)
    (body user : schemas.UserUpdate) (authorization : option string)
    (current_user : models.User) (s : salt) (now : Z) :
  app.current_user authorization now db = (Return current_user, db) ->
  schemas.UserUpdate_validate body = Return user ->
  (forall c d h,
      routers_user.update_user user_id user current_user s now db
      = (HTTPException c d h, db) ->
      app.serve (app.Update authorization user_id body) s now db
      = (HTTPException c d h, db))
  /\ (forall e,
         routers_user.update_user user_id user current_user s now db
         = (Raise e, db) ->
         app.serve (app.Update authorization user_id body) s now db
         = (Raise e, db)).
Proof.
  intros Hme Hbody.
  split; [intros c d h Hrun | intros e Hrun];
    unfold app.serve, bind, lift; now rewrite Hme, Hbody, Hrun.
Qed.

(** C3 (amended): for a target id within the range of the integers
    SQLite stores, Update-by-id answers 404 when no user has the id,
    whoever calls; when a user has it, 403 to a caller who is neither
    that user nor a barber; and otherwise it is the store's update
    that runs and decides the answer, which is then no
    [HTTPException].  For a target id outside that range the lookup
    raises [OverflowError], whoever calls, and nothing is written.
    The 404, the 403 and the exception, answered 500, are also what
    the operation as served answers a resolved caller who sends a
    valid body. *)
Theorem update_permission_precedence
    (db : Store) (user_id : Z) (user : schemas.UserUpdate)
    (current_user : models.User) (s : salt) (now : Z) :
  (in_int64 user_id = true ->
   (forall r, In r db -> models.id r <> user_id) ->
   routers_user.update_user user_id user current_user s now db
   = (HTTPException 404 "User not found" [], db))
  /\ (in_int64 user_id = true ->
      (exists r, In r db /\ models.id r = user_id) ->
      models.id current_user <> user_id ->
      truthy (models.is_barber current_user) = false ->
      routers_user.update_user user_id user current_user s now db
      = (HTTPException 403 "Not enough permissions" [], db))
  /\ (in_int64 user_id = true ->
      (exists r, In r db /\ models.id r = user_id) ->
      models.id current_user = user_id
      \/ truthy (models.is_barber current_user) = true ->
      routers_user.update_user user_id user current_user s now db
      = crud.update_user user_id user s now db
      /\ forall c d h,
          fst (crud.update_user user_id user s now db)
          <> HTTPException c d h)
  /\ (in_int64 user_id = false ->
      routers_user.update_user user_id user current_user s now db
      = (Raise int_too_large, db))
  /\ (forall authorization body,
         app.current_user authorization now db = (Return current_user, db) ->
         schemas.UserUpdate_validate body = Return user ->
         (in_int64 user_id = true ->
          (forall r, In r db -> models.id r <> user_id) ->
          app.serve (app.Update authorization user_id body) s now db
          = (HTTPException 404 "User not found" [], db))
         /\ (in_int64 user_id = true ->
             (exists r, In r db /\ models.id r = user_id) ->
             models.id current_user <> user_id ->
             truthy (models.is_barber current_user) = false ->
             app.serve (app.Update authorization user_id body) s now db
             = (HTTPException 403 "Not enough permissions" [], db))
         /\ (in_int64 user_id = false ->
             app.serve (app.Update authorization user_id body) s now db
             = (Raise int_too_large, db)
             /\ app.status (app.Update authorization user_id body) s now db
                = 500)).
Proof.
  assert (H404 : in_int64 user_id = true ->
                 (forall r, In r db -> models.id r <> user_id) ->
                 routers_user.update_user user_id user current_user s now db
                 = (HTTPException 404 "User not found" [], db)).
  { intros Hr Habsent. unfold routers_user.update_user. session.
    now rewrite (get_user_absent db user_id Hr Habsent). }
  assert (H403 : in_int64 user_id = true ->
                 (exists r, In r db /\ models.id r = user_id) ->
                 models.id current_user <> user_id ->
                 truthy (models.is_barber current_user) = false ->
                 routers_user.update_user user_id user current_user s now db
                 = (HTTPException 403 "Not enough permissions" [], db)).
  { intros Hr Hex Hid Hb. unfold routers_user.update_user. session.
    destruct (get_user_present db user_id Hr Hex) as [old ->].
    apply Z.eqb_neq in Hid. now rewrite Hid, Hb. }
  assert (H500 : in_int64 user_id = false ->
                 routers_user.update_user user_id user current_user s now db
                 = (Raise int_too_large, db)).
  { intros Hr. unfold routers_user.update_user. session.
    now rewrite (get_user_overflow db user_id Hr). }
  split; [exact H404|]. split; [exact H403|]. split; [|split].
  - intros Hr Hex Hallowed.
    destruct (get_user_present db user_id Hr Hex) as [old Hold].
    split; [now apply (update_user_allowed db user_id user _ old)|].
    unfold crud.update_user. session. rewrite Hold.
    unfold update.
    destruct (modified _ _); [|discriminate].
    destruct (first_violation _); discriminate.
  - exact H500.
  - intros authorization body Hme Hbody.
    destruct (update_served_raises db user_id body user authorization
                current_user s now Hme Hbody) as [Hhttp Hraise].
    split; [|split].
    + intros Hr Habsent. apply Hhttp. now apply H404.
    + intros Hr Hex Hid Hb. apply Hhttp. now apply H403.
    + intros Hr. unfold app.status.
      rewrite (Hraise _ (H500 Hr)). now split.
Qed.

End Handlers.

(** C3 as stated fails: no user has the id 2^63, and an Update of it
    by bob, a barber, is not answered 404: the lookup raises
    [OverflowError], answered 500. *)
Lemma update_beyond_int64_is_500 :
  (forall r, In r Toy.users -> models.id r <> beyond_int64)
  /\ app.current_user (L := Toy.libraries) (Some (Toy.token_of 2)) 200
                      Toy.users
     = (Return Toy.bob, Toy.users)
  /\ app.serve (L := Toy.libraries)
               (app.Update (Some (Toy.token_of 2)) beyond_int64
                           Examples.names)
               "s4"%string 200 Toy.users
     = (Raise int_too_large, Toy.users)
  /\ app.status (L := Toy.libraries)
                (app.Update (Some (Toy.token_of 2)) beyond_int64
                            Examples.names)
                "s4"%string 200 Toy.users
     = 500.
Proof.
  split; [|split; [|split]]; try reflexivity.
  intros r [<- | [<- | [<- | []]]]; discriminate.
Qed.

Lemma update_permission_precedence_witness :
  routers_user.update_user (L := Toy.libraries) 9 Examples.names Toy.bob
                           "s4"%string 200 Toy.users
  = (HTTPException 404 "User not found" [], Toy.users)
  /\ routers_user.update_user (L := Toy.libraries) 2 Examples.names Toy.alice
                              "s4"%string 200 Toy.users
     = (HTTPException 403 "Not enough permissions" [], Toy.users)
  /\ routers_user.update_user (L := Toy.libraries) 1 Examples.names Toy.alice
                              "s4"%string 200 Toy.users
     = crud.update_user (L := Toy.libraries) 1 Examples.names
                        "s4"%string 200 Toy.users
  /\ routers_user.update_user (L := Toy.libraries) 1 Examples.names Toy.bob
                              "s4"%string 200 Toy.users
     = crud.update_user (L := Toy.libraries) 1 Examples.names
                        "s4"%string 200 Toy.users
  /\ routers_user.update_user (L := Toy.libraries) beyond_int64
                              Examples.names Toy.bob "s4"%string 200
                              Toy.users
     = (Raise int_too_large, Toy.users).
Proof.
  split; [|split; [|split; [|split]]].
  - apply (update_permission_precedence (L := Toy.libraries));
      [reflexivity|].
    intros r [<- | [<- | [<- | []]]]; discriminate.
  - apply (update_permission_precedence (L := Toy.libraries));
      [reflexivity | | discriminate | reflexivity].
    exists Toy.bob. split; [simpl; auto | reflexivity].
  - apply (update_permission_precedence (L := Toy.libraries));
      [reflexivity | | left; reflexivity].
    exists Toy.alice. split; [simpl; auto | reflexivity].
  - apply (update_permission_precedence (L := Toy.libraries));
      [reflexivity | | right; reflexivity].
    exists Toy.alice. split; [simpl; auto | reflexivity].
  - apply (update_permission_precedence (L := Toy.libraries)).
    reflexivity.
Defined.

(** ** Access control *)

Section AccessControl.
Context {L : Libraries}.

(** Resolving the caller only reads. *)
Lemma current_user_reads (authorization : option string) (now : Z)
    (db : Store) :
  snd (app.current_user authorization now db) = db.
Proof.
  unfold app.current_user, dependencies.oauth2_scheme,
    dependencies.get_current_user, dependencies.credentials_exception.
  session.
  destruct authorization as [token|]; simpl; [|reflexivity].
  destruct (utils_auth.jwt_decode _ _ _ _) as [payload|]; [|reflexivity].
  destruct (sub payload) as [user_id|]; [|reflexivity].
  destruct (find _ db) as [u|]; [|reflexivity].
  now destruct (negb _).
Qed.

(** The lookup by the subject of a token: by the integer the text
    reads as, when it is one SQLite stores, and finding nothing
    otherwise. *)
Lemma find_id_is_cases (db : Store) (user_id : string) :
  (exists n,
      integer_affinity user_id = Some n
      /\ in_int64 n = true
      /\ forall l, find (dependencies.id_is user_id) l
                   = find (fun r => models.id r =? n) l)
  \/ forall l, find (dependencies.id_is user_id) l = None.
Proof.
  unfold dependencies.id_is.
  destruct (integer_affinity user_id) as [n|].
  - destruct (in_int64 n) eqn:Hr.
    + left. exists n. split; [reflexivity|]. split; [exact Hr|].
      induction l as [|r l IH]; simpl; [reflexivity|].
      destruct (models.id r =? n); [reflexivity | exact IH].
    + right. induction l as [|r l IH]; simpl; [reflexivity | exact IH].
  - right. induction l as [|r l IH]; simpl; [reflexivity | exact IH].
Qed.

(** What it takes for a caller to be resolved. *)
Lemma current_user_resolved (authorization : option string) (now : Z)
    (db db' : Store) (me : models.User) :
  app.current_user authorization now db = (Return me, db') ->
  db' = db /\ In me db
  /\ crud.get_user db (models.id me) = Return (Some me)
  /\ models.is_active me = Some true.
Proof.
  intros H.
  assert (Hdb : db' = db)
    by (rewrite <- (current_user_reads authorization now db); now rewrite H).
  subst db'. split; [reflexivity|].
  revert H.
  unfold app.current_user, dependencies.oauth2_scheme,
    dependencies.get_current_user, dependencies.credentials_exception.
  session.
  destruct authorization as [token|]; simpl; [|discriminate].
  destruct (utils_auth.jwt_decode _ _ _ _) as [payload|]; [|discriminate].
  destruct (sub payload) as [user_id|]; [|discriminate].
  destruct (find_id_is_cases db user_id) as [(n & _ & Hr & ->) | ->];
    [|discriminate].
  destruct (find _ db) as [u|] eqn:E; [|discriminate].
  destruct (models.is_active u) as [[|]|] eqn:Ha; simpl; try discriminate.
  intros [= ->].
  destruct (find_id_in db n me E) as [Hin Hid].
  rewrite Hid. split; [exact Hin|]. split; [|exact Ha].
  now apply get_user_returns.
Qed.

(** C9: in every protected operation, a token that verifies and whose
    subject resolves to a user whose active flag is not set is answered
    400 "Inactive user"; a token that fails verification, or carries no
    subject, or whose subject resolves to no user, is answered 401.
    Either way the table is left as it was. *)
Theorem inactive_user_is_400_not_401
    (r : app.request) (token : string) (s : salt) (now : Z) (db : Store) :
  app.protected r = Some (Some token) ->
  (forall payload user_id u,
      utils_auth.jwt_decode token utils_auth.SECRET_KEY
                            [utils_auth.ALGORITHM] now = Some payload ->
      sub payload = Some user_id ->
      find (dependencies.id_is user_id) db = Some u ->
      truthy (models.is_active u) = false ->
      app.serve r s now db = (HTTPException 400 "Inactive user" [], db))
  /\ (utils_auth.jwt_decode token utils_auth.SECRET_KEY
                            [utils_auth.ALGORITHM] now = None
      \/ (exists payload,
             utils_auth.jwt_decode token utils_auth.SECRET_KEY
                                   [utils_auth.ALGORITHM] now = Some payload
             /\ (sub payload = None
                 \/ exists user_id,
                     sub payload = Some user_id
                     /\ find (dependencies.id_is user_id) db = None)) ->
      app.serve r s now db
      = (HTTPException 401 "Could not validate credentials"
                       [("WWW-Authenticate", "Bearer")]%string, db)).
Proof.
  intros Hprot. split.
  - intros payload user_id u Hdec Hsub Hfind Hinactive.
    destruct r; simpl in Hprot; inversion Hprot; subst;
      unfold app.serve, app.barber_user, app.current_user,
        dependencies.oauth2_scheme, dependencies.get_current_user;
      session; simpl;
      now rewrite Hdec, Hsub, Hfind, Hinactive.
  - intros Hbad.
    assert (Hme : app.current_user (Some token) now db
                  = (HTTPException 401 "Could not validate credentials"
                       [("WWW-Authenticate", "Bearer")]%string, db)).
    { unfold app.current_user, dependencies.oauth2_scheme,
        dependencies.get_current_user, dependencies.credentials_exception.
      session; simpl.
      destruct Hbad as [-> | (payload & -> & [-> | (user_id & -> & ->)])];
        reflexivity. }
    destruct r; simpl in Hprot; inversion Hprot; subst;
      unfold app.serve, app.barber_user; unfold bind at 1;
      try unfold bind at 1; now rewrite Hme.
Qed.

(** C6 (amended): Delete-by-id called by an authenticated user who is
    no barber is answered 403, whichever id is named, the caller's own
    included, and nothing is deleted.  Called by a barber for an id
    within the range of the integers SQLite stores, it is answered 404
    when no user has the id, and 204 when one has, after which no user
    has the id, fetching the id is answered 404 to any caller, and
    every other user is as before.  Called by a barber for an id
    outside that range, the lookup raises [OverflowError], answered
    500, and nothing is deleted. *)
Theorem delete_requires_barber
    (authorization : option string) (me : models.User) (user_id : Z)
    (s : salt) (now : Z) (db : Store) :
  app.current_user authorization now db = (Return me, db) ->
  (truthy (models.is_barber me) = false ->
   app.serve (app.Delete authorization user_id) s now db
   = (HTTPException 403 "Not enough permissions" [], db))
  /\ (truthy (models.is_barber me) = true ->
      in_int64 user_id = true ->
      (forall r, In r db -> models.id r <> user_id) ->
      app.serve (app.Delete authorization user_id) s now db
      = (HTTPException 404 "User not found" [], db))
  /\ (truthy (models.is_barber me) = true ->
      in_int64 user_id = true ->
      (exists r, In r db /\ models.id r = user_id) ->
      exists db',
        app.serve (app.Delete authorization user_id) s now db
        = (Return app.NoContent, db')
        /\ app.status (app.Delete authorization user_id) s now db = 204
        /\ (forall r, In r db' -> models.id r <> user_id)
        /\ crud.get_user db' user_id = Return None
        /\ (forall caller,
               routers_user.read_user user_id caller db'
               = (HTTPException 404 "User not found" [], db'))
        /\ (forall other,
               other <> user_id ->
               crud.get_user db' other = crud.get_user db other))
  /\ (truthy (models.is_barber me) = true ->
      in_int64 user_id = false ->
      app.serve (app.Delete authorization user_id) s now db
      = (Raise int_too_large, db)
      /\ app.status (app.Delete authorization user_id) s now db = 500).
Proof.
  intros Hme.
  unfold app.status, app.serve, app.barber_user, bind. rewrite Hme.
  unfold dependencies.get_barber_user. session.
  split; [|split; [|split]].
  - now intros ->.
  - intros -> Hr Habsent; simpl.
    unfold routers_user.delete_user, crud.delete_user. session.
    now rewrite (get_user_absent db user_id Hr Habsent).
  - intros -> Hr Hsome; simpl.
    unfold routers_user.delete_user, crud.delete_user. session.
    destruct (get_user_present db user_id Hr Hsome) as [old Hold].
    rewrite Hold.
    unfold delete; simpl.
    destruct (get_user_in db user_id old Hold) as (_ & _ & ->).
    eexists; split; [reflexivity|].
    split; [reflexivity|].
    assert (Hgone : crud.get_user
                      (filter (fun r => negb (models.id r =? user_id)) db)
                      user_id = Return None).
    { rewrite (get_user_in_range _ _ Hr). now rewrite find_deleted. }
    split; [exact (proj2 (get_user_none _ _ Hgone))|].
    split; [exact Hgone|].
    unfold routers_user.read_user. session. rewrite Hgone.
    split; [reflexivity|].
    intros other Hne. unfold crud.get_user.
    destruct (in_int64 other); [|reflexivity].
    now rewrite find_other_after_delete.
  - intros -> Hr; simpl.
    unfold routers_user.delete_user, crud.delete_user. session.
    now rewrite (get_user_overflow db user_id Hr).
Qed.

End AccessControl.

(** C6 as stated fails: no user has the id 2^63, and a Delete of it by
    bob, a barber, is not answered 404: the lookup raises
    [OverflowError], answered 500. *)
Lemma delete_beyond_int64_is_500 :
  (forall r, In r Toy.users -> models.id r <> beyond_int64)
  /\ app.barber_user (L := Toy.libraries) (Some (Toy.token_of 2)) 200
                     Toy.users
     = (Return Toy.bob, Toy.users)
  /\ app.serve (L := Toy.libraries)
               (app.Delete (Some (Toy.token_of 2)) beyond_int64)
               "s4"%string 200 Toy.users
     = (Raise int_too_large, Toy.users)
  /\ app.status (L := Toy.libraries)
                (app.Delete (Some (Toy.token_of 2)) beyond_int64)
                "s4"%string 200 Toy.users
     = 500.
Proof.
  split; [|split; [|split]]; try reflexivity.
  intros r [<- | [<- | [<- | []]]]; discriminate.
Qed.

Lemma inactive_user_is_400_not_401_witness :
  app.serve (L := Toy.libraries) (app.GetSelf (Some (Toy.token_of 3)))
            "s4"%string 200 Toy.users
  = (HTTPException 400 "Inactive user" [], Toy.users)
  /\ app.serve (L := Toy.libraries) (app.Delete (Some (Toy.token_of 9)) 1)
               "s4"%string 200 Toy.users
     = (HTTPException 401 "Could not validate credentials"
                      [("WWW-Authenticate", "Bearer")]%string, Toy.users).
Proof.
  split.
  - apply (proj1 (inactive_user_is_400_not_401
                    (L := Toy.libraries) (app.GetSelf (Some (Toy.token_of 3)))
                    (Toy.token_of 3) "s4"%string 200 Toy.users eq_refl)
             {| exp := Some 2000; sub := Some "3"%string |} "3"%string
             Toy.carol);
      reflexivity.
  - apply (inactive_user_is_400_not_401
             (L := Toy.libraries) (app.Delete (Some (Toy.token_of 9)) 1)
             (Toy.token_of 9) "s4"%string 200 Toy.users eq_refl).
    right. exists {| exp := Some 2000; sub := Some "9"%string |}.
    split; [reflexivity|]. right. exists "9"%string.
    split; reflexivity.
Defined.

Lemma delete_requires_barber_witness :
  app.serve (L := Toy.libraries) (app.Delete (Some (Toy.token_of 1)) 1)
            "s4"%string 200 Toy.users
  = (HTTPException 403 "Not enough permissions" [], Toy.users)
  /\ app.serve (L := Toy.libraries) (app.Delete (Some (Toy.token_of 2)) 9)
               "s4"%string 200 Toy.users
     = (HTTPException 404 "User not found" [], Toy.users)
  /\ (exists db',
         app.serve (L := Toy.libraries) (app.Delete (Some (Toy.token_of 2)) 1)
                   "s4"%string 200 Toy.users
         = (Return app.NoContent, db')
         /\ crud.get_user db' 1 = Return None)
  /\ app.serve (L := Toy.libraries)
               (app.Delete (Some (Toy.token_of 2)) beyond_int64)
               "s4"%string 200 Toy.users
     = (Raise int_too_large, Toy.users).
Proof.
  split; [|split; [|split]].
  - apply (delete_requires_barber (L := Toy.libraries)
             (Some (Toy.token_of 1)) Toy.alice 1 "s4"%string 200 Toy.users);
      reflexivity.
  - apply (delete_requires_barber (L := Toy.libraries)
             (Some (Toy.token_of 2)) Toy.bob 9 "s4"%string 200 Toy.users);
      try reflexivity.
    intros r [<- | [<- | [<- | []]]]; discriminate.
  - destruct (proj1 (proj2 (proj2 (delete_requires_barber
                                     (L := Toy.libraries)
                                     (Some (Toy.token_of 2)) Toy.bob 1
                                     "s4"%string 200 Toy.users eq_refl)))
                eq_refl eq_refl)
      as (db' & Hrun & _ & _ & Hgone & _).
    + exists Toy.alice. split; [simpl; auto | reflexivity].
    + exists db'. split; [exact Hrun | exact Hgone].
  - apply (delete_requires_barber (L := Toy.libraries)
             (Some (Toy.token_of 2)) Toy.bob beyond_int64 "s4"%string 200
             Toy.users);
      reflexivity.
Defined.

(** ** Updates *)

Section Update.
Context {L : Libraries}.

Lemma as_text_of_str (v : option string) : attrs.as_text (of_str v) = Some v.
Proof. now destruct v. Qed.

Lemma as_flag_of_bool (v : option bool) : attrs.as_flag (of_bool v) = Some v.
Proof. now destruct v. Qed.

(** The dictionary, its password step and the [setattr] loop amount to
    the column-wise merge. *)
Lemma apply_items_merged (s : salt) (p : schemas.UserUpdate)
    (u : models.User) :
  crud.apply_items
    (crud.hash_password_item s (schemas.dict_exclude_unset p)) u
  = merged s p u.
Proof.
  destruct p as [e n f l ph pw a b], u.
  unfold merged, crud.apply_items, crud.hash_password_item,
    schemas.dict_exclude_unset, schemas.item.
  destruct pw as [[[|c pw]|]|];
    destruct e, n, f, l, ph, a, b; cbn;
    unfold attrs.set_text, attrs.set_flag;
    rewrite ?as_text_of_str, ?as_flag_of_bool; reflexivity.
Qed.

Lemma str_opt_eqb_eq (x y : option string) : str_opt_eqb x y = true <-> x = y.
Proof.
  destruct x as [a|], y as [b|]; simpl;
    try (split; [discriminate | discriminate]); try (split; reflexivity).
  rewrite String.eqb_eq. split; [now intros -> | now intros [= ->]].
Qed.

Lemma bool_opt_eqb_eq (x y : option bool) : bool_opt_eqb x y = true <-> x = y.
Proof. destruct x as [[|]|], y as [[|]|]; simpl; split; congruence. Qed.

Lemma str_opt_eqb_refl (x : option string) : str_opt_eqb x x = true.
Proof. now apply str_opt_eqb_eq. Qed.

Lemma bool_opt_eqb_refl (x : option bool) : bool_opt_eqb x x = true.
Proof. now apply bool_opt_eqb_eq. Qed.

(** An UPDATE that finds nothing modified has nothing to write. *)
Lemma not_modified (old new : models.User) :
  modified old new = false ->
  models.email new = models.email old
  /\ models.username new = models.username old
  /\ models.first_name new = models.first_name old
  /\ models.last_name new = models.last_name old
  /\ models.phone_number new = models.phone_number old
  /\ models.hashed_password new = models.hashed_password old
  /\ models.is_active new = models.is_active old
  /\ models.is_barber new = models.is_barber old.
Proof.
  unfold modified. rewrite negb_false_iff, !andb_true_iff.
  rewrite !str_opt_eqb_eq, !bool_opt_eqb_eq.
  intuition congruence.
Qed.

Lemma violation_is_integrity_error (old new : models.User) (db : Store)
    (e : exn) :
  first_violation (violations old new db) = Some e ->
  exists msg, e = IntegrityError msg.
Proof.
  unfold violations, first_violation, null_violation, unique_violation; simpl.
  repeat match goal with
         | |- context [if ?c then _ else _] => destruct c
         | |- context [match ?x with Some _ => _ | None => _ end] => destruct x
         end;
    intros [= <-]; eauto; discriminate.
Qed.

(** The three ways an UPDATE ends. *)
Lemma update_outcome (old new : models.User) (now : Z) (db : Store) :
  (modified old new = false /\ update old new now db = (Return old, db))
  \/ (exists msg, update old new now db = (Raise (IntegrityError msg), db))
  \/ (first_violation (violations old new db) = None
      /\ update old new now db
         = (Return (flushed old new now),
            map (fun r => if models.id r =? models.id old
                          then flushed old new now else r) db)).
Proof.
  unfold update.
  destruct (modified old new); [|now left].
  destruct (first_violation _) as [e|] eqn:E; [|now right; right].
  destruct (violation_is_integrity_error _ _ _ _ E) as [msg ->].
  right; left. now exists msg.
Qed.

(** The store's update on a known id, in terms of the merge. *)
Lemma update_user_found (db : Store) (user_id : Z) (p : schemas.UserUpdate)
    (s : salt) (now : Z) (old : models.User) :
  crud.get_user db user_id = Return (Some old) ->
  crud.update_user user_id p s now db
  = match update old (merged s p old) now db with
    | (Return row, db') => (Return (Some row), db')
    | (HTTPException c d h, db') => (HTTPException c d h, db')
    | (Raise e, db') => (Raise e, db')
    end.
Proof.
  intros Hold. unfold crud.update_user. session.
  rewrite Hold, apply_items_merged.
  now destruct (update _ _ _ _) as [[row|c d h|e] db'].
Qed.

Lemma merged_unset_kept (s : salt) (p : schemas.UserUpdate)
    (old : models.User) :
  unset_kept p old (merged s p old).
Proof. unfold unset_kept; simpl. repeat split; now intros ->. Qed.

(** An UPDATE is emitted exactly when a column differs. *)
Lemma same_columns_not_modified (old new : models.User) :
  same_columns old new <-> modified old new = false.
Proof.
  split; [|apply not_modified].
  unfold same_columns, modified.
  intros (-> & -> & -> & -> & -> & -> & -> & ->).
  now rewrite !str_opt_eqb_refl, !bool_opt_eqb_refl.
Qed.

(** The row with the id after an UPDATE of it, and the other rows. *)
Lemma get_user_after_update (db : Store) (user_id : Z)
    (old row : models.User) :
  crud.get_user db user_id = Return (Some old) ->
  models.id row = models.id old ->
  crud.get_user
    (map (fun r => if models.id r =? models.id old then row else r) db)
    user_id
  = Return (Some row)
  /\ forall other,
      other <> user_id ->
      crud.get_user
        (map (fun r => if models.id r =? models.id old then row else r) db)
        other
      = crud.get_user db other.
Proof.
  intros Hold Hrow.
  destruct (get_user_in db user_id old Hold) as (Hr & _ & Hid).
  apply get_user_returns in Hold as [_ Hold].
  rewrite Hid in *. split.
  - rewrite (get_user_in_range _ _ Hr). f_equal.
    now apply (find_updated db user_id row old).
  - intros other Hne. unfold crud.get_user.
    destruct (in_int64 other); [|reflexivity].
    now rewrite find_other_after_update.
Qed.

(** C7 (amended): for every existing user and every partial payload,
    the store's update leaves every column whose field the payload does
    not set as it was, together with the id and the creation instant,
    and leaves every other user's row alone; the one attribute it
    writes without being asked is the update timestamp, which becomes
    the instant of the update when a column changed, and stays as it
    was when none did.  So a payload of first and last name leaves the
    address and every other attribute but the update timestamp as they
    were.  An update the table's constraints reject changes nothing.
    The row spoken of is the one the table holds under the id after
    the update. *)
Theorem update_keeps_unset_fields
    (db : Store) (user_id : Z) (p : schemas.UserUpdate) (s : salt) (now : Z)
    (old : models.User) (res : result (option models.User)) (db' : Store) :
  crud.get_user db user_id = Return (Some old) ->
  crud.update_user user_id p s now db = (res, db') ->
  exists row,
    crud.get_user db' user_id = Return (Some row)
    /\ (res = Return (Some row)
        \/ (exists msg, res = Raise (IntegrityError msg))
           /\ row = old /\ db' = db)
    /\ unset_kept p old row
    /\ models.id row = models.id old
    /\ models.created_at row = models.created_at old
    /\ (~ same_columns old row -> models.updated_at row = Some now)
    /\ (same_columns old row ->
        models.updated_at row = models.updated_at old)
    /\ (forall other,
           other <> user_id ->
           crud.get_user db' other = crud.get_user db other).
Proof.
  intros Hold Hrun.
  rewrite (update_user_found db user_id p s now old Hold) in Hrun.
  assert (Hrefl : same_columns old old) by (unfold same_columns; tauto).
  unfold update in Hrun.
  destruct (modified old (merged s p old)) eqn:Hmod.
  - destruct (first_violation (violations old (merged s p old) db))
      as [e|] eqn:Hv.
    + destruct (violation_is_integrity_error _ _ _ _ Hv) as [msg ->].
      injection Hrun as <- <-.
      exists old. split; [exact Hold|].
      split; [right; eauto|].
      split; [unfold unset_kept; now repeat split|].
      split; [reflexivity|]. split; [reflexivity|].
      split; [intros H; now destruct H|]. split; [reflexivity|].
      reflexivity.
    + injection Hrun as <- <-.
      exists (flushed old (merged s p old) now).
      destruct (get_user_after_update db user_id old
                  (flushed old (merged s p old) now) Hold eq_refl)
        as [Hrow Hothers].
      split; [exact Hrow|].
      split; [now left|].
      split; [apply merged_unset_kept|].
      split; [reflexivity|]. split; [reflexivity|].
      split; [reflexivity|].
      split; [|exact Hothers].
      intros Hsame. exfalso.
      assert (Hsame' : same_columns old (merged s p old)) by exact Hsame.
      apply same_columns_not_modified in Hsame'. congruence.
  - injection Hrun as <- <-.
    exists old. split; [exact Hold|]. split; [now left|].
    split.
    { pose proof (merged_unset_kept s p old) as K.
      apply not_modified in Hmod.
      unfold unset_kept in *. intuition congruence. }
    split; [reflexivity|]. split; [reflexivity|].
    split; [intros H; now destruct H|]. split; [reflexivity|].
    reflexivity.
Qed.

(** The columns of a row the store's update returns. *)
Lemma updated_row_columns (db : Store) (user_id : Z) (p : schemas.UserUpdate)
    (s : salt) (now : Z) (old row : models.User) (db' : Store) :
  crud.get_user db user_id = Return (Some old) ->
  crud.update_user user_id p s now db = (Return (Some row), db') ->
  models.hashed_password row
  = merge_password s (schemas.upd_password p) (models.hashed_password old)
  /\ columns_from_own_fields p old row.
Proof.
  intros Hold Hrun.
  rewrite (update_user_found db user_id p s now old Hold) in Hrun.
  destruct (update_outcome old (merged s p old) now db)
    as [[Hsame Hup] | [[msg Hup] | [_ Hup]]];
    rewrite Hup in Hrun; [| discriminate |];
    injection Hrun as <- <-.
  - apply not_modified in Hsame. simpl in Hsame.
    unfold columns_from_own_fields. intuition congruence.
  - unfold columns_from_own_fields. simpl. now repeat split.
Qed.



End Update.

(** C7 as stated fails: a payload of first and last name leaves alice's
    row with an update timestamp it did not have. *)
Lemma names_update_moves_update_timestamp :
  crud.update_user (L := Toy.libraries) 1 Examples.names "s9"%string 200
                   Toy.users
  = (Return (Some alice_renamed), [alice_renamed; Toy.bob; Toy.carol])
  /\ crud.get_user Toy.users 1 = Return (Some Toy.alice)
  /\ crud.get_user [alice_renamed; Toy.bob; Toy.carol] 1
     = Return (Some alice_renamed)
  /\ models.updated_at alice_renamed <> models.updated_at Toy.alice.
Proof.
  split; [reflexivity|]. split; [reflexivity|].
  split; [reflexivity | discriminate].
Qed.

Lemma update_keeps_unset_fields_witness :
  exists row,
    crud.get_user [alice_renamed; Toy.bob; Toy.carol] 1 = Return (Some row)
    /\ models.email row = models.email Toy.alice
    /\ models.hashed_password row = models.hashed_password Toy.alice
    /\ (~ same_columns Toy.alice row -> models.updated_at row = Some 200).
Proof.
  destruct (update_keeps_unset_fields
              (L := Toy.libraries) Toy.users 1 Examples.names "s9"%string 200
              Toy.alice (Return (Some alice_renamed))
              [alice_renamed; Toy.bob; Toy.carol] eq_refl eq_refl)
    as (row & Hrow & _ & Hkept & _ & _ & Hstamp & _).
  exists row. split; [exact Hrow|].
  destruct Hkept as (He & _ & _ & _ & _ & Hp & _).
  split; [exact (He eq_refl)|]. split; [exact (Hp eq_refl) | exact Hstamp].
Defined.



(** ** What every reachable table satisfies *)

Section Invariant.
Context {L : Libraries}.

Lemma keeps_ret {A} (I : Store -> Prop) (a : A) (Q : A -> Prop) :
  Q a -> keeps I (ret a) Q.
Proof. intros Ha db Hdb; split; [exact Hdb | now intros ? [= <-]]. Qed.

Lemma keeps_raise_http {A} (I : Store -> Prop) c d h (Q : A -> Prop) :
  keeps I (raise_http c d h) Q.
Proof. intros db Hdb; split; [exact Hdb | discriminate]. Qed.

Lemma keeps_raise {A} (I : Store -> Prop) e (Q : A -> Prop) :
  keeps I (raise e) Q.
Proof. intros db Hdb; split; [exact Hdb | discriminate]. Qed.

Lemma keeps_query {A} (I : Store -> Prop) (f : Store -> A) :
  keeps I (query f) (fun _ => True).
Proof. intros db Hdb; split; [exact Hdb | trivial]. Qed.

Lemma keeps_execute {A} (I : Store -> Prop) (f : Store -> result A) :
  keeps I (execute f) (fun _ => True).
Proof. intros db Hdb; split; [exact Hdb | trivial]. Qed.

Lemma keeps_lift {A} (I : Store -> Prop) (r : result A) (Q : A -> Prop) :
  (forall a, r = Return a -> Q a) -> keeps I (lift r) Q.
Proof. intros Hr db Hdb; split; [exact Hdb | exact Hr]. Qed.

Lemma keeps_bind {A B} (I : Store -> Prop) (m : Session A)
    (k : A -> Session B) (Q : A -> Prop) (R : B -> Prop) :
  keeps I m Q -> (forall a, Q a -> keeps I (k a) R) -> keeps I (bind m k) R.
Proof.
  intros Hm Hk db Hdb. unfold bind.
  destruct (Hm db Hdb) as [Hdb' Hq].
  destruct (m db) as [[a|c d h|e] db']; simpl in *;
    try (split; [exact Hdb' | discriminate]).
  exact (Hk a (Hq a eq_refl) db' Hdb').
Qed.

Lemma keeps_weaken {A} (I : Store -> Prop) (m : Session A)
    (Q R : A -> Prop) :
  keeps I m Q -> (forall a, Q a -> R a) -> keeps I m R.
Proof.
  intros Hm Hqr db Hdb. destruct (Hm db Hdb) as [H1 H2].
  split; [exact H1 | intros a Ha; exact (Hqr a (H2 a Ha))].
Qed.

Lemma first_violation_cons (v : option exn) (vs : list (option exn)) :
  first_violation (v :: vs) = None -> v = None /\ first_violation vs = None.
Proof. simpl. destruct v; [discriminate | auto]. Qed.

Lemma null_violation_none (name : string) (old new : option string) :
  null_violation name old new = None -> old <> None -> new <> None.
Proof.
  unfold null_violation.
  destruct old as [a|], new as [b|]; simpl; congruence.
Qed.

(** The row an accepted UPDATE writes is well formed when the row it
    replaces is and the payload's address went through the validator. *)
Lemma flushed_row_ok (s : salt) (p : schemas.UserUpdate) (old : models.User)
    (now : Z) (db : Store) :
  row_ok old -> address_validated p ->
  first_violation (violations old (merged s p old) db) = None ->
  row_ok (flushed old (merged s p old) now).
Proof.
  intros ((e & He & Hv) & Hn & Hh & Hc) Hp Hok.
  unfold violations in Hok.
  apply first_violation_cons in Hok as [H1 Hok].
  apply first_violation_cons in Hok as [H2 Hok].
  apply first_violation_cons in Hok as [H3 _].
  apply null_violation_none in H1; [|congruence].
  apply null_violation_none in H2; [|exact Hn].
  apply null_violation_none in H3; [|exact Hh].
  unfold row_ok; simpl in *.
  repeat split; try assumption.
  destruct (schemas.upd_email p) as [[e'|]|] eqn:Ep; simpl in *.
  - exists e'. split; [reflexivity | now apply Hp].
  - congruence.
  - now exists e.
Qed.

Lemma update_user_keeps_rows_ok (user_id : Z) (p : schemas.UserUpdate)
    (s : salt) (now : Z) :
  address_validated p ->
  keeps rows_ok (crud.update_user user_id p s now) (fun _ => True).
Proof.
  intros Hp db Hdb. split; [|trivial].
  destruct (crud.get_user db user_id) as [[old|]|c d h|e] eqn:Hold.
  - rewrite (update_user_found db user_id p s now old Hold).
    destruct (get_user_in db user_id old Hold) as (_ & Hin & _).
    assert (Hrow : row_ok old)
      by (unfold rows_ok in Hdb; rewrite Forall_forall in Hdb; auto).
    destruct (update_outcome old (merged s p old) now db)
      as [[_ ->] | [[msg ->] | [Hok ->]]]; simpl; try exact Hdb.
    unfold rows_ok in *. rewrite Forall_forall in *.
    intros r Hr. apply in_map_iff in Hr as (r0 & <- & Hr0).
    destruct (models.id r0 =? models.id old); [|auto].
    now apply (flushed_row_ok s p old now db).
  - unfold crud.update_user. session. now rewrite Hold.
  - unfold crud.update_user. session. now rewrite Hold.
  - unfold crud.update_user. session. now rewrite Hold.
Qed.

Lemma delete_user_keeps_rows_ok (user_id : Z) :
  keeps rows_ok (crud.delete_user user_id) (fun _ => True).
Proof.
  intros db Hdb. split; [|trivial].
  unfold crud.delete_user, delete. session.
  destruct (crud.get_user db user_id) as [[old|]|c d h|e]; simpl;
    try exact Hdb.
  unfold rows_ok in *. rewrite Forall_forall in *.
  intros r Hr. apply filter_In in Hr. now apply Hdb.
Qed.

Lemma create_user_keeps_rows_ok (user : schemas.UserCreate) (s : salt)
    (now : Z) :
  EmailStr (schemas.email user) = Some (schemas.email user) ->
  keeps rows_ok (crud.create_user user s now) (fun _ => True).
Proof.
  intros He db Hdb. split; [|trivial].
  unfold crud.create_user, insert; simpl.
  destruct (existsb _ db); [exact Hdb|].
  destruct (existsb _ db); [exact Hdb|]. simpl.
  apply Forall_app. split; [exact Hdb|].
  constructor; [|constructor].
  unfold row_ok; simpl. repeat split; try discriminate.
  now exists (schemas.email user).
Qed.

Lemma UserCreate_validated (body : schemas.UserCreate_body)
    (user : schemas.UserCreate) :
  schemas.UserCreate_validate body = Return user ->
  EmailStr (schemas.body_email body) = Some (schemas.email user)
  /\ (6 <= py_len (schemas.body_password body))%nat
  /\ schemas.username user = schemas.body_username body
  /\ schemas.first_name user = schemas.body_first_name body
  /\ schemas.last_name user = schemas.body_last_name body
  /\ schemas.phone_number user = schemas.body_phone_number body
  /\ schemas.is_barber user
     = match schemas.body_is_barber body with Some v => v | None => false end
  /\ schemas.password user = schemas.body_password body.
Proof.
  unfold schemas.UserCreate_validate.
  destruct (EmailStr _) as [e|]; [|discriminate].
  destruct (Z.of_nat _ <? 6) eqn:E; [discriminate|].
  intros [= <-]; simpl. apply Z.ltb_ge in E.
  repeat split. lia.
Qed.

Lemma UserUpdate_validated (body p : schemas.UserUpdate) :
  email_stable ->
  schemas.UserUpdate_validate body = Return p -> address_validated p.
Proof.
  intros Hstable. unfold schemas.UserUpdate_validate, address_validated.
  destruct (schemas.upd_email body) as [[e|]|] eqn:Eb.
  - destruct (EmailStr e) as [e'|] eqn:Ee; [|discriminate].
    intros [= <-]; simpl. intros e0 [= <-]. exact (Hstable _ _ Ee).
  - intros [= <-] e0. congruence.
  - intros [= <-] e0. congruence.
Qed.

Ltac lift_any := refine (keeps_lift _ _ (fun _ => True) _); trivial.
Ltac ret_any := refine (keeps_ret _ _ (fun _ => True) _); trivial.

Lemma current_user_keeps (I : Store -> Prop) (authorization : option string)
    (now : Z) :
  keeps I (app.current_user authorization now) (fun _ => True).
Proof.
  intros db Hdb. rewrite current_user_reads. auto.
Qed.

(** Serving a request keeps every row well formed. *)
Lemma serve_keeps_rows_ok (r : app.request) (s : salt) (now : Z) :
  email_stable ->
  keeps rows_ok (app.serve r s now) (fun _ => True).
Proof.
  intros Hstable.
  destruct r; unfold app.serve, app.respond_user, app.respond_users,
    app.barber_user.
  - eapply keeps_bind;
      [apply keeps_lift; intros user Hu; exact (UserCreate_validated _ _ Hu)|].
    intros user (He & _). apply Hstable in He.
    eapply keeps_bind.
    + unfold routers_user.create_user.
      eapply keeps_bind; [apply keeps_query|]. intros [u|] _.
      * apply keeps_raise_http.
      * eapply keeps_bind; [apply keeps_query|]. intros [u|] _.
        -- apply keeps_raise_http.
        -- now apply create_user_keeps_rows_ok.
    + intros u _. eapply keeps_bind; [lift_any|].
      intros; ret_any.
  - eapply keeps_bind; [apply current_user_keeps|]. intros me _.
    eapply keeps_bind; [apply keeps_execute|]. intros us _.
    eapply keeps_bind; [lift_any|]. intros; ret_any.
  - eapply keeps_bind; [apply current_user_keeps|]. intros me _.
    eapply keeps_bind; [ret_any|]. intros u _.
    eapply keeps_bind; [lift_any|]. intros; ret_any.
  - eapply keeps_bind; [apply current_user_keeps|]. intros me _.
    eapply keeps_bind.
    + unfold routers_user.read_user.
      eapply keeps_bind; [apply keeps_execute|]. intros [u|] _;
        [ret_any | apply keeps_raise_http].
    + intros u _.
      eapply keeps_bind; [lift_any|]. intros; ret_any.
  - eapply keeps_bind; [apply current_user_keeps|]. intros me _.
    eapply keeps_bind;
      [apply keeps_lift; intros p Hp;
       exact (UserUpdate_validated _ _ Hstable Hp)|].
    intros p Hp. eapply keeps_bind.
    + unfold routers_user.update_user.
      eapply keeps_bind; [apply keeps_execute|]. intros [u|] _.
      * destruct (_ && _); [apply keeps_raise_http|].
        now apply update_user_keeps_rows_ok.
      * apply keeps_raise_http.
    + intros [u|] _.
      * eapply keeps_bind; [lift_any|].
        intros; ret_any.
      * apply keeps_raise.
  - eapply keeps_bind.
    + eapply keeps_bind; [apply current_user_keeps|]. intros me _.
      unfold dependencies.get_barber_user.
      destruct (negb _); [apply keeps_raise_http | ret_any].
    + intros me _. eapply keeps_bind.
      * unfold routers_user.delete_user.
        eapply keeps_bind; [apply delete_user_keeps_rows_ok|].
        intros [|] _; [ret_any | apply keeps_raise_http].
      * intros; ret_any.
  - eapply keeps_bind; [apply keeps_execute|]. intros us _.
    eapply keeps_bind; [lift_any|]. intros; ret_any.
  - eapply keeps_bind.
    + unfold routers_auth.login_for_access_token.
      eapply keeps_bind; [apply keeps_query|]. intros [u|] _.
      * eapply keeps_bind; [lift_any|]. intros [|] _; simpl.
        -- unfold routers_auth.issue.
           eapply keeps_bind; [lift_any|].
           intros; ret_any.
        -- apply keeps_raise_http.
      * apply keeps_raise_http.
    + intros; ret_any.
  - eapply keeps_bind; [lift_any|]. intros login_data _.
    eapply keeps_bind.
    + unfold routers_auth.login_with_email.
      eapply keeps_bind; [apply keeps_query|]. intros [u|] _.
      * eapply keeps_bind; [lift_any|]. intros [|] _; simpl.
        -- unfold routers_auth.issue.
           eapply keeps_bind; [lift_any|].
           intros; ret_any.
        -- apply keeps_raise_http.
      * apply keeps_raise_http.
    + intros; ret_any.
Qed.

(** In every reachable table every row is well formed. *)
Lemma reachable_rows_ok (db : Store) :
  email_stable -> reachable db -> rows_ok db.
Proof.
  intros Hstable Hreach.
  induction Hreach as [|db r s now _ IH]; [constructor|].
  now apply (serve_keeps_rows_ok r s now Hstable).
Qed.

End Invariant.

(** ** Registration and the barber flag, as served *)

Section Served.
Context {L : Libraries}.

(** The handler of Register on an unused address and username. *)
Lemma create_user_unused (db : Store) (user : schemas.UserCreate)
    (s : salt) (now : Z) :
  unused db (schemas.email user) (schemas.username user) ->
  routers_user.create_user user s now db
  = (Return (new_row user s (next_rowid db) now),
     (db ++ [new_row user s (next_rowid db) now])%list).
Proof.
  intros Hnew.
  unfold routers_user.create_user, crud.get_user_by_email,
    crud.get_user_by_username.
  session.
  rewrite (find_col_none models.email _ db (fun r H => proj1 (Hnew r H))).
  rewrite (find_col_none models.username _ db (fun r H => proj2 (Hnew r H))).
  unfold crud.create_user, insert; simpl.
  rewrite (existsb_col_none models.email _ db (fun r H => proj1 (Hnew r H))).
  now rewrite (existsb_col_none models.username _ db
                 (fun r H => proj2 (Hnew r H))).
Qed.

(** The response model accepts a freshly inserted row and shows the
    fields of the registration. *)
Lemma new_row_validates (user : schemas.UserCreate) (s : salt)
    (rowid now : Z) :
  EmailStr (schemas.email user) = Some (schemas.email user) ->
  schemas.User_validate (new_row user s rowid now)
  = Return {| schemas.out_email := schemas.email user;
              schemas.out_username := schemas.username user;
              schemas.out_first_name := schemas.first_name user;
              schemas.out_last_name := schemas.last_name user;
              schemas.out_phone_number := schemas.phone_number user;
              schemas.out_is_barber := schemas.is_barber user;
              schemas.out_id := rowid;
              schemas.out_is_active := true;
              schemas.out_created_at := now;
              schemas.out_updated_at := None |}.
Proof.
  intros He. unfold schemas.User_validate; simpl. now rewrite He.
Qed.

Lemma register_served (body : schemas.UserCreate_body)
    (user : schemas.UserCreate) (s : salt) (now : Z) (db : Store) :
  email_stable ->
  schemas.UserCreate_validate body = Return user ->
  unused db (schemas.email user) (schemas.username user) ->
  exists o,
    app.serve (app.Register body) s now db
    = (Return (app.UserBody o),
       (db ++ [new_row user s (next_rowid db) now])%list)
    /\ schemas.User_validate (new_row user s (next_rowid db) now) = Return o
    /\ schemas.out_email o = schemas.email user
    /\ schemas.out_username o = schemas.username user
    /\ schemas.out_first_name o = schemas.first_name user
    /\ schemas.out_last_name o = schemas.last_name user
    /\ schemas.out_phone_number o = schemas.phone_number user
    /\ schemas.out_is_barber o = schemas.is_barber user
    /\ schemas.out_id o = next_rowid db.
Proof.
  intros Hstable Hvalid Hnew.
  destruct (UserCreate_validated body user Hvalid) as (He & _).
  apply Hstable in He.
  eexists. split.
  - unfold app.serve, app.respond_user, bind, lift.
    rewrite Hvalid, (create_user_unused db user s now Hnew).
    now rewrite (new_row_validates user s _ now He).
  - split; [now apply new_row_validates|]. now repeat split.
Qed.

Lemma create_user_email_taken (db : Store) (user : schemas.UserCreate)
    (s : salt) (now : Z) :
  (exists r, In r db /\ models.email r = Some (schemas.email user)) ->
  routers_user.create_user user s now db
  = (HTTPException 400 "Email already registered" [], db).
Proof.
  intros (r & Hin & Hr).
  unfold routers_user.create_user, crud.get_user_by_email. session.
  now destruct (find_col_some models.email _ db r Hin Hr) as [r' ->].
Qed.

Lemma create_user_username_taken (db : Store) (user : schemas.UserCreate)
    (s : salt) (now : Z) :
  (forall r, In r db -> models.email r <> Some (schemas.email user)) ->
  (exists r, In r db /\ models.username r = Some (schemas.username user)) ->
  routers_user.create_user user s now db
  = (HTTPException 400 "Username already taken" [], db).
Proof.
  intros Hnew (r & Hin & Hr).
  unfold routers_user.create_user, crud.get_user_by_email,
    crud.get_user_by_username.
  session.
  rewrite (find_col_none models.email _ db Hnew).
  now destruct (find_col_some models.username _ db r Hin Hr) as [r' ->].
Qed.

(** C2: a valid Register whose e-mail address some stored user has
    fails with 400 "Email already registered" whatever its username;
    one whose address is new but whose username some stored user has
    fails with 400 "Username already taken"; both leave the table as it
    was.  A valid Register whose address and username no stored user
    has appends one row, whose id is the next rowid, an id no stored
    row has, and is answered 201 with that id.  Each holds of the
    handler and of the operation as served, the last for a validator
    that accepts the addresses it returned. *)
Theorem register_conflict_or_fresh_id
    (db : Store) (body : schemas.UserCreate_body)
    (user : schemas.UserCreate) (s : salt) (now : Z) :
  schemas.UserCreate_validate body = Return user ->
  ((exists r, In r db /\ models.email r = Some (schemas.email user)) ->
   routers_user.create_user user s now db
   = (HTTPException 400 "Email already registered" [], db)
   /\ app.serve (app.Register body) s now db
      = (HTTPException 400 "Email already registered" [], db))
  /\ ((forall r, In r db -> models.email r <> Some (schemas.email user)) ->
      (exists r, In r db /\ models.username r = Some (schemas.username user)) ->
      routers_user.create_user user s now db
      = (HTTPException 400 "Username already taken" [], db)
      /\ app.serve (app.Register body) s now db
         = (HTTPException 400 "Username already taken" [], db))
  /\ (unused db (schemas.email user) (schemas.username user) ->
      routers_user.create_user user s now db
      = (Return (new_row user s (next_rowid db) now),
         (db ++ [new_row user s (next_rowid db) now])%list)
      /\ (forall r, In r db -> models.id r <> next_rowid db)
      /\ (email_stable ->
          exists o,
            app.serve (app.Register body) s now db
            = (Return (app.UserBody o),
               (db ++ [new_row user s (next_rowid db) now])%list)
            /\ schemas.out_id o = next_rowid db
            /\ app.status (app.Register body) s now db = 201)).
Proof.
  intros Hvalid. split; [|split].
  - intros Htaken.
    pose proof (create_user_email_taken db user s now Htaken) as Hrun.
    split; [exact Hrun|].
    unfold app.serve, bind, lift. now rewrite Hvalid, Hrun.
  - intros Hnew Htaken.
    pose proof (create_user_username_taken db user s now Hnew Htaken) as Hrun.
    split; [exact Hrun|].
    unfold app.serve, bind, lift. now rewrite Hvalid, Hrun.
  - intros Hnew.
    split; [now apply create_user_unused|].
    split.
    + intros r Hin. apply next_rowid_above in Hin. lia.
    + intros Hstable.
      destruct (register_served body user s now db Hstable Hvalid Hnew)
        as (o & Hrun & _ & _ & _ & _ & _ & _ & _ & Hid).
      exists o. split; [exact Hrun|]. split; [exact Hid|].
      unfold app.status. now rewrite Hrun.
Qed.

Lemma merged_make_barber (s : salt) (me : models.User) :
  merged s Examples.make_barber me = attrs.set_is_barber (Some true) me.
Proof. reflexivity. Qed.

(** A caller who is no barber sets the flag on the caller's own row. *)
Lemma make_barber_updates (db : Store) (me : models.User) (s : salt)
    (now : Z) :
  crud.get_user db (models.id me) = Return (Some me) ->
  truthy (models.is_barber me) = false ->
  crud.update_user (models.id me) Examples.make_barber s now db
  = (Return (Some (flushed me (attrs.set_is_barber (Some true) me) now)),
     map (fun r => if models.id r =? models.id me
                   then flushed me (attrs.set_is_barber (Some true) me) now
                   else r) db).
Proof.
  intros Hme Hflag.
  rewrite (update_user_found db _ _ s now me Hme), merged_make_barber.
  unfold update.
  assert (Hmod : modified me (attrs.set_is_barber (Some true) me) = true).
  { unfold modified; simpl. rewrite !str_opt_eqb_refl, bool_opt_eqb_refl.
    now destruct (models.is_barber me) as [[|]|]. }
  rewrite Hmod.
  unfold violations, null_violation, unique_violation; simpl.
  now rewrite !str_opt_eqb_refl.
Qed.

(** C5: the barber flag is the caller's to set.  A Register with a
    valid body and an unused address and username stores the body's
    [is_barber] (false when the body has none) and shows it in the
    response; and in every reachable table, a caller who is
    authenticated and no barber and who sends [{"is_barber": true}] for
    the caller's own id is answered with the caller's record showing
    the flag set, and the table holds the record with the flag set.
    Whoever the store's update runs for, the two flags of the row it
    returns are those of the payload where it sets them. *)
Theorem barber_flag_is_caller_controlled
    (db : Store) (s : salt) (now : Z) :
  email_stable ->
  (forall body user,
      schemas.UserCreate_validate body = Return user ->
      unused db (schemas.email user) (schemas.username user) ->
      exists o row,
        app.serve (app.Register body) s now db
        = (Return (app.UserBody o), (db ++ [row])%list)
        /\ models.is_barber row
           = Some (match schemas.body_is_barber body with
                   | Some v => v
                   | None => false
                   end)
        /\ schemas.out_is_barber o
           = match schemas.body_is_barber body with
             | Some v => v
             | None => false
             end)
  /\ (forall authorization me,
         reachable db ->
         app.current_user authorization now db = (Return me, db) ->
         truthy (models.is_barber me) = false ->
         exists o row db',
           app.serve (app.Update authorization (models.id me)
                                 Examples.make_barber) s now db
           = (Return (app.UserBody o), db')
           /\ schemas.out_id o = models.id me
           /\ schemas.out_is_barber o = true
           /\ crud.get_user db' (models.id me) = Return (Some row)
           /\ models.is_barber row = Some true)
  /\ (forall user_id p old row db',
         crud.get_user db user_id = Return (Some old) ->
         crud.update_user user_id p s now db = (Return (Some row), db') ->
         models.is_barber row
         = merge (schemas.upd_is_barber p) (models.is_barber old)
         /\ models.is_active row
            = merge (schemas.upd_is_active p) (models.is_active old)).
Proof.
  intros Hstable. split; [|split].
  3: { intros user_id p old row db' Hold Hrun.
       destruct (updated_row_columns db user_id p s now old row db' Hold Hrun)
         as (_ & _ & _ & _ & _ & _ & Ha & Hb).
       now split. }
  - intros body user Hvalid Hnew.
    destruct (register_served body user s now db Hstable Hvalid Hnew)
      as (o & Hrun & _ & _ & _ & _ & _ & _ & Hb & _).
    destruct (UserCreate_validated body user Hvalid)
      as (_ & _ & _ & _ & _ & _ & Hflag & _).
    exists o, (new_row user s (next_rowid db) now).
    split; [exact Hrun|]. simpl. rewrite <- Hflag. now split.
  - intros authorization me Hreach Hme Hflag.
    destruct (current_user_resolved authorization now db db me Hme)
      as (_ & Hin & Hget & Hactive).
    pose proof (reachable_rows_ok db Hstable Hreach) as Hrows.
    unfold rows_ok in Hrows. rewrite Forall_forall in Hrows.
    destruct (Hrows me Hin) as ((e & He & Hv) & Hn & _ & Hc).
    destruct (models.username me) as [n|] eqn:En; [|congruence].
    destruct (models.created_at me) as [c|] eqn:Ec; [|congruence].
    eexists. exists (flushed me (attrs.set_is_barber (Some true) me) now).
    eexists. split; [|split; [|split; [|split]]].
    + unfold app.serve, bind. rewrite Hme.
      unfold lift at 1. cbn [schemas.UserUpdate_validate Examples.make_barber
                               schemas.upd_email].
      unfold routers_user.update_user, bind, execute.
      rewrite Hget, Z.eqb_refl. cbn [negb andb].
      rewrite (make_barber_updates db me s now Hget Hflag).
      unfold app.respond_user, bind, lift, ret, schemas.User_validate.
      cbn [flushed attrs.set_is_barber models.email models.username
             models.is_barber models.is_active models.created_at].
      rewrite He, Hv, En, Hactive, Ec. reflexivity.
    + reflexivity.
    + reflexivity.
    + now apply (get_user_after_update db (models.id me) me).
    + reflexivity.
Qed.

(** The bodies the request model accepts. *)
Lemma UserCreate_accepts (body : schemas.UserCreate_body) (e : string) :
  (6 <= py_len (schemas.body_password body))%nat ->
  EmailStr (schemas.body_email body) = Some e ->
  schemas.UserCreate_validate body
  = Return {| schemas.email := e;
              schemas.username := schemas.body_username body;
              schemas.first_name := schemas.body_first_name body;
              schemas.last_name := schemas.body_last_name body;
              schemas.phone_number := schemas.body_phone_number body;
              schemas.is_barber :=
                match schemas.body_is_barber body with
                | Some v => v
                | None => false
                end;
              schemas.password := schemas.body_password body |}.
Proof.
  intros Hlen He. unfold schemas.UserCreate_validate. rewrite He.
  assert (E : (Z.of_nat (py_len (schemas.body_password body)) <? 6) = false)
    by (apply Z.ltb_ge; lia).
  now rewrite E.
Qed.

(** C10 (amended): Register answers a body whose password has fewer
    than 6 characters, or whose address the validator rejects, with a
    validation error naming the field, answered 422, and stores
    nothing.  For a body whose password has 6 characters or more,
    whose address the validator accepts and whose validated address and
    username no user has, the response shows the address as the
    validator returned it, which need not be the text of the body, and
    the username, the names, the phone number and the barber flag of
    the body; its keys include neither [password] nor
    [hashed_password]; and it is the same response whatever the
    password. *)
Theorem register_validates_and_hides_password
    (body : schemas.UserCreate_body) (s : salt) (now : Z) (db : Store) :
  ((py_len (schemas.body_password body) < 6)%nat
   \/ EmailStr (schemas.body_email body) = None ->
   exists loc,
     app.serve (app.Register body) s now db
     = (Raise (RequestValidationError loc), db)
     /\ loc <> []
     /\ (forall f, In f loc -> f = "email"%string \/ f = "password"%string)
     /\ ((py_len (schemas.body_password body) < 6)%nat ->
         In "password"%string loc)
     /\ (EmailStr (schemas.body_email body) = None -> In "email"%string loc)
     /\ app.status (app.Register body) s now db = 422)
  /\ (email_stable ->
      forall e,
        (6 <= py_len (schemas.body_password body))%nat ->
        EmailStr (schemas.body_email body) = Some e ->
        unused db e (schemas.body_username body) ->
        exists o row,
          app.serve (app.Register body) s now db
          = (Return (app.UserBody o), (db ++ [row])%list)
          /\ app.status (app.Register body) s now db = 201
          /\ schemas.out_email o = e
          /\ schemas.out_username o = schemas.body_username body
          /\ schemas.out_first_name o = schemas.body_first_name body
          /\ schemas.out_last_name o = schemas.body_last_name body
          /\ schemas.out_phone_number o = schemas.body_phone_number body
          /\ schemas.out_is_barber o
             = match schemas.body_is_barber body with
               | Some v => v
               | None => false
               end
          /\ ~ In "password"%string (keys (schemas.User_json o))
          /\ ~ In "hashed_password"%string (keys (schemas.User_json o))
          /\ (forall password s',
                 (6 <= py_len password)%nat ->
                 fst (app.serve (app.Register (with_password password body))
                                s' now db)
                 = Return (app.UserBody o))).
Proof.
  split.
  - intros Hbad. exists (schemas.UserCreate_errors body).
    assert (Hshort : (py_len (schemas.body_password body) < 6)%nat ->
                     (Z.of_nat (py_len (schemas.body_password body)) <? 6)
                     = true)
      by (intros H; apply Z.ltb_lt; lia).
    assert (Hraise : schemas.UserCreate_validate body
                     = Raise (RequestValidationError
                                (schemas.UserCreate_errors body))).
    { unfold schemas.UserCreate_validate.
      destruct Hbad as [H | ->]; [|reflexivity].
      rewrite (Hshort H). now destruct (EmailStr _). }
    unfold app.status, app.serve, bind, lift. rewrite Hraise.
    split; [reflexivity|].
    split; [|split; [|split; [|split; [|reflexivity]]]].
    + unfold schemas.UserCreate_errors.
      destruct Hbad as [H | ->]; [|discriminate].
      rewrite (Hshort H). now destruct (EmailStr _).
    + unfold schemas.UserCreate_errors. intros f Hf.
      apply in_app_or in Hf as [Hf | Hf].
      * destruct (EmailStr _); [easy|]. destruct Hf as [<- | []]. now left.
      * destruct (_ <? 6); [|easy]. destruct Hf as [<- | []]. now right.
    + intros H. unfold schemas.UserCreate_errors. rewrite (Hshort H).
      apply in_or_app. right. now left.
    + intros H. unfold schemas.UserCreate_errors. rewrite H.
      apply in_or_app. left. now left.
  - intros Hstable e Hlen Hbe Hnew.
    pose proof (UserCreate_accepts body e Hlen Hbe) as Hvalid.
    destruct (register_served body _ s now db Hstable Hvalid Hnew)
      as (o & Hrun & Ho & He & Hn & Hf & Hl & Hp & Hb & _).
    exists o. eexists.
    split; [exact Hrun|].
    split; [unfold app.status; now rewrite Hrun|].
    split; [exact He|]. split; [exact Hn|]. split; [exact Hf|].
    split; [exact Hl|]. split; [exact Hp|]. split; [exact Hb|].
    split; [simpl; intuition discriminate|].
    split; [simpl; intuition discriminate|].
    intros password s' Hlen'.
    pose proof (UserCreate_accepts (with_password password body) e Hlen' Hbe)
      as Hvalid'.
    destruct (register_served _ _ s' now db Hstable Hvalid' Hnew)
      as (o' & -> & Ho' & _).
    simpl. f_equal. f_equal.
    apply Hstable in Hbe.
    rewrite new_row_validates in Ho by exact Hbe.
    rewrite new_row_validates in Ho' by exact Hbe.
    simpl in Ho, Ho'. congruence.
Qed.

End Served.

Lemma lower_idempotent (c : ascii) : Toy.lower (Toy.lower c) = Toy.lower c.
Proof. destruct c as [[] [] [] [] [] [] [] []]; reflexivity. Qed.

Lemma lowercase_idempotent (s : string) :
  Toy.lowercase (Toy.lowercase s) = Toy.lowercase s.
Proof.
  induction s as [|c s IH]; simpl; [reflexivity|].
  now rewrite lower_idempotent, IH.
Qed.

Lemma split_at_joined (sep : ascii) (s a b b' : string) :
  Toy.split_at sep s = Some (a, b) ->
  Toy.split_at sep (a ++ String sep b') = Some (a, b').
Proof.
  revert a; induction s as [|c s IH]; simpl; intros a; [discriminate|].
  destruct (Ascii.eqb c sep) eqn:E.
  - intros [= <- _]. simpl. now rewrite Ascii.eqb_refl.
  - destruct (Toy.split_at sep s) as [[a0 b0]|]; [|discriminate].
    intros [= <- <-]. simpl. rewrite E. now rewrite (IH a0 eq_refl).
Qed.

Lemma toy_email_stable : email_stable (L := Toy.libraries).
Proof.
  intros e e'. simpl. unfold Toy.email_str.
  destruct (Toy.split_at "@" e) as [[local domain]|] eqn:E; [|discriminate].
  intros [= <-].
  change (local ++ "@" ++ Toy.lowercase domain)%string
    with (local ++ String "@" (Toy.lowercase domain))%string.
  rewrite (split_at_joined "@" e local domain _ E).
  now rewrite lowercase_idempotent.
Qed.

Lemma only_alice_reachable : reachable (L := Toy.libraries) [Toy.alice].
Proof.
  change [Toy.alice]
    with (snd (app.serve (L := Toy.libraries) (app.Register alice_body)
                         "s1"%string 100 [])).
  apply reach_serve, reach_empty.
Qed.

Lemma toy_users_unused_by_dave : unused Toy.users "d@x.com" "dave".
Proof. intros r [<- | [<- | [<- | []]]]; split; discriminate. Qed.

Lemma barber_flag_is_caller_controlled_witness :
  (exists o row,
      app.serve (L := Toy.libraries) (app.Register dave_body)
                "s4"%string 200 Toy.users
      = (Return (app.UserBody o), (Toy.users ++ [row])%list)
      /\ models.is_barber row = Some true
      /\ schemas.out_is_barber o = true)
  /\ exists o row db',
      app.serve (L := Toy.libraries)
                (app.Update (Some (Toy.token_of 1)) 1 Examples.make_barber)
                "s4"%string 200 [Toy.alice]
      = (Return (app.UserBody o), db')
      /\ schemas.out_id o = 1
      /\ schemas.out_is_barber o = true
      /\ crud.get_user db' 1 = Return (Some row)
      /\ models.is_barber row = Some true.
Proof.
  split.
  - apply (proj1 (barber_flag_is_caller_controlled
                    (L := Toy.libraries) Toy.users "s4"%string 200
                    toy_email_stable)
             dave_body dave_validated eq_refl toy_users_unused_by_dave).
  - apply (proj1 (proj2 (barber_flag_is_caller_controlled
                           (L := Toy.libraries) [Toy.alice] "s4"%string 200
                           toy_email_stable))
             (Some (Toy.token_of 1)) Toy.alice only_alice_reachable
             eq_refl eq_refl).
Defined.

(** C10 as stated fails: a valid registration under an address
    written with its domain in capitals is answered with the address
    as the validator normalised it, not as the body gave it. *)
Lemma response_shows_the_normalised_address :
  exists o row,
    app.serve (L := Toy.libraries) (app.Register capitals_body)
              "s4"%string 200 Toy.users
    = (Return (app.UserBody o), (Toy.users ++ [row])%list)
    /\ schemas.body_email capitals_body = "d@X.COM"%string
    /\ schemas.out_email o = "d@x.com"%string
    /\ schemas.out_email o <> schemas.body_email capitals_body.
Proof.
  eexists. eexists. split; [reflexivity|].
  split; [reflexivity|]. split; [reflexivity | discriminate].
Qed.

Lemma register_validates_and_hides_password_witness :
  (exists loc,
      app.serve (L := Toy.libraries) (app.Register short_password_body)
                "s4"%string 200 Toy.users
      = (Raise (RequestValidationError loc), Toy.users)
      /\ In "password"%string loc
      /\ app.status (L := Toy.libraries) (app.Register short_password_body)
                    "s4"%string 200 Toy.users = 422)
  /\ (String.length three_characters = 9%nat
      /\ app.status (L := Toy.libraries)
                    (app.Register three_characters_body)
                    "s4"%string 200 Toy.users = 422)
  /\ exists o row,
      app.serve (L := Toy.libraries) (app.Register capitals_body)
                "s4"%string 200 Toy.users
      = (Return (app.UserBody o), (Toy.users ++ [row])%list)
      /\ schemas.out_email o = "d@x.com"%string
      /\ schemas.out_username o = "dave"%string
      /\ ~ In "password"%string (keys (schemas.User_json o)).
Proof.
  split; [|split].
  - destruct (proj1 (register_validates_and_hides_password
                       (L := Toy.libraries) short_password_body "s4"%string
                       200 Toy.users))
      as (loc & Hrun & _ & _ & Hpw & _ & Hstatus).
    + left. simpl. lia.
    + exists loc. split; [exact Hrun|]. split; [|exact Hstatus].
      apply Hpw. simpl. lia.
  - split; [reflexivity|].
    destruct (proj1 (register_validates_and_hides_password
                       (L := Toy.libraries) three_characters_body
                       "s4"%string 200 Toy.users))
      as (loc & _ & _ & _ & _ & _ & Hstatus); [|exact Hstatus].
    left. simpl. lia.
  - destruct (proj2 (register_validates_and_hides_password
                       (L := Toy.libraries) capitals_body "s4"%string 200
                       Toy.users)
                toy_email_stable "d@x.com"%string)
      as (o & row & Hrun & _ & Hmail & Hname & _ & _ & _ & _ & Hkey & _).
    + simpl. lia.
    + reflexivity.
    + exact toy_users_unused_by_dave.
    + exists o, row. split; [exact Hrun|].
      split; [exact Hmail|]. split; [exact Hname | exact Hkey].
Defined.

Lemma register_conflict_or_fresh_id_witness :
  app.serve (L := Toy.libraries)
            (app.Register (with_password "password123" alice_body))
            "s4"%string 200 Toy.users
  = (HTTPException 400 "Email already registered" [], Toy.users)
  /\ routers_user.create_user (L := Toy.libraries) Examples.bob_again
                              "s4"%string 200 Toy.users
     = (HTTPException 400 "Username already taken" [], Toy.users)
  /\ routers_user.create_user (L := Toy.libraries) dave_validated
                              "s4"%string 200 Toy.users
     = (Return (new_row (L := Toy.libraries) dave_validated "s4"%string 4 200),
        (Toy.users
         ++ [new_row (L := Toy.libraries) dave_validated "s4"%string 4 200])
        %list).
Proof.
  split; [|split].
  - apply (proj1 (register_conflict_or_fresh_id
                    (L := Toy.libraries) Toy.users
                    (with_password "password123" alice_body)
                    {| schemas.email := "a@x.com";
                       schemas.username := "alice";
                       schemas.first_name := None;
                       schemas.last_name := None;
                       schemas.phone_number := None;
                       schemas.is_barber := false;
                       schemas.password := "password123" |}
                    "s4"%string 200 eq_refl)).
    exists Toy.alice. split; [simpl; auto | reflexivity].
  - apply (proj1 (proj2 (register_conflict_or_fresh_id
                           (L := Toy.libraries) Toy.users
                           {| schemas.body_email := "bob2@x.com";
                              schemas.body_username := "bob";
                              schemas.body_first_name := None;
                              schemas.body_last_name := None;
                              schemas.body_phone_number := None;
                              schemas.body_is_barber := None;
                              schemas.body_password := "password123" |}
                           Examples.bob_again "s4"%string 200 eq_refl))).
    + intros r [<- | [<- | [<- | []]]]; discriminate.
    + exists Toy.bob. split; [simpl; auto | reflexivity].
  - apply (proj2 (proj2 (register_conflict_or_fresh_id
                           (L := Toy.libraries) Toy.users dave_body
                           dave_validated "s4"%string 200 eq_refl))).
    exact toy_users_unused_by_dave.
Defined.

(** * Further properties *)

(** ** Listing *)

Section Listing.
Context {L : Libraries}.

Lemma in_firstn {A} (n : nat) (l : list A) (x : A) :
  In x (firstn n l) -> In x l.
Proof.
  revert l; induction n as [|n IH]; intros [|a l]; simpl; try easy.
  intros [-> | H]; [now left | right; now apply IH].
Qed.

Lemma in_skipn {A} (n : nat) (l : list A) (x : A) :
  In x (skipn n l) -> In x l.
Proof.
  revert l; induction n as [|n IH]; intros [|a l]; simpl; try easy.
  intros H. right. now apply IH.
Qed.

Lemma in_window {A} (skip limit : Z) (l : list A) (x : A) :
  In x (window skip limit l) -> In x l.
Proof.
  unfold window. destruct (limit <? 0); intros H.
  - now apply in_skipn in H.
  - apply in_firstn in H. now apply in_skipn in H.
Qed.

Lemma length_window {A} (skip limit : Z) (l : list A) :
  0 <= limit -> (List.length (window skip limit l) <= Z.to_nat limit)%nat.
Proof.
  intros Hl. unfold window.
  destruct (limit <? 0) eqn:E; [apply Z.ltb_lt in E; lia|].
  apply firstn_le_length.
Qed.





(** A query with an offset and a limit returns the window when both
    fit 64 bits, and raises otherwise. *)
Lemma offset_limit_cases {A} (skip limit : Z) (rows : list A) :
  (in_int64 skip = true /\ in_int64 limit = true
   /\ offset_limit skip limit rows = Return (window skip limit rows))
  \/ ((in_int64 skip = false \/ in_int64 limit = false)
      /\ offset_limit skip limit rows = Raise int_too_large).
Proof.
  unfold offset_limit.
  destruct (in_int64 skip), (in_int64 limit); simpl; auto.
Qed.


Lemma get_barbers_rows (db : Store) (skip limit : Z)
    (page : list models.User) (r : models.User) :
  crud.get_barbers db skip limit = Return page ->
  In r page ->
  In r db /\ truthy (models.is_barber r) = true.
Proof.
  unfold crud.get_barbers, offset_limit.
  destruct (_ && _); [|discriminate].
  intros [= <-] Hr. apply in_window in Hr. now apply filter_In in Hr.
Qed.

Lemma get_barbers_bound (db : Store) (skip limit : Z)
    (page : list models.User) :
  crud.get_barbers db skip limit = Return page ->
  0 <= limit ->
  (List.length page <= Z.to_nat limit)%nat.
Proof.
  unfold crud.get_barbers, offset_limit.
  destruct (_ && _); [|discriminate].
  intros [= <-]. apply length_window.
Qed.

(** X2: [get_barbers] raises [OverflowError] when its offset or its
    limit is outside the range of the integers SQLite binds.  When both
    are within it, it returns rows of the table whose barber flag is
    set, at most [limit] of them for a non-negative limit; and from
    offset 0 with a limit of at least the size of the table it returns
    every such row. *)
Theorem get_barbers_only_barbers (db : Store) (skip limit : Z) :
  (in_int64 skip = false \/ in_int64 limit = false ->
   crud.get_barbers db skip limit = Raise int_too_large)
  /\ (in_int64 skip = true -> in_int64 limit = true ->
      exists page,
        crud.get_barbers db skip limit = Return page
        /\ (forall r,
               In r page -> In r db /\ truthy (models.is_barber r) = true)
        /\ (0 <= limit -> (List.length page <= Z.to_nat limit)%nat))
  /\ (in_int64 limit = true ->
      Z.of_nat (List.length db) <= limit ->
      exists page,
        crud.get_barbers db 0 limit = Return page
        /\ forall r,
            In r db -> truthy (models.is_barber r) = true -> In r page).
Proof.
  split; [|split].
  - intros Hout. unfold crud.get_barbers.
    destruct (offset_limit_cases
                skip limit (filter (fun r => truthy (models.is_barber r)) db))
      as [(Hs & Hl & _) | [_ ->]]; [|reflexivity].
    destruct Hout; congruence.
  - intros Hs Hl.
    assert (Hrun : crud.get_barbers db skip limit
                   = Return (window skip limit
                               (filter (fun r => truthy (models.is_barber r))
                                       db)))
      by (unfold crud.get_barbers, offset_limit; now rewrite Hs, Hl).
    eexists. split; [exact Hrun|]. split.
    + intros r. now apply (get_barbers_rows db skip limit).
    + now apply (get_barbers_bound db skip limit).
  - intros Hl Hall.
    eexists. split.
    + unfold crud.get_barbers, offset_limit. rewrite Hl. reflexivity.
    + intros r Hin Hb. unfold window; simpl.
      assert (Hf : In r (filter (fun r => truthy (models.is_barber r)) db))
        by (apply filter_In; auto).
      destruct (limit <? 0); [exact Hf|].
      rewrite firstn_all2; [exact Hf|].
      pose proof (filter_length_le (fun r => truthy (models.is_barber r)) db).
      lia.
Qed.

(** What the response model makes of a list it accepts. *)
Lemma Users_validate_each (us : list models.User) (os : list schemas.User) :
  schemas.Users_validate us = Return os ->
  Forall2 (fun u o => schemas.User_validate u = Return o) us os.
Proof.
  revert os; induction us as [|u us IH]; simpl; intros os.
  - intros [= <-]. constructor.
  - destruct (schemas.User_validate u) as [o|c d h|e] eqn:Eu.
    + destruct (schemas.Users_validate us) as [os'|c d h|e]; try discriminate.
      intros [= <-]. constructor; [exact Eu | now apply IH].
    + discriminate.
    + destruct e; try discriminate.
      destruct (schemas.Users_validate us) as [os'|c d h|[]]; discriminate.
Qed.

Lemma User_validate_no_http (u : models.User) c d h :
  schemas.User_validate u <> HTTPException c d h.
Proof.
  unfold schemas.User_validate.
  destruct (match models.email u with
            | Some e => EmailStr e | None => None end),
    (models.username u), (models.is_barber u), (models.is_active u),
    (models.created_at u); discriminate.
Qed.

Lemma Users_validate_no_http (us : list models.User) c d h :
  schemas.Users_validate us <> HTTPException c d h.
Proof.
  induction us as [|u us IH]; simpl; [discriminate|].
  pose proof (User_validate_no_http u) as Hu.
  destruct (schemas.User_validate u) as [o|c' d' h'|e].
  - destruct (schemas.Users_validate us) as [os|c' d' h'|e];
      [discriminate | exact IH | discriminate].
  - now destruct (Hu c' d' h').
  - destruct e; try discriminate.
    destruct (schemas.Users_validate us) as [os|c' d' h'|[]]; discriminate.
Qed.

Lemma User_validate_flag (u : models.User) (o : schemas.User) :
  schemas.User_validate u = Return o ->
  models.is_barber u = Some (schemas.out_is_barber o)
  /\ models.is_active u = Some (schemas.out_is_active o)
  /\ schemas.out_id o = models.id u.
Proof.
  unfold schemas.User_validate.
  destruct (match models.email u with Some e => EmailStr e | None => None end);
    try discriminate.
  destruct (models.username u); try discriminate.
  destruct (models.is_barber u); try discriminate.
  destruct (models.is_active u); try discriminate.
  destruct (models.created_at u); try discriminate.
  intros [= <-]; simpl. auto.
Qed.

(** X3: List barbers takes no token: it is never answered with an
    [HTTPException], it leaves the table as it was, and every record of
    a body it answers shows the barber flag set and is at most [limit]
    records long for a non-negative limit. *)
Theorem list_barbers_is_public (skip limit : Z) (s : salt) (now : Z)
    (db : Store) :
  snd (app.serve (app.ListBarbers skip limit) s now db) = db
  /\ (forall c d h,
         fst (app.serve (app.ListBarbers skip limit) s now db)
         <> HTTPException c d h)
  /\ (forall body,
         fst (app.serve (app.ListBarbers skip limit) s now db) = Return body ->
         exists os,
           body = app.UsersBody os
           /\ Forall (fun o => schemas.out_is_barber o = true) os
           /\ (0 <= limit -> (List.length os <= Z.to_nat limit)%nat)).
Proof.
  unfold app.serve, app.respond_users, routers_user.read_barbers. session.
  destruct (crud.get_barbers db skip limit) as [us|c d h|e] eqn:Eg; simpl.
  2: { exfalso. revert Eg. unfold crud.get_barbers, offset_limit.
       destruct (_ && _); discriminate. }
  2: { split; [reflexivity|]. split; discriminate. }
  destruct (schemas.Users_validate us) as [os|c d h|e] eqn:E; simpl.
  - split; [reflexivity|]. split; [discriminate|].
    intros body [= <-]. exists os. split; [reflexivity|].
    apply Users_validate_each in E.
    pose proof (get_barbers_rows db skip limit us) as Hb.
    pose proof (get_barbers_bound db skip limit us Eg) as Hlen.
    split.
    + clear Hlen.
      assert (Hall : forall u, In u us ->
                               truthy (models.is_barber u) = true)
        by (intros u Hu; now apply (Hb u Eg)).
      clear Hb Eg.
      induction E as [|u o us os' Huo _ IH]; constructor.
      * pose proof (Hall u (or_introl eq_refl)) as Ht.
        apply User_validate_flag in Huo as [Hf _].
        rewrite Hf in Ht. now destruct (schemas.out_is_barber o).
      * apply IH. intros r Hr. apply Hall. now right.
    + intros Hl. rewrite <- (Forall2_length E). now apply Hlen.
  - now destruct (Users_validate_no_http us c d h).
  - split; [reflexivity|]. split; discriminate.
Qed.

End Listing.

(** ** Tokens and callers *)

Section Tokens.
Context {L : Libraries}.

(** X4: every protected operation answers a request that carries no
    bearer credentials with 401 "Not authenticated" and leaves the
    table as it was. *)
Theorem no_credentials_no_access (r : app.request) (s : salt) (now : Z)
    (db : Store) :
  app.protected r = Some None ->
  app.serve r s now db
  = (HTTPException 401 "Not authenticated"
                   [("WWW-Authenticate", "Bearer")]%string, db).
Proof.
  intros Hprot.
  destruct r; simpl in Hprot; inversion Hprot; subst; reflexivity.
Qed.

Lemma login_outcome (r : app.request) (s : salt) (now : Z) (db : Store) :
  (exists form_data, r = app.LoginForm form_data)
  \/ (exists body, r = app.LoginEmail body) ->
  snd (app.serve r s now db) = db
  /\ forall body, fst (app.serve r s now db) <> Return body.
Proof.
  intros [[form_data ->] | [body ->]]; unfold app.serve.
  - unfold routers_auth.login_for_access_token. session.
    destruct (crud.get_user_by_email db _) as [u|]; [|now split].
    destruct (utils_auth.verify_password _ _) as [[|]|c d h|e];
      simpl; now split.
  - unfold bind at 1; unfold lift.
    destruct (schemas.LoginRequest_validate body) as [login_data|c d h|e];
      try now split.
    unfold routers_auth.login_with_email. session.
    destruct (crud.get_user_by_email db _) as [u|]; [|now split].
    destruct (utils_auth.verify_password _ _) as [[|]|c d h|e];
      simpl; now split.
Qed.

(** X5: neither login operation ever answers with a token, whatever
    the table, the address and the password: each run ends in an
    [HTTPException] or in another exception, and leaves the table as it
    was. *)
Theorem login_never_returns_a_token (r : app.request) (s : salt) (now : Z)
    (db : Store) :
  (exists form_data, r = app.LoginForm form_data)
  \/ (exists body, r = app.LoginEmail body) ->
  snd (app.serve r s now db) = db
  /\ forall body, fst (app.serve r s now db) <> Return body.
Proof. apply login_outcome. Qed.

Lemma find_id_is (db : Store) (n : Z) :
  integer_affinity (py_str n) = Some n ->
  in_int64 n = true ->
  find (dependencies.id_is (py_str n)) db
  = find (fun r => models.id r =? n) db.
Proof.
  intros Hread Hr.
  induction db as [|r db IH]; simpl; [reflexivity|].
  unfold dependencies.id_is at 1. rewrite Hread, Hr. simpl.
  now destruct (models.id r =? n).
Qed.

(** X6: a token that [create_access_token] builds for the id of a
    stored, active user resolves, through [get_current_user], to that
    user from its issue until the end of its lifetime (the given delta,
    or 30 minutes when the delta is absent or zero), and is answered
    401 from then on.  This holds when the token verifies under the
    service's key and gives back its claims, and the table reads the
    decimal form of the id back. *)
Theorem issued_token_resolves_until_expiry
    (db : Store) (u : models.User) (expires_delta : option Z)
    (now later : Z) :
  let issued := {| exp := Some (now + lifetime expires_delta);
                   sub := Some (py_str (models.id u)) |} in
  jws_verify (jws_sign issued utils_auth.SECRET_KEY utils_auth.ALGORITHM)
             utils_auth.SECRET_KEY [utils_auth.ALGORITHM]
  = Some issued ->
  integer_affinity (py_str (models.id u)) = Some (models.id u) ->
  crud.get_user db (models.id u) = Return (Some u) ->
  models.is_active u = Some true ->
  (later <= now + lifetime expires_delta ->
   dependencies.get_current_user
     (utils_auth.create_access_token now (models.id u) expires_delta)
     later db
   = (Return u, db))
  /\ (now + lifetime expires_delta < later ->
      dependencies.get_current_user
        (utils_auth.create_access_token now (models.id u) expires_delta)
        later db
      = (HTTPException 401 "Could not validate credentials"
                       [("WWW-Authenticate", "Bearer")]%string, db)).
Proof.
  intros issued Hsig Hread Hget Hactive.
  assert (Hexp : utils_auth.create_access_token now (models.id u) expires_delta
                 = jws_sign issued utils_auth.SECRET_KEY utils_auth.ALGORITHM).
  { unfold utils_auth.create_access_token, issued, lifetime.
    change (utils_auth.timedelta_minutes
              utils_auth.ACCESS_TOKEN_EXPIRE_MINUTES) with 1800.
    destruct expires_delta as [d|]; [|reflexivity].
    now destruct (d =? 0). }
  rewrite Hexp.
  unfold dependencies.get_current_user, utils_auth.jwt_decode.
  rewrite Hsig. subst issued. cbn [exp sub].
  split; intros Htime.
  - destruct (now + lifetime expires_delta <? later) eqn:E;
      [apply Z.ltb_lt in E; lia|].
    cbn [sub]. session.
    apply get_user_returns in Hget as [Hr Hget].
    rewrite (find_id_is db _ Hread Hr), Hget, Hactive. reflexivity.
  - apply Z.ltb_lt in Htime. now rewrite Htime.
Qed.

(** X7: whatever the token, [get_current_user] only reads the table;
    and a caller it resolves is a row of the table whose active flag is
    set and whose id is what the subject of the verified token reads
    as. *)
Theorem resolved_caller_is_an_active_row
    (token : string) (now : Z) (db : Store) :
  snd (dependencies.get_current_user token now db) = db
  /\ forall me,
      fst (dependencies.get_current_user token now db) = Return me ->
      In me db
      /\ models.is_active me = Some true
      /\ exists payload user_id,
          utils_auth.jwt_decode token utils_auth.SECRET_KEY
                                [utils_auth.ALGORITHM] now = Some payload
          /\ sub payload = Some user_id
          /\ integer_affinity user_id = Some (models.id me).
Proof.
  unfold dependencies.get_current_user, dependencies.credentials_exception.
  session.
  destruct (utils_auth.jwt_decode _ _ _ _) as [payload|];
    [|split; [reflexivity | discriminate]].
  destruct (sub payload) as [user_id|] eqn:Es;
    [|split; [reflexivity | discriminate]].
  destruct (find _ db) as [u|] eqn:E; [|split; [reflexivity | discriminate]].
  destruct (models.is_active u) as [[|]|] eqn:Ha; simpl;
    try (split; [reflexivity | discriminate]).
  split; [reflexivity|]. intros me [= <-].
  apply find_some in E as [Hin Hid].
  split; [exact Hin|]. split; [exact Ha|].
  exists payload, user_id. split; [reflexivity|]. split; [exact Es|].
  unfold dependencies.id_is in Hid.
  destruct (integer_affinity user_id) as [n|]; [|discriminate].
  apply andb_true_iff in Hid as [_ Hid].
  apply Z.eqb_eq in Hid. now rewrite Hid.
Qed.

End Tokens.

(** ** What a request can do to the table *)

Section Effects.
Context {L : Libraries}.

Lemma find_col_none_inv (col : models.User -> option string) (v : string)
    (db : Store) :
  find (fun r => col_is v (col r)) db = None ->
  forall r, In r db -> col r <> Some v.
Proof.
  intros Hnone r Hin Hr.
  apply (find_none _ _ Hnone) in Hin. apply col_is_eq in Hr. congruence.
Qed.

Lemma current_user_cases (authorization : option string) (now : Z)
    (db : Store) :
  (exists me, app.current_user authorization now db = (Return me, db))
  \/ (exists c d h,
         app.current_user authorization now db = (HTTPException c d h, db)).
Proof.
  pose proof (current_user_reads authorization now db) as Hdb.
  destruct (app.current_user authorization now db) as [[me|c d h|e] db'] eqn:E;
    simpl in Hdb; subst db'.
  - left. now exists me.
  - right. now exists c, d, h.
  - exfalso. revert E.
    unfold app.current_user, dependencies.oauth2_scheme,
      dependencies.get_current_user, dependencies.credentials_exception.
    session.
    destruct authorization as [token|]; simpl; [|discriminate].
    destruct (utils_auth.jwt_decode _ _ _ _) as [payload|]; [|discriminate].
    destruct (sub payload); [|discriminate].
    destruct (find _ db); [|discriminate].
    destruct (negb _); discriminate.
Qed.

Lemma respond_user_past (u : models.User) (db : Store) :
  snd (app.respond_user u db) = db
  /\ past_the_checks (fst (app.respond_user u db)).
Proof.
  unfold app.respond_user, schemas.User_validate. session.
  destruct (match models.email u with Some e => EmailStr e | None => None end),
    (models.username u), (models.is_barber u), (models.is_active u),
    (models.created_at u); simpl; auto.
Qed.

Lemma respond_users_reads (us : list models.User) (db : Store) :
  snd (app.respond_users us db) = db.
Proof.
  unfold app.respond_users. session.
  now destruct (schemas.Users_validate us).
Qed.

Ltac effect_done H :=
  injection H as <- <-; apply effect_none.

Ltac respond_reads H :=
  match type of H with
  | context [app.respond_user ?u ?d] =>
      let Hdb := fresh "Hdb" in
      let Hres := fresh "Hres" in
      destruct (respond_user_past u d) as [Hdb Hres];
      destruct (app.respond_user u d) as [? ?]; simpl in Hdb, Hres;
      subst
  | context [app.respond_users ?us ?d] =>
      let Hdb := fresh "Hdb" in
      pose proof (respond_users_reads us d) as Hdb;
      destruct (app.respond_users us d) as [? ?]; simpl in Hdb; subst
  end.

Lemma serve_effect_of (r : app.request) (s : salt) (now : Z) (db : Store)
    (res : result app.content) (db' : Store) :
  app.serve r s now db = (res, db') -> effect s now db r res db'.
Proof.
  intros H.
  destruct r as [body | a skip limit | a | a user_id | a user_id body
                 | a user_id | skip limit | form_data | body];
    unfold app.serve in H.
  - (* Register *)
    unfold bind at 1, lift in H.
    destruct (schemas.UserCreate_validate body) as [user|c d h|e] eqn:Ev;
      try effect_done H.
    unfold bind at 1 in H.
    destruct (find (fun r => col_is (schemas.email user) (models.email r)) db)
      as [u|] eqn:Ee.
    { assert (Htaken : exists r, In r db
                                 /\ models.email r = Some (schemas.email user)).
      { apply find_some in Ee as [Hin Hc]. exists u. split; [exact Hin|].
        now apply col_is_eq. }
      rewrite (create_user_email_taken db user s now Htaken) in H.
      effect_done H. }
    pose proof (find_col_none_inv models.email _ db Ee) as He.
    destruct (find (fun r => col_is (schemas.username user)
                                   (models.username r)) db)
      as [u|] eqn:En.
    { assert (Htaken : exists r,
                 In r db /\ models.username r = Some (schemas.username user)).
      { apply find_some in En as [Hin Hc]. exists u. split; [exact Hin|].
        now apply col_is_eq. }
      rewrite (create_user_username_taken db user s now He Htaken) in H.
      effect_done H. }
    pose proof (find_col_none_inv models.username _ db En) as Hn.
    assert (Hnew : unused db (schemas.email user) (schemas.username user))
      by (intros r Hr; split; [now apply He | now apply Hn]).
    rewrite (create_user_unused db user s now Hnew) in H.
    respond_reads H. injection H as <- <-.
    now apply effect_insert.
  - (* ListUsers *)
    unfold bind at 1 in H.
    destruct (current_user_cases a now db) as [[me Hme] | (c & d & h & Hme)];
      rewrite Hme in H; [|effect_done H].
    unfold routers_user.read_users, bind, execute in H.
    destruct (crud.get_users db skip limit) as [us|c d h|e];
      [respond_reads H | |]; effect_done H.
  - (* GetSelf *)
    unfold bind at 1 in H.
    destruct (current_user_cases a now db) as [[me Hme] | (c & d & h & Hme)];
      rewrite Hme in H; [|effect_done H].
    unfold routers_user.read_users_me, bind, ret in H.
    respond_reads H. effect_done H.
  - (* GetById *)
    unfold bind at 1 in H.
    destruct (current_user_cases a now db) as [[me Hme] | (c & d & h & Hme)];
      rewrite Hme in H; [|effect_done H].
    unfold routers_user.read_user, bind, execute, ret, raise_http in H.
    destruct (crud.get_user db user_id) as [[u|]|c d h|e];
      [respond_reads H | | |]; effect_done H.
  - (* Update *)
    unfold bind at 1 in H.
    destruct (current_user_cases a now db) as [[me Hme] | (c & d & h & Hme')];
      [rewrite Hme in H | rewrite Hme' in H; effect_done H].
    unfold bind at 1, lift in H.
    destruct (schemas.UserUpdate_validate body) as [p|c d h|e] eqn:Ev;
      try effect_done H.
    unfold bind at 1 in H. unfold routers_user.update_user in H.
    unfold bind at 1, execute in H.
    destruct (crud.get_user db user_id) as [[old|]|c d h|e] eqn:Hold;
      [ | unfold raise_http in H; effect_done H
        | effect_done H | effect_done H].
    destruct (negb (models.id me =? user_id)
              && negb (truthy (models.is_barber me))) eqn:Eperm;
      [unfold raise_http in H; effect_done H|].
    assert (Hallowed : models.id me = user_id
                       \/ truthy (models.is_barber me) = true).
    { apply andb_false_iff in Eperm as [E | E]; apply negb_false_iff in E.
      - left. now apply Z.eqb_eq.
      - now right. }
    rewrite (update_user_found db user_id p s now old Hold) in H.
    destruct (update_outcome old (merged s p old) now db)
      as [[_ Hup] | [[msg Hup] | [Hok Hup]]]; rewrite Hup in H.
    + respond_reads H. effect_done H.
    + effect_done H.
    + respond_reads H. injection H as <- <-.
      now apply (effect_update s now db a user_id body p me old).
  - (* Delete *)
    unfold app.barber_user, dependencies.get_barber_user in H.
    unfold bind at 1 in H. unfold bind at 1 in H.
    destruct (current_user_cases a now db) as [[me Hme] | (c & d & h & Hme')];
      [rewrite Hme in H | rewrite Hme' in H; effect_done H].
    destruct (truthy (models.is_barber me)) eqn:Eb; simpl in H;
      [|unfold raise_http in H; effect_done H].
    unfold routers_user.delete_user, crud.delete_user, delete in H.
    session.
    destruct (crud.get_user db user_id) as [[old|]|c d h|e] eqn:Hold;
      simpl in H; [ | effect_done H | effect_done H | effect_done H].
    injection H as <- <-.
    now apply (effect_delete s now db a user_id me old).
  - (* ListBarbers *)
    unfold routers_user.read_barbers, bind, execute in H.
    destruct (crud.get_barbers db skip limit) as [us|c d h|e];
      [respond_reads H | |]; effect_done H.
  - (* LoginForm *)
    pose proof (login_outcome
                  (app.LoginForm form_data) s now db
                  (or_introl (ex_intro _ form_data eq_refl))) as [Hdb _].
    unfold app.serve in Hdb. rewrite H in Hdb. simpl in Hdb. subst db'.
    apply effect_none.
  - (* LoginEmail *)
    pose proof (login_outcome
                  (app.LoginEmail body) s now db
                  (or_intror (ex_intro _ body eq_refl))) as [Hdb _].
    unfold app.serve in Hdb. rewrite H in Hdb. simpl in Hdb. subst db'.
    apply effect_none.
Qed.

(** Serving a request has one of the four effects. *)
Lemma serve_effect (r : app.request) (s : salt) (now : Z) (db : Store) :
  effect s now db r (fst (app.serve r s now db)) (snd (app.serve r s now db)).
Proof. apply serve_effect_of. now destruct (app.serve r s now db). Qed.

End Effects.

(** ** Who can change what *)

Section Integrity.
Context {L : Libraries}.

Lemma find_app_some {A} (f : A -> bool) (l l' : list A) (x : A) :
  find f l = Some x -> find f (l ++ l') = Some x.
Proof.
  induction l as [|a l IH]; simpl; [discriminate|].
  destruct (f a); [trivial | exact IH].
Qed.

Lemma find_app_none {A} (f : A -> bool) (l l' : list A) :
  find f l = None -> find f (l ++ l') = find f l'.
Proof.
  induction l as [|a l IH]; simpl; [trivial|].
  destruct (f a); [discriminate | exact IH].
Qed.

(** X8: a request that is answered with an [HTTPException] (400, 401,
    403, 404) or whose body is rejected (422) leaves the table exactly
    as it was. *)
Theorem rejected_request_writes_nothing
    (r : app.request) (s : salt) (now : Z) (db : Store) :
  ~ past_the_checks (fst (app.serve r s now db)) ->
  snd (app.serve r s now db) = db.
Proof.
  intros Hrej.
  destruct (app.serve r s now db) as [res db'] eqn:E; simpl in *.
  apply serve_effect_of in E.
  destruct E; try reflexivity; exfalso; apply Hrej; simpl; auto.
Qed.

(** X9: the only request that removes a user is a Delete-by-id of that
    user's id sent by a resolved caller whose barber flag is set: if an
    id is in the table before a request and not after it, the request
    is such a Delete. *)
Theorem only_a_barber_delete_removes
    (r : app.request) (s : salt) (now : Z) (db : Store) (user_id : Z) :
  crud.get_user db user_id <> Return None ->
  crud.get_user (snd (app.serve r s now db)) user_id = Return None ->
  exists authorization me,
    r = app.Delete authorization user_id
    /\ app.current_user authorization now db = (Return me, db)
    /\ truthy (models.is_barber me) = true.
Proof.
  intros Hbefore Hafter.
  apply get_user_returns in Hafter as [Hr Hafter].
  rewrite (get_user_in_range db user_id Hr) in Hbefore.
  assert (Hin : find (fun r => models.id r =? user_id) db <> None)
    by congruence.
  clear Hbefore.
  destruct (app.serve r s now db) as [res0 db'] eqn:E; simpl in *.
  apply serve_effect_of in E.
  destruct E
    as [r res | body user res _ _ _
        | a target body p me old res _ _ Hold _ _ _
        | a target me old Hme Hb Hold].
  - contradiction.
  - exfalso.
    destruct (find _ db) as [u|] eqn:E; [|congruence].
    now rewrite (find_app_some _ db _ u E) in Hafter.
  - exfalso. apply get_user_returns in Hold as [_ Hold].
    destruct (find_id_in db target old Hold) as [_ Hid].
    destruct (Z.eq_dec user_id target) as [-> | Hne].
    + rewrite Hid in Hafter.
      rewrite (find_updated db target _ old) in Hafter;
        [discriminate | exact Hid | exact Hold].
    + rewrite Hid in Hafter.
      rewrite find_other_after_update in Hafter; [contradiction | | exact Hne].
      exact Hid.
  - apply get_user_returns in Hold as [_ Hold].
    destruct (find_id_in db target old Hold) as [_ Hid].
    destruct (Z.eq_dec user_id target) as [-> | Hne].
    + now exists a, me.
    + exfalso. rewrite Hid in Hafter.
      now rewrite find_other_after_delete in Hafter.
Qed.

(** X10: the only request that changes a user's record is an
    Update-by-id of that user's id sent by a resolved caller who is that
    user or whose barber flag is set: if the record of an id differs
    before and after a request, the request is such an Update. *)
Theorem only_a_permitted_update_changes
    (r : app.request) (s : salt) (now : Z) (db : Store) (user_id : Z)
    (before after : models.User) :
  crud.get_user db user_id = Return (Some before) ->
  crud.get_user (snd (app.serve r s now db)) user_id = Return (Some after) ->
  after <> before ->
  exists authorization body me,
    r = app.Update authorization user_id body
    /\ app.current_user authorization now db = (Return me, db)
    /\ (models.id me = user_id \/ truthy (models.is_barber me) = true).
Proof.
  intros Hbefore Hafter Hdiff.
  apply get_user_returns in Hbefore as [_ Hbefore].
  apply get_user_returns in Hafter as [_ Hafter].
  destruct (app.serve r s now db) as [res0 db'] eqn:E; simpl in *.
  apply serve_effect_of in E.
  destruct E
    as [r res | body user res _ _ _
        | a target body p me old res Hme _ Hold Hallowed _ _
        | a target me old _ _ Hold].
  - congruence.
  - exfalso.
    rewrite (find_app_some _ db _ before Hbefore) in Hafter. congruence.
  - apply get_user_returns in Hold as [_ Hold].
    destruct (find_id_in db target old Hold) as [_ Hid].
    destruct (Z.eq_dec user_id target) as [-> | Hne].
    + now exists a, body, me.
    + exfalso. rewrite Hid in Hafter.
      rewrite find_other_after_update in Hafter;
        [congruence | exact Hid | exact Hne].
  - exfalso. apply get_user_returns in Hold as [_ Hold].
    destruct (find_id_in db target old Hold) as [_ Hid].
    rewrite Hid in Hafter.
    destruct (Z.eq_dec user_id target) as [-> | Hne].
    + now rewrite find_deleted in Hafter.
    + rewrite find_other_after_delete in Hafter; congruence.
Qed.

(** X11: the only request that adds a user is a Register with a valid
    body: if an id is not in the table before a request and is in it
    after, the request is a Register, the id is the next rowid, and the
    new record carries the validated address and username, the barber
    flag of the body, a set active flag and the hash of the body's
    password. *)
Theorem only_register_adds
    (r : app.request) (s : salt) (now : Z) (db : Store) (user_id : Z)
    (row : models.User) :
  crud.get_user db user_id = Return None ->
  crud.get_user (snd (app.serve r s now db)) user_id = Return (Some row) ->
  exists body user,
    r = app.Register body
    /\ schemas.UserCreate_validate body = Return user
    /\ user_id = next_rowid db
    /\ row = new_row user s (next_rowid db) now.
Proof.
  intros Hbefore Hafter.
  apply get_user_returns in Hbefore as [_ Hbefore].
  apply get_user_returns in Hafter as [_ Hafter].
  destruct (app.serve r s now db) as [res0 db'] eqn:E; simpl in *.
  apply serve_effect_of in E.
  destruct E
    as [r res | body user res Hvalid _ _
        | a target body p me old res _ _ Hold _ _ _
        | a target me old _ _ Hold].
  - congruence.
  - exists body, user. split; [reflexivity|]. split; [exact Hvalid|].
    rewrite (find_app_none _ db _ Hbefore) in Hafter. simpl in Hafter.
    destruct (next_rowid db =? user_id) eqn:E; [|discriminate].
    apply Z.eqb_eq in E. injection Hafter as <-. now split.
  - exfalso. apply get_user_returns in Hold as [_ Hold].
    destruct (find_id_in db target old Hold) as [_ Hid].
    rewrite Hid in Hafter.
    destruct (Z.eq_dec user_id target) as [-> | Hne]; [congruence|].
    rewrite find_other_after_update in Hafter;
      [congruence | exact Hid | exact Hne].
  - exfalso. apply get_user_returns in Hold as [_ Hold].
    destruct (find_id_in db target old Hold) as [_ Hid].
    rewrite Hid in Hafter.
    destruct (Z.eq_dec user_id target) as [-> | Hne].
    + now rewrite find_deleted in Hafter.
    + rewrite find_other_after_delete in Hafter; congruence.
Qed.

End Integrity.

(** ** Invariants of the reachable tables *)

Section Reachable.
Context {L : Libraries}.

Lemma reachable_ind_effect (P : Store -> Prop) :
  P [] ->
  (forall db r res db' s now,
      reachable db -> P db -> effect s now db r res db' -> P db') ->
  forall db, reachable db -> P db.
Proof.
  intros Hnil Hstep db Hreach.
  induction Hreach as [|db r s now Hreach IH]; [exact Hnil|].
  exact (Hstep db r _ _ s now Hreach IH (serve_effect r s now db)).
Qed.

Lemma Forall_replace {A} (P : A -> Prop) (c : A -> bool) (row : A)
    (l : list A) :
  Forall P l -> P row -> Forall P (map (fun r => if c r then row else r) l).
Proof.
  intros Hl Hrow. induction Hl as [|a l Ha _ IH]; simpl; constructor.
  - now destruct (c a).
  - exact IH.
Qed.

Lemma Forall_filter {A} (P : A -> Prop) (c : A -> bool) (l : list A) :
  Forall P l -> Forall P (filter c l).
Proof.
  intros Hl. induction Hl as [|a l Ha _ IH]; simpl; [constructor|].
  destruct (c a); [now constructor | exact IH].
Qed.

(** A property of rows that INSERT and UPDATE establish holds of every
    row of every reachable table. *)
Lemma reachable_rows (P : models.User -> Prop) :
  (forall user s rowid now, P (new_row user s rowid now)) ->
  (forall s p old now db,
      P old ->
      first_violation (violations old (merged s p old) db) = None ->
      P (flushed old (merged s p old) now)) ->
  forall db, reachable db -> Forall P db.
Proof.
  intros Hnew Hupd. apply reachable_ind_effect; [constructor|].
  intros db r res db' s now _ IH Heff.
  destruct Heff as [r res | body user res _ _ _
                    | a target body p me old res _ _ Hold _ Hok _
                    | a target me old _ _ Hold].
  - exact IH.
  - apply Forall_app. split; [exact IH|].
    constructor; [apply Hnew | constructor].
  - apply Forall_replace; [exact IH|].
    apply (Hupd s p old now db); [|exact Hok].
    destruct (get_user_in db target old Hold) as (_ & Hin & _).
    rewrite Forall_forall in IH. now apply IH.
  - now apply Forall_filter.
Qed.

(** X12: in every reachable table the hash column of every row holds a
    hash made by [get_password_hash]: no request stores anything else
    there. *)
Theorem reachable_tables_store_hashes (db : Store) :
  reachable db -> Forall holds_a_hash db.
Proof.
  apply reachable_rows.
  - intros user s rowid now. now exists s, (schemas.password user).
  - intros s p old now db0 (s0 & p0 & Hold) _.
    unfold holds_a_hash; simpl. unfold merge_password.
    destruct (schemas.upd_password p) as [[password|]|];
      try (now exists s0, p0).
    destruct (str_truthy password); [|now exists s0, p0].
    now exists s, password.
Qed.

Lemma no_violation_unique (name : string)
    (col : models.User -> option string) (old new : models.User)
    (db : Store) :
  null_violation name (col old) (col new) = None ->
  unique_violation name col old new db = None ->
  col new = col old
  \/ exists v, col new = Some v /\ ~ In (Some v) (map col db).
Proof.
  unfold null_violation, unique_violation.
  destruct (str_opt_eqb (col old) (col new)) eqn:E; simpl.
  - intros _ _. left. symmetry. now apply str_opt_eqb_eq.
  - destruct (col new) as [v|]; [|discriminate].
    intros _ Hu. right. exists v. split; [reflexivity|].
    destruct (existsb _ db) eqn:Ex; [discriminate|].
    intros Hin. apply in_map_iff in Hin as (r & Hr & Hin).
    assert (Ht : existsb (fun r => col_is v (col r)) db = true).
    { apply existsb_exists. exists r. split; [exact Hin|].
      now apply col_is_eq. }
    congruence.
Qed.

Lemma no_violation_keys (old new : models.User) (db : Store) :
  first_violation (violations old new db) = None ->
  (models.email new = models.email old
   \/ exists v, models.email new = Some v
                /\ ~ In (Some v) (map models.email db))
  /\ (models.username new = models.username old
      \/ exists v, models.username new = Some v
                   /\ ~ In (Some v) (map models.username db)).
Proof.
  unfold violations. intros H.
  apply first_violation_cons in H as [H1 H].
  apply first_violation_cons in H as [H2 H].
  apply first_violation_cons in H as [_ H].
  apply first_violation_cons in H as [H4 H].
  apply first_violation_cons in H as [H5 _].
  split.
  - exact (no_violation_unique "email" models.email old new db H1 H4).
  - exact (no_violation_unique "username" models.username old new db H2 H5).
Qed.

Lemma NoDup_snoc {A} (l : list A) (x : A) :
  NoDup l -> ~ In x l -> NoDup (l ++ [x]).
Proof.
  intros Hl. induction Hl as [|a l Ha _ IH]; simpl; intros Hx.
  - constructor; [easy | constructor].
  - constructor.
    + intros Hin. apply in_app_or in Hin as [Hin | [-> | []]]; tauto.
    + apply IH. tauto.
Qed.

Lemma NoDup_insert {A} (l1 l2 : list A) (x : A) :
  NoDup (l1 ++ l2) -> ~ In x (l1 ++ l2) -> NoDup (l1 ++ x :: l2).
Proof.
  induction l1 as [|a l1 IH]; simpl; intros Hnd Hx.
  - now constructor.
  - inversion Hnd as [|? ? Ha Hnd']; subst. constructor.
    + intros Hin. apply in_app_or in Hin as [Hin | [-> | Hin]].
      * apply Ha. apply in_or_app. now left.
      * tauto.
      * apply Ha. apply in_or_app. now right.
    + apply IH; tauto.
Qed.

Lemma NoDup_map_filter {A B} (f : A -> B) (c : A -> bool) (l : list A) :
  NoDup (map f l) -> NoDup (map f (filter c l)).
Proof.
  induction l as [|a l IH]; simpl; intros Hnd; [constructor|].
  inversion Hnd as [|? ? Ha Hnd']; subst.
  destruct (c a); simpl; [|now apply IH].
  constructor; [|now apply IH].
  intros Hin. apply Ha. apply in_map_iff in Hin as (r & Hr & Hin).
  apply filter_In in Hin as [Hin _]. apply in_map_iff. now exists r.
Qed.

(** With distinct ids, an UPDATE replaces one row in place. *)
Lemma replace_in_place (db : Store) (old row : models.User) :
  NoDup (map models.id db) -> In old db ->
  exists l1 l2,
    db = (l1 ++ old :: l2)%list
    /\ map (fun r => if models.id r =? models.id old then row else r) db
       = (l1 ++ row :: l2)%list.
Proof.
  intros Hnd Hin.
  destruct (in_split old db Hin) as (l1 & l2 & ->).
  exists l1, l2. split; [reflexivity|].
  rewrite map_app in Hnd. simpl in Hnd.
  apply NoDup_remove_2 in Hnd.
  rewrite map_app; simpl. rewrite Z.eqb_refl.
  assert (Hsame : forall l,
             (forall r, In r l -> models.id r <> models.id old) ->
             map (fun r => if models.id r =? models.id old then row else r) l
             = l).
  { induction l as [|a l IH]; simpl; intros Hl; [reflexivity|].
    destruct (models.id a =? models.id old) eqn:E.
    - apply Z.eqb_eq in E. now destruct (Hl a (or_introl eq_refl)).
    - f_equal. apply IH. intros r Hr. apply Hl. now right. }
  rewrite !Hsame; [reflexivity | |];
    intros r Hr Heq; apply Hnd; apply in_or_app;
    [right | left]; apply in_map_iff; now exists r.
Qed.

Lemma NoDup_replace_col {B} (col : models.User -> B)
    (l1 l2 : list models.User) (old row : models.User) :
  NoDup (map col (l1 ++ old :: l2)) ->
  col row = col old \/ ~ In (col row) (map col (l1 ++ old :: l2)) ->
  NoDup (map col (l1 ++ row :: l2)).
Proof.
  rewrite !map_app; simpl. intros Hnd [-> | Hnew]; [exact Hnd|].
  apply NoDup_insert.
  - now apply NoDup_remove_1 in Hnd.
  - intros Hin. apply Hnew. apply in_app_or in Hin as [Hin | Hin];
      apply in_or_app; [now left | right; now right].
Qed.

(** X13: in every reachable table no two rows share an id, no two
    share an address, no two share a username, and no row lacks an
    address or a username. *)
Theorem reachable_tables_have_distinct_keys (db : Store) :
  reachable db -> distinct_keys db.
Proof.
  apply reachable_ind_effect.
  - repeat split; constructor.
  - intros db0 r res db' s now _ (Hid & He & Hn & Hnull) Heff.
    destruct Heff as [r res | body user res _ Hnew _
                      | a target body p me old res _ _ Hold _ Hok _
                      | a target me old _ _ Hold].
    + now repeat split.
    + unfold distinct_keys. rewrite !map_app; simpl.
      split; [|split; [|split]].
      * apply NoDup_snoc; [exact Hid|].
        intros Hin. apply in_map_iff in Hin as (r0 & Hr0 & Hin).
        apply next_rowid_above in Hin. lia.
      * apply NoDup_snoc; [exact He|].
        intros Hin. apply in_map_iff in Hin as (r0 & Hr0 & Hin).
        now apply (proj1 (Hnew r0 Hin)).
      * apply NoDup_snoc; [exact Hn|].
        intros Hin. apply in_map_iff in Hin as (r0 & Hr0 & Hin).
        now apply (proj2 (Hnew r0 Hin)).
      * apply Forall_app. split; [exact Hnull|].
        constructor; [split; discriminate | constructor].
    + destruct (get_user_in db0 target old Hold) as (_ & Hin & _).
      destruct (no_violation_keys _ _ _ Hok) as [Hke Hkn].
      assert (Hold_ok : models.email old <> None
                        /\ models.username old <> None)
        by (rewrite Forall_forall in Hnull; now apply Hnull).
      set (row := flushed old (merged s p old) now) in *.
      split; [|split; [|split]].
      * rewrite map_map.
        erewrite map_ext; [exact Hid|].
        intros r0; simpl.
        destruct (models.id r0 =? models.id old) eqn:E; [|reflexivity].
        apply Z.eqb_eq in E. now rewrite E.
      * destruct (replace_in_place db0 old row Hid Hin)
          as (l1 & l2 & Hdb & ->).
        rewrite Hdb in He. apply (NoDup_replace_col _ l1 l2 old row He).
        change (models.email row) with (models.email (merged s p old)).
        destruct Hke as [Hsame | (v & Hv & Hfresh)]; [now left | right].
        rewrite Hv, <- Hdb. exact Hfresh.
      * destruct (replace_in_place db0 old row Hid Hin)
          as (l1 & l2 & Hdb & ->).
        rewrite Hdb in Hn. apply (NoDup_replace_col _ l1 l2 old row Hn).
        change (models.username row)
          with (models.username (merged s p old)).
        destruct Hkn as [Hsame | (v & Hv & Hfresh)]; [now left | right].
        rewrite Hv, <- Hdb. exact Hfresh.
      * apply Forall_replace; [exact Hnull|].
        change (models.email row) with (models.email (merged s p old)).
        change (models.username row)
          with (models.username (merged s p old)).
        split.
        -- destruct Hke as [-> | (v & -> & _)]; [tauto | discriminate].
        -- destruct Hkn as [-> | (v & -> & _)]; [tauto | discriminate].
    + split; [|split; [|split]].
      * now apply NoDup_map_filter.
      * now apply NoDup_map_filter.
      * now apply NoDup_map_filter.
      * now apply Forall_filter.
Qed.

(** X14: with a validator that accepts the addresses it returned, the
    response model accepts every row of a reachable table whose two
    flags are set, and shows the row's id, address and flags: such a
    record is never answered 500. *)
Theorem reachable_rows_are_presentable (db : Store) (r : models.User)
    (active barber : bool) :
  email_stable -> reachable db -> In r db ->
  models.is_active r = Some active ->
  models.is_barber r = Some barber ->
  exists o,
    schemas.User_validate r = Return o
    /\ schemas.out_id o = models.id r
    /\ models.email r = Some (schemas.out_email o)
    /\ schemas.out_is_active o = active
    /\ schemas.out_is_barber o = barber.
Proof.
  intros Hstable Hreach Hin Ha Hb.
  pose proof (reachable_rows_ok db Hstable Hreach) as Hrows.
  unfold rows_ok in Hrows. rewrite Forall_forall in Hrows.
  destruct (Hrows r Hin) as ((e & He & Hv) & Hn & _ & Hc).
  unfold schemas.User_validate. rewrite He, Hv, Ha, Hb.
  destruct (models.username r) as [n|]; [|congruence].
  destruct (models.created_at r) as [c|]; [|congruence].
  eexists. split; [reflexivity|]. simpl. auto.
Qed.

End Reachable.

(** ** The store's operations *)

Section StoreOperations.
Context {L : Libraries}.

Lemma existsb_col_some (col : models.User -> option string) (v : string)
    (db : Store) (r : models.User) :
  In r db -> col r = Some v -> existsb (fun r => col_is v (col r)) db = true.
Proof.
  intros Hin Hr. apply existsb_exists. exists r.
  split; [exact Hin | now apply col_is_eq].
Qed.

(** X15: the store's [create_user] on an address or a username that a
    row holds raises an [IntegrityError] and writes nothing; on an
    unused pair it appends the new row, after which the row is the
    only one of its id and is what [get_user] finds under that id (an
    id SQLite stores), what [get_user_by_email] finds under its address
    and [get_user_by_username] under its username, every id that was
    in the table is found as before, and, when the password verifies
    against the hash made of it, it verifies against the stored
    hash. *)
Theorem create_user_then_lookup
    (db : Store) (user : schemas.UserCreate) (s : salt) (now : Z) :
  ((exists r, In r db
              /\ (models.email r = Some (schemas.email user)
                  \/ models.username r = Some (schemas.username user))) ->
   exists msg,
     crud.create_user user s now db = (Raise (IntegrityError msg), db))
  /\ (unused db (schemas.email user) (schemas.username user) ->
      let row := new_row user s (next_rowid db) now in
      let db' := (db ++ [row])%list in
      crud.create_user user s now db = (Return row, db')
      /\ (forall r, In r db' -> models.id r = models.id row -> r = row)
      /\ (in_int64 (models.id row) = true ->
          crud.get_user db' (models.id row) = Return (Some row))
      /\ crud.get_user_by_email db' (schemas.email user) = Some row
      /\ crud.get_user_by_username db' (schemas.username user) = Some row
      /\ (forall other,
             crud.get_user db other <> Return None ->
             crud.get_user db' other = crud.get_user db other)
      /\ (pwd_verify (schemas.password user)
                     (pwd_hash s (schemas.password user)) = Some true ->
          utils_auth.verify_password (schemas.password user)
                                     (models.hashed_password row)
          = Return true)).
Proof.
  split.
  - intros (r & Hin & Htaken).
    unfold crud.create_user, insert; simpl.
    destruct (existsb (fun r => col_is (schemas.email user) (models.email r))
                      db) eqn:Ee; [eauto|].
    destruct Htaken as [He | Hn].
    + now rewrite (existsb_col_some models.email _ db r Hin He) in Ee.
    + rewrite (existsb_col_some models.username _ db r Hin Hn). eauto.
  - intros Hnew row db'.
    assert (He : forall r, In r db ->
                           models.email r <> Some (schemas.email user))
      by (intros r Hr; apply (Hnew r Hr)).
    assert (Hn : forall r, In r db ->
                           models.username r <> Some (schemas.username user))
      by (intros r Hr; apply (Hnew r Hr)).
    assert (Hfresh : find (fun r => models.id r =? next_rowid db) db = None).
    { apply find_id_absent. intros r Hin.
      apply next_rowid_above in Hin. lia. }
    split; [|split; [|split; [|split; [|split; [|split]]]]].
    + unfold crud.create_user, insert; simpl.
      rewrite (existsb_col_none models.email _ db He).
      now rewrite (existsb_col_none models.username _ db Hn).
    + intros r Hin Hid. unfold db' in Hin.
      apply in_app_or in Hin as [Hin | [<- | []]]; [|reflexivity].
      apply next_rowid_above in Hin. simpl in Hid. lia.
    + intros Hr. rewrite (get_user_in_range _ _ Hr). f_equal.
      unfold db'. rewrite find_app_none by exact Hfresh.
      simpl. now rewrite Z.eqb_refl.
    + unfold crud.get_user_by_email, db'.
      rewrite find_app_none by (now apply find_col_none).
      simpl. now rewrite String.eqb_refl.
    + unfold crud.get_user_by_username, db'.
      rewrite find_app_none by (now apply find_col_none).
      simpl. now rewrite String.eqb_refl.
    + intros other Hother. unfold crud.get_user in *.
      destruct (in_int64 other); [|reflexivity].
      destruct (find (fun r => models.id r =? other) db) as [r|] eqn:E;
        [|congruence].
      f_equal. now apply find_app_some.
    + intros Hhash. unfold utils_auth.verify_password; simpl.
      unfold utils_auth.get_password_hash. now rewrite Hhash.
Qed.

(** X16: the store's update has no check of its own against
    duplicates: a payload that sets the address to null, or to an
    address another row holds, ends in an [IntegrityError] raised by
    the table's constraints and writes nothing; a permitted caller of
    Update-by-id gets that exception, not a 400. *)
Theorem update_conflict_raises
    (db : Store) (user_id : Z) (p : schemas.UserUpdate) (s : salt) (now : Z)
    (old : models.User) :
  crud.get_user db user_id = Return (Some old) ->
  (schemas.upd_email p = Some None /\ models.email old <> None)
  \/ (exists e r,
         schemas.upd_email p = Some (Some e)
         /\ models.email old <> Some e
         /\ In r db /\ models.email r = Some e) ->
  exists msg,
    crud.update_user user_id p s now db = (Raise (IntegrityError msg), db)
    /\ forall me,
        models.id me = user_id \/ truthy (models.is_barber me) = true ->
        routers_user.update_user user_id p me s now db
        = (Raise (IntegrityError msg), db).
Proof.
  intros Hold Hbad.
  assert (Hraise : exists msg,
             crud.update_user user_id p s now db
             = (Raise (IntegrityError msg), db)).
  { rewrite (update_user_found db user_id p s now old Hold).
    assert (Hchanged : str_opt_eqb (models.email old)
                                   (models.email (merged s p old)) = false).
    { apply not_true_is_false. rewrite str_opt_eqb_eq. simpl.
      destruct Hbad as [[-> Hnn] | (e & r & -> & Hne & _)]; simpl; congruence. }
    assert (Hv : exists e0,
               first_violation (violations old (merged s p old) db)
               = Some e0).
    { unfold violations. cbn [first_violation fold_right].
      unfold null_violation at 1. rewrite Hchanged. cbn [negb].
      destruct Hbad as [[Hp _] | (e & r & Hp & _ & Hin & Hr)].
      - simpl. rewrite Hp. simpl. eauto.
      - assert (Hnew : models.email (merged s p old) = Some e)
          by (simpl; now rewrite Hp).
        rewrite Hnew.
        destruct (null_violation "username" _ _); [eauto|].
        destruct (null_violation "hashed_password" _ _); [eauto|].
        unfold unique_violation at 1. rewrite Hchanged, Hnew. cbn [negb].
        rewrite (existsb_col_some models.email e db r Hin Hr). eauto. }
    destruct Hv as [e0 Hv].
    destruct (violation_is_integrity_error _ _ _ _ Hv) as [msg ->].
    exists msg. unfold update.
    assert (Hmod : modified old (merged s p old) = true)
      by (unfold modified; now rewrite Hchanged).
    now rewrite Hmod, Hv. }
  destruct Hraise as [msg Hraise]. exists msg. split; [exact Hraise|].
  intros me Hallowed.
  now rewrite (update_user_allowed db user_id p me old s now Hold Hallowed).
Qed.

(** X17: the store's [delete_user] raises [OverflowError] for an id
    outside the range of the integers SQLite stores, and changes
    nothing.  For an id within it, it returns [False] and changes
    nothing when no user has the id; when one has, it returns [True]
    and leaves a table that is shorter, in which no user has the id
    and every other id is found as before, and on which a second
    delete of the id returns [False]. *)
Theorem delete_user_twice (db : Store) (user_id : Z) :
  (in_int64 user_id = false ->
   crud.delete_user user_id db = (Raise int_too_large, db))
  /\ (in_int64 user_id = true ->
      (forall r, In r db -> models.id r <> user_id) ->
      crud.delete_user user_id db = (Return false, db))
  /\ (in_int64 user_id = true ->
      (exists r, In r db /\ models.id r = user_id) ->
      exists db',
        crud.delete_user user_id db = (Return true, db')
        /\ (List.length db' < List.length db)%nat
        /\ (forall r, In r db' -> models.id r <> user_id)
        /\ crud.get_user db' user_id = Return None
        /\ (forall other,
               other <> user_id ->
               crud.get_user db' other = crud.get_user db other)
        /\ crud.delete_user user_id db' = (Return false, db')).
Proof.
  unfold crud.delete_user, delete. session. split; [|split].
  - intros Hr. now rewrite (get_user_overflow db user_id Hr).
  - intros Hr Habsent. now rewrite (get_user_absent db user_id Hr Habsent).
  - intros Hr Hsome.
    destruct (get_user_present db user_id Hr Hsome) as [old Hold].
    rewrite Hold.
    destruct (get_user_in db user_id old Hold) as (_ & Hin & Hid).
    rewrite Hid. eexists. split; [reflexivity|].
    assert (Hgone : crud.get_user
                      (filter (fun r => negb (models.id r =? user_id)) db)
                      user_id = Return None).
    { rewrite (get_user_in_range _ _ Hr). now rewrite find_deleted. }
    split; [|split; [exact (proj2 (get_user_none _ _ Hgone))
                    |split; [exact Hgone|split]]].
    + clear -Hin Hid. induction db as [|a db IH]; [easy|]. simpl.
      destruct Hin as [-> | Hin].
      * rewrite Hid, Z.eqb_refl; simpl.
        pose proof (filter_length_le
                      (fun r => negb (models.id r =? user_id)) db).
        lia.
      * destruct (negb _); simpl; specialize (IH Hin); lia.
    + intros other Hne. unfold crud.get_user.
      destruct (in_int64 other); [|reflexivity].
      now rewrite find_other_after_delete.
    + now rewrite Hgone.
Qed.

End StoreOperations.

(** ** Requests in sequence *)

Section Sequences.
Context {L : Libraries}.

(** What [get_current_user] raises is the answer of every protected
    operation. *)
Lemma protected_rejected (r : app.request) (token : string) (s : salt)
    (now : Z) (db : Store) (c : Z) (d : string) (h : list (string * string)) :
  app.protected r = Some (Some token) ->
  dependencies.get_current_user token now db = (HTTPException c d h, db) ->
  app.serve r s now db = (HTTPException c d h, db).
Proof.
  intros Hprot Hrej.
  assert (Hme : app.current_user (Some token) now db
                = (HTTPException c d h, db)).
  { unfold app.current_user, dependencies.oauth2_scheme. session.
    simpl. exact Hrej. }
  destruct r; simpl in Hprot; inversion Hprot; subst;
    unfold app.serve, app.barber_user; unfold bind at 1;
    try unfold bind at 1; now rewrite Hme.
Qed.

Lemma find_id_is_updated (db : Store) (user_id : string)
    (me row : models.User) :
  models.id row = models.id me ->
  find (dependencies.id_is user_id) db = Some me ->
  find (dependencies.id_is user_id)
       (map (fun r => if models.id r =? models.id me then row else r) db)
  = Some row.
Proof.
  intros Hrow Hfind.
  destruct (find_id_is_cases db user_id) as [(n & _ & _ & Hext) | Hnone].
  - rewrite Hext in *.
    destruct (find_id_in db n me Hfind) as [_ Hid].
    rewrite Hid in *. now apply (find_updated db n row me).
  - now rewrite Hnone in Hfind.
Qed.

Lemma merged_deactivate (s : salt) (me : models.User) :
  merged s deactivate me = attrs.set_is_active (Some false) me.
Proof. reflexivity. Qed.

(** X18: a caller who sends [{"is_active": false}] for the caller's
    own id switches the own account off: the table then holds the
    caller's record with the active flag false, and every protected
    operation answers the same token, at the same instant, with 400
    "Inactive user". *)
Theorem deactivated_caller_is_locked_out
    (token : string) (me : models.User) (s : salt) (now : Z) (db : Store) :
  dependencies.get_current_user token now db = (Return me, db) ->
  let db' := snd (app.serve (app.Update (Some token) (models.id me) deactivate)
                            s now db) in
  (exists row,
      crud.get_user db' (models.id me) = Return (Some row)
      /\ models.is_active row = Some false)
  /\ forall r s',
      app.protected r = Some (Some token) ->
      app.serve r s' now db' = (HTTPException 400 "Inactive user" [], db').
Proof.
  intros Hme db'.
  assert (Hcur : app.current_user (Some token) now db = (Return me, db)).
  { unfold app.current_user, dependencies.oauth2_scheme. session.
    simpl. exact Hme. }
  destruct (current_user_resolved (Some token) now db db me Hcur)
    as (_ & Hin & Hget & Hactive).
  set (row := flushed me (attrs.set_is_active (Some false) me) now).
  assert (Hdb' : db' = map (fun r => if models.id r =? models.id me
                                     then row else r) db).
  { unfold db', app.serve. unfold bind at 1. rewrite Hcur.
    unfold bind at 1, lift.
    cbn [schemas.UserUpdate_validate deactivate schemas.upd_email].
    unfold bind at 1. unfold routers_user.update_user.
    unfold bind at 1, execute. rewrite Hget, Z.eqb_refl. cbn [negb andb].
    rewrite (update_user_found db _ _ s now me Hget), merged_deactivate.
    unfold update.
    assert (Hmod : modified me (attrs.set_is_active (Some false) me) = true).
    { unfold modified; simpl. rewrite !str_opt_eqb_refl, Hactive.
      reflexivity. }
    rewrite Hmod.
    unfold violations, null_violation, unique_violation; simpl.
    rewrite !str_opt_eqb_refl. simpl.
    apply (proj1 (respond_user_past _ _)). }
  assert (Hfind : exists user_id payload,
             utils_auth.jwt_decode token utils_auth.SECRET_KEY
                                   [utils_auth.ALGORITHM] now = Some payload
             /\ sub payload = Some user_id
             /\ find (dependencies.id_is user_id) db = Some me).
  { revert Hme. unfold dependencies.get_current_user,
      dependencies.credentials_exception. session.
    destruct (utils_auth.jwt_decode _ _ _ _) as [payload|]; [|discriminate].
    destruct (sub payload) as [user_id|] eqn:Es; [|discriminate].
    destruct (find _ db) as [u|] eqn:E; [|discriminate].
    destruct (negb _); [discriminate|].
    intros [= ->]. now exists user_id, payload. }
  destruct Hfind as (user_id & payload & Hdec & Hsub & Hfind).
  split.
  - exists row. rewrite Hdb'. split; [|reflexivity].
    now apply (get_user_after_update db (models.id me) me row).
  - intros r s' Hprot. apply (protected_rejected r token); [exact Hprot|].
    unfold dependencies.get_current_user. rewrite Hdec, Hsub. session.
    rewrite Hdb'.
    now rewrite (find_id_is_updated db user_id me row eq_refl Hfind).
Qed.

Lemma merged_null_barber (s : salt) (old : models.User) :
  merged s null_barber old = attrs.set_is_barber None old.
Proof. reflexivity. Qed.

(** X19: Update-by-id accepts [{"is_barber": null}] from a permitted
    caller: the table then holds the target's record with a null
    barber flag, which the response model rejects, so the write is
    committed and the request is answered 500. *)
Theorem null_flag_is_written_then_500
    (authorization : option string) (me old : models.User) (user_id : Z)
    (s : salt) (now : Z) (db : Store) :
  app.current_user authorization now db = (Return me, db) ->
  models.id me = user_id \/ truthy (models.is_barber me) = true ->
  crud.get_user db user_id = Return (Some old) ->
  models.is_barber old <> None ->
  exists loc db' row,
    app.serve (app.Update authorization user_id null_barber) s now db
    = (Raise (ResponseValidationError loc), db')
    /\ In "is_barber"%string loc
    /\ app.status (app.Update authorization user_id null_barber) s now db
       = 500
    /\ crud.get_user db' user_id = Return (Some row)
    /\ models.is_barber row = None.
Proof.
  intros Hme Hallowed Hold Hflag.
  set (row := flushed old (attrs.set_is_barber None old) now).
  assert (Hperm : negb (models.id me =? user_id)
                  && negb (truthy (models.is_barber me)) = false).
  { destruct Hallowed as [Hi | Hb].
    - apply Z.eqb_eq in Hi. now rewrite Hi.
    - rewrite Hb. apply andb_false_r. }
  assert (Hrun : app.serve (app.Update authorization user_id null_barber)
                           s now db
                 = (Raise (ResponseValidationError (schemas.User_errors row)),
                    map (fun r => if models.id r =? models.id old
                                  then row else r) db)).
  { unfold app.serve. unfold bind at 1. rewrite Hme.
    unfold bind at 1, lift.
    cbn [schemas.UserUpdate_validate null_barber schemas.upd_email].
    unfold bind at 1. unfold routers_user.update_user.
    unfold bind at 1, execute. rewrite Hold, Hperm.
    rewrite (update_user_found db _ _ s now old Hold), merged_null_barber.
    unfold update.
    assert (Hmod : modified old (attrs.set_is_barber None old) = true).
    { unfold modified; simpl.
      rewrite !str_opt_eqb_refl, bool_opt_eqb_refl.
      now destruct (models.is_barber old) as [[|]|]. }
    rewrite Hmod.
    unfold violations, null_violation, unique_violation; simpl.
    rewrite !str_opt_eqb_refl. simpl.
    unfold app.respond_user, bind, lift, schemas.User_validate.
    fold row. cbn [row flushed attrs.set_is_barber models.is_barber
                     models.email models.username].
    destruct (match models.email old with
              | Some e => EmailStr e
              | None => None
              end); [|reflexivity].
    destruct (models.username old); reflexivity. }
  exists (schemas.User_errors row),
    (map (fun r => if models.id r =? models.id old then row else r) db),
    row.
  split; [exact Hrun|]. split; [|split; [|split]].
  - unfold schemas.User_errors. apply in_or_app. right.
    apply in_or_app. right. apply in_or_app. left. simpl. now left.
  - unfold app.status. now rewrite Hrun.
  - now apply (get_user_after_update db user_id old row).
  - reflexivity.
Qed.

(** X20: Get-by-id answers a resolved caller 404 when no user has
    the id and the id is within the range of the integers SQLite
    stores; for an id outside that range the lookup raises
    [OverflowError], answered 500; and a body it answers only ever
    shows the record stored under the id asked for.  Get-self only
    ever shows the caller's own record, with the active flag set. *)
Theorem read_answers_the_record_asked_for
    (authorization : option string) (me : models.User) (user_id : Z)
    (s : salt) (now : Z) (db : Store) :
  app.current_user authorization now db = (Return me, db) ->
  (in_int64 user_id = true ->
   (forall r, In r db -> models.id r <> user_id) ->
   app.serve (app.GetById authorization user_id) s now db
   = (HTTPException 404 "User not found" [], db))
  /\ (in_int64 user_id = false ->
      app.serve (app.GetById authorization user_id) s now db
      = (Raise int_too_large, db)
      /\ app.status (app.GetById authorization user_id) s now db = 500)
  /\ (forall body,
         fst (app.serve (app.GetById authorization user_id) s now db)
         = Return body ->
         exists o u,
           body = app.UserBody o
           /\ In u db
           /\ crud.get_user db user_id = Return (Some u)
           /\ schemas.User_validate u = Return o
           /\ schemas.out_id o = user_id)
  /\ (forall body,
         fst (app.serve (app.GetSelf authorization) s now db) = Return body ->
         exists o,
           body = app.UserBody o
           /\ schemas.User_validate me = Return o
           /\ schemas.out_id o = models.id me
           /\ schemas.out_is_active o = true).
Proof.
  intros Hme.
  destruct (current_user_resolved authorization now db db me Hme)
    as (_ & _ & _ & Hactive).
  unfold app.status, app.serve, bind. rewrite Hme.
  unfold routers_user.read_user, routers_user.read_users_me,
    app.respond_user. session.
  split; [|split; [|split]].
  - intros Hr Habsent. now rewrite (get_user_absent db user_id Hr Habsent).
  - intros Hr. now rewrite (get_user_overflow db user_id Hr).
  - intros body.
    destruct (crud.get_user db user_id) as [[u|]|c d h|e] eqn:Hu;
      try discriminate.
    destruct (schemas.User_validate u) as [o|c d h|e] eqn:Ho;
      simpl; try discriminate.
    intros [= <-]. exists o, u.
    destruct (get_user_in db user_id u Hu) as (_ & Hin & Hid).
    split; [reflexivity|]. split; [exact Hin|].
    split; [reflexivity|]. split; [exact Ho|].
    destruct (User_validate_flag u o Ho) as (_ & _ & ->). exact Hid.
  - intros body.
    destruct (schemas.User_validate me) as [o|c d h|e] eqn:Ho;
      simpl; try discriminate.
    intros [= <-]. exists o. split; [reflexivity|]. split; [reflexivity|].
    destruct (User_validate_flag me o Ho) as (_ & Ha & Hid).
    split; [exact Hid|]. congruence.
Qed.

End Sequences.

(** ** Loggers *)

Section Loggers.
Import utils_logging.
Variable LOG_LEVEL : string.

Lemma lookup_store (name : string) (l : Logger) (reg : Registry) :
  lookup name (store name l reg) = Some l.
Proof.
  unfold lookup, store.
  destruct (existsb _ reg) eqn:E.
  - induction reg as [|[k v] reg IH]; simpl in *; [discriminate|].
    destruct (String.eqb k name) eqn:Ek; simpl.
    + now rewrite String.eqb_refl.
    + rewrite Ek. exact (IH E).
  - induction reg as [|[k v] reg IH]; simpl in *.
    + now rewrite String.eqb_refl.
    + destruct (String.eqb k name); [discriminate | exact (IH E)].
Qed.

Lemma lookup_store_other (name other : string) (l : Logger)
    (reg : Registry) :
  other <> name -> lookup other (store name l reg) = lookup other reg.
Proof.
  intros Hne. unfold lookup, store.
  assert (Hk : forall k, String.eqb k name = true ->
                         String.eqb k other = false).
  { intros k Hk. apply String.eqb_eq in Hk. subst k.
    apply String.eqb_neq. congruence. }
  destruct (existsb _ reg).
  - induction reg as [|[k v] reg IH]; simpl; [reflexivity|].
    destruct (String.eqb k name) eqn:Ek; simpl.
    + rewrite (Hk name (String.eqb_refl name)), (Hk k Ek). exact IH.
    + destruct (String.eqb k other); [reflexivity | exact IH].
  - induction reg as [|[k v] reg IH]; simpl.
    + now rewrite (Hk name (String.eqb_refl name)).
    + destruct (String.eqb k other); [reflexivity | exact IH].
Qed.

Lemma store_entries (P : Logger -> Prop) (name : string) (l : Logger)
    (reg : Registry) :
  Forall (fun kv => P (snd kv)) reg -> P l ->
  Forall (fun kv => P (snd kv)) (store name l reg).
Proof.
  intros Hreg Hl. unfold store. destruct (existsb _ reg).
  - induction Hreg as [|kv reg Hkv _ IH]; simpl; constructor; [|exact IH].
    now destruct (String.eqb (fst kv) name).
  - apply Forall_app. split; [exact Hreg | now constructor].
Qed.

(** Storing twice under a name keeps the second logger. *)
Lemma store_store (name : string) (l0 l1 : Logger) (reg : Registry) :
  store name l1 (store name l0 reg) = store name l1 reg.
Proof.
  unfold store.
  destruct (existsb (fun kv => String.eqb (fst kv) name) reg) eqn:E.
  - assert (E' : existsb (fun kv => String.eqb (fst kv) name)
                         (map (fun kv => if String.eqb (fst kv) name
                                         then (name, l0) else kv) reg)
                 = true).
    { clear -E. induction reg as [|[k v] reg IH]; simpl in *; [discriminate|].
      destruct (String.eqb k name) eqn:Ek; simpl.
      - now rewrite String.eqb_refl.
      - rewrite Ek. exact (IH E). }
    rewrite E', map_map. apply map_ext. intros [k v]; simpl.
    destruct (String.eqb k name) eqn:Ek; simpl.
    + now rewrite String.eqb_refl.
    + now rewrite Ek.
  - assert (E' : existsb (fun kv => String.eqb (fst kv) name)
                         (reg ++ [(name, l0)]) = true).
    { rewrite existsb_app. simpl. rewrite String.eqb_refl.
      now rewrite orb_true_r. }
    rewrite E', map_app; simpl. rewrite String.eqb_refl. f_equal.
    clear E'. induction reg as [|[k v] reg IH]; simpl in *; [reflexivity|].
    destruct (String.eqb k name); [discriminate|]. f_equal. exact (IH E).
Qed.

(** What a successful [setup_logger] leaves under the name. *)
Lemma setup_logger_sets (name : string) (reg : Registry) (lv : Z) :
  level_named LOG_LEVEL = Some lv ->
  exists reg',
    setup_logger LOG_LEVEL name reg = (Some name, reg')
    /\ lookup name reg'
       = Some {| level := lv; propagate := false;
                 handlers := [console_handler] |}
    /\ forall other, other <> name ->
                     lookup other reg' = lookup other reg.
Proof.
  intros Hlv. unfold setup_logger, getLogger.
  destruct (lookup name reg) as [l|] eqn:El; rewrite Hlv.
  - eexists. split; [reflexivity|].
    split; [|intros other Hne; now apply lookup_store_other].
    rewrite lookup_store. now destruct (handlers l).
  - eexists. split; [reflexivity|].
    split; [now rewrite lookup_store|].
    intros other Hne. now rewrite !lookup_store_other.
Qed.

(** X21: when [LOG_LEVEL] names a level, [setup_logger] leaves the
    logger of the given name with that level, propagation off and
    exactly one handler, the console handler with the module's format,
    however many handlers it had; it leaves every other logger as it
    was; and setting the same logger up again changes nothing more. *)
Theorem setup_logger_leaves_one_handler
    (name : string) (reg : Registry) (lv : Z) :
  level_named LOG_LEVEL = Some lv ->
  let reg' := snd (setup_logger LOG_LEVEL name reg) in
  fst (setup_logger LOG_LEVEL name reg) = Some name
  /\ lookup name reg'
     = Some {| level := lv; propagate := false;
               handlers := [console_handler] |}
  /\ (forall other, other <> name -> lookup other reg' = lookup other reg)
  /\ (forall other,
         lookup other (snd (setup_logger LOG_LEVEL name reg'))
         = lookup other reg').
Proof.
  intros Hlv reg'.
  destruct (setup_logger_sets name reg lv Hlv) as (r1 & Hrun & Hset & Hother).
  assert (Hreg' : reg' = r1) by (unfold reg'; now rewrite Hrun).
  rewrite Hrun, Hreg'. simpl.
  split; [reflexivity|]. split; [exact Hset|]. split; [exact Hother|].
  intros other.
  destruct (setup_logger_sets name r1 lv Hlv) as (r2 & Hrun2 & Hset2 & Hother2).
  rewrite Hrun2; simpl.
  destruct (String.eqb_spec other name) as [-> | Hne].
  - now rewrite Hset2, Hset.
  - now apply Hother2.
Qed.

(** X22: when [LOG_LEVEL] names a level, every logger of every
    registry the module leaves, after its import and after any number
    of calls of [get_logger], has exactly one handler and does not
    propagate: no message is written twice; and [get_logger] without a
    name, or with the empty name, gives the main logger and leaves the
    registry as it is. *)
Theorem configured_loggers_have_one_handler (reg : Registry) (lv : Z) :
  level_named LOG_LEVEL = Some lv ->
  configured LOG_LEVEL reg ->
  Forall (fun kv => handlers (snd kv) = [console_handler]
                    /\ propagate (snd kv) = false) reg
  /\ get_logger LOG_LEVEL None reg = (Some main_name, reg)
  /\ get_logger LOG_LEVEL (Some EmptyString) reg = (Some main_name, reg).
Proof.
  intros Hlv Hconf. split; [|split; reflexivity].
  assert (Hsetup :
            forall name r,
              Forall (fun kv => handlers (snd kv) = [console_handler]
                                /\ propagate (snd kv) = false) r ->
              Forall (fun kv => handlers (snd kv) = [console_handler]
                                /\ propagate (snd kv) = false)
                     (snd (setup_logger LOG_LEVEL name r))).
  { intros name r Hr. unfold setup_logger, getLogger.
    destruct (lookup name r) as [l|] eqn:El; rewrite Hlv; simpl.
    - apply (store_entries
               (fun l => handlers l = [console_handler]
                         /\ propagate l = false)); [exact Hr|].
      simpl. now destruct (handlers l).
    - rewrite store_store.
      apply (store_entries
               (fun l => handlers l = [console_handler]
                         /\ propagate l = false)); [exact Hr|].
      now split. }
  induction Hconf as [|name r _ IH].
  - apply Hsetup. constructor.
  - unfold get_logger. destruct name as [n|]; [|exact IH].
    destruct (str_truthy n); [now apply Hsetup | exact IH].
Qed.

End Loggers.

(** ** The further properties on the table of three users *)


Lemma get_barbers_only_barbers_witness :
  crud.get_barbers Toy.users 0 beyond_int64 = Raise int_too_large
  /\ exists page,
      crud.get_barbers Toy.users 0 10 = Return page /\ In Toy.bob page.
Proof.
  split.
  - apply (get_barbers_only_barbers Toy.users 0 beyond_int64). now right.
  - destruct (proj2 (proj2 (get_barbers_only_barbers Toy.users 0 10)))
      as (page & Hpage & Hall); [reflexivity | simpl; lia |].
    exists page. split; [exact Hpage|].
    apply Hall; [simpl; auto | reflexivity].
Defined.

Lemma list_barbers_is_public_witness :
  snd (app.serve (L := Toy.libraries) (app.ListBarbers 0 10)
                 "s4"%string 200 Toy.users) = Toy.users
  /\ exists os,
      fst (app.serve (L := Toy.libraries) (app.ListBarbers 0 10)
                     "s4"%string 200 Toy.users)
      = Return (app.UsersBody os)
      /\ Forall (fun o => schemas.out_is_barber o = true) os.
Proof.
  destruct (list_barbers_is_public (L := Toy.libraries) 0 10 "s4"%string 200
                                   Toy.users) as (Hdb & _ & Hbody).
  split; [exact Hdb|].
  destruct (fst (app.serve (L := Toy.libraries) (app.ListBarbers 0 10)
                           "s4"%string 200 Toy.users))
    as [body|c d h|e] eqn:E; try discriminate E.
  destruct (Hbody body eq_refl) as (os & -> & Hall & _).
  exists os. split; [reflexivity | exact Hall].
Defined.

Lemma no_credentials_no_access_witness :
  app.serve (L := Toy.libraries) (app.Delete None 1) "s4"%string 200 Toy.users
  = (HTTPException 401 "Not authenticated"
                   [("WWW-Authenticate", "Bearer")]%string, Toy.users).
Proof.
  apply (no_credentials_no_access (L := Toy.libraries)). reflexivity.
Defined.

Lemma login_never_returns_a_token_witness :
  snd (app.serve (L := Toy.libraries)
                 (app.LoginForm (by_form "a@x.com" "secret1"))
                 "s4"%string 200 Toy.users) = Toy.users.
Proof.
  apply (login_never_returns_a_token (L := Toy.libraries)).
  left. now exists (by_form "a@x.com" "secret1").
Defined.

Lemma issued_token_resolves_until_expiry_witness :
  dependencies.get_current_user
    (L := Toy.libraries)
    (utils_auth.create_access_token (L := Toy.libraries) 100 1 None)
    150 Toy.users
  = (Return Toy.alice, Toy.users)
  /\ dependencies.get_current_user
       (L := Toy.libraries)
       (utils_auth.create_access_token (L := Toy.libraries) 100 1 None)
       2000 Toy.users
     = (HTTPException 401 "Could not validate credentials"
                      [("WWW-Authenticate", "Bearer")]%string, Toy.users).
Proof.
  split.
  - apply (proj1 (issued_token_resolves_until_expiry
                    (L := Toy.libraries) Toy.users Toy.alice None 100 150
                    eq_refl eq_refl eq_refl eq_refl)).
    unfold lifetime. simpl. lia.
  - apply (proj2 (issued_token_resolves_until_expiry
                    (L := Toy.libraries) Toy.users Toy.alice None 100 2000
                    eq_refl eq_refl eq_refl eq_refl)).
    unfold lifetime. simpl. lia.
Defined.

Lemma resolved_caller_is_an_active_row_witness :
  In Toy.bob Toy.users /\ models.is_active Toy.bob = Some true.
Proof.
  destruct (proj2 (resolved_caller_is_an_active_row
                     (L := Toy.libraries) (Toy.token_of 2) 150 Toy.users)
              Toy.bob eq_refl) as (Hin & Hactive & _).
  split; [exact Hin | exact Hactive].
Defined.

Lemma rejected_request_writes_nothing_witness :
  snd (app.serve (L := Toy.libraries) (app.Register short_password_body)
                 "s4"%string 200 Toy.users) = Toy.users.
Proof.
  apply (rejected_request_writes_nothing (L := Toy.libraries)).
  intros H. exact H.
Defined.

Lemma only_a_barber_delete_removes_witness :
  exists authorization me,
    app.Delete (Some (Toy.token_of 2)) 1 = app.Delete authorization 1
    /\ app.current_user (L := Toy.libraries) authorization 200 Toy.users
       = (Return me, Toy.users)
    /\ truthy (models.is_barber me) = true.
Proof.
  apply (only_a_barber_delete_removes
           (L := Toy.libraries) (app.Delete (Some (Toy.token_of 2)) 1)
           "s4"%string 200 Toy.users 1);
    [discriminate | reflexivity].
Defined.

Lemma only_a_permitted_update_changes_witness :
  exists authorization body me,
    app.Update (Some (Toy.token_of 1)) 1 Examples.names
    = app.Update authorization 1 body
    /\ app.current_user (L := Toy.libraries) authorization 200 Toy.users
       = (Return me, Toy.users)
    /\ (models.id me = 1 \/ truthy (models.is_barber me) = true).
Proof.
  apply (only_a_permitted_update_changes
           (L := Toy.libraries)
           (app.Update (Some (Toy.token_of 1)) 1 Examples.names)
           "s4"%string 200 Toy.users 1 Toy.alice alice_renamed);
    [reflexivity | reflexivity | discriminate].
Defined.

Lemma only_register_adds_witness :
  exists body user,
    app.Register dave_body = app.Register body
    /\ schemas.UserCreate_validate (L := Toy.libraries) body = Return user
    /\ 4 = next_rowid Toy.users
    /\ new_row (L := Toy.libraries) dave_validated "s4"%string 4 200
       = new_row (L := Toy.libraries) user "s4"%string
                 (next_rowid Toy.users) 200.
Proof.
  apply (only_register_adds
           (L := Toy.libraries) (app.Register dave_body) "s4"%string 200
           Toy.users 4
           (new_row (L := Toy.libraries) dave_validated "s4"%string 4 200));
    reflexivity.
Defined.

Lemma reachable_tables_store_hashes_witness :
  Forall (holds_a_hash (L := Toy.libraries)) [Toy.alice].
Proof.
  apply (reachable_tables_store_hashes (L := Toy.libraries)).
  exact only_alice_reachable.
Defined.

Lemma reachable_tables_have_distinct_keys_witness :
  distinct_keys [Toy.alice].
Proof.
  apply (reachable_tables_have_distinct_keys (L := Toy.libraries)).
  exact only_alice_reachable.
Defined.

Lemma reachable_rows_are_presentable_witness :
  exists o,
    schemas.User_validate (L := Toy.libraries) Toy.alice = Return o
    /\ schemas.out_id o = 1.
Proof.
  destruct (reachable_rows_are_presentable
              (L := Toy.libraries) [Toy.alice] Toy.alice true false
              toy_email_stable only_alice_reachable
              (or_introl eq_refl) eq_refl eq_refl)
    as (o & Ho & Hid & _).
  exists o. split; [exact Ho | exact Hid].
Defined.

Lemma create_user_then_lookup_witness :
  (exists msg,
      crud.create_user (L := Toy.libraries) Examples.bob_again
                       "s4"%string 200 Toy.users
      = (Raise (IntegrityError msg), Toy.users))
  /\ crud.get_user
       (Toy.users
        ++ [new_row (L := Toy.libraries) dave_validated "s4"%string
                    (next_rowid Toy.users) 200])%list
       4
     = Return (Some (new_row (L := Toy.libraries) dave_validated "s4"%string
                             (next_rowid Toy.users) 200))
  /\ crud.get_user_by_email
       (Toy.users
        ++ [new_row (L := Toy.libraries) dave_validated "s4"%string
                    (next_rowid Toy.users) 200])%list
       "d@x.com"
     = Some (new_row (L := Toy.libraries) dave_validated "s4"%string
                     (next_rowid Toy.users) 200)
  /\ utils_auth.verify_password
       (L := Toy.libraries) "password123"
       (models.hashed_password
          (new_row (L := Toy.libraries) dave_validated "s4"%string
                   (next_rowid Toy.users) 200))
     = Return true.
Proof.
  split; [|split; [|split]].
  - apply (proj1 (create_user_then_lookup
                    (L := Toy.libraries) Toy.users Examples.bob_again
                    "s4"%string 200)).
    exists Toy.bob. split; [simpl; auto | right; reflexivity].
  - destruct (proj2 (create_user_then_lookup
                       (L := Toy.libraries) Toy.users dave_validated
                       "s4"%string 200) toy_users_unused_by_dave)
      as (_ & _ & Hget & _).
    exact (Hget eq_refl).
  - apply (proj2 (create_user_then_lookup
                    (L := Toy.libraries) Toy.users dave_validated
                    "s4"%string 200) toy_users_unused_by_dave).
  - apply (proj2 (create_user_then_lookup
                    (L := Toy.libraries) Toy.users dave_validated
                    "s4"%string 200) toy_users_unused_by_dave).
    reflexivity.
Defined.

Lemma update_conflict_raises_witness :
  exists msg,
    crud.update_user (L := Toy.libraries) 1
                     (new_email (Some "b@x.com"%string)) "s4"%string 200
                     Toy.users
    = (Raise (IntegrityError msg), Toy.users).
Proof.
  destruct (update_conflict_raises
              (L := Toy.libraries) Toy.users 1
              (new_email (Some "b@x.com"%string)) "s4"%string 200
              Toy.alice eq_refl) as (msg & Hrun & _).
  - right. exists "b@x.com"%string, Toy.bob.
    split; [reflexivity|]. split; [discriminate|].
    split; [simpl; auto | reflexivity].
  - now exists msg.
Defined.

Lemma delete_user_twice_witness :
  crud.delete_user beyond_int64 Toy.users = (Raise int_too_large, Toy.users)
  /\ crud.delete_user 9 Toy.users = (Return false, Toy.users)
  /\ exists db',
      crud.delete_user 1 Toy.users = (Return true, db')
      /\ crud.delete_user 1 db' = (Return false, db').
Proof.
  split; [|split].
  - now apply (delete_user_twice Toy.users beyond_int64).
  - apply (delete_user_twice Toy.users 9); [reflexivity|].
    intros r [<- | [<- | [<- | []]]]; discriminate.
  - destruct (proj2 (proj2 (delete_user_twice Toy.users 1)) eq_refl)
      as (db' & Hrun & _ & _ & _ & _ & Hagain).
    + exists Toy.alice. split; [simpl; auto | reflexivity].
    + exists db'. split; [exact Hrun | exact Hagain].
Defined.

Lemma deactivated_caller_is_locked_out_witness :
  app.serve (L := Toy.libraries) (app.GetSelf (Some (Toy.token_of 1)))
            "s5"%string 200
            (snd (app.serve (L := Toy.libraries)
                            (app.Update (Some (Toy.token_of 1)) 1 deactivate)
                            "s4"%string 200 Toy.users))
  = (HTTPException 400 "Inactive user" [],
     snd (app.serve (L := Toy.libraries)
                    (app.Update (Some (Toy.token_of 1)) 1 deactivate)
                    "s4"%string 200 Toy.users)).
Proof.
  apply (proj2 (deactivated_caller_is_locked_out
                  (L := Toy.libraries) (Toy.token_of 1) Toy.alice
                  "s4"%string 200 Toy.users eq_refl)).
  reflexivity.
Defined.

Lemma null_flag_is_written_then_500_witness :
  exists loc db' row,
    app.serve (L := Toy.libraries)
              (app.Update (Some (Toy.token_of 2)) 1 null_barber)
              "s4"%string 200 Toy.users
    = (Raise (ResponseValidationError loc), db')
    /\ In "is_barber"%string loc
    /\ app.status (L := Toy.libraries)
                  (app.Update (Some (Toy.token_of 2)) 1 null_barber)
                  "s4"%string 200 Toy.users = 500
    /\ crud.get_user db' 1 = Return (Some row)
    /\ models.is_barber row = None.
Proof.
  apply (null_flag_is_written_then_500
           (L := Toy.libraries) (Some (Toy.token_of 2)) Toy.bob Toy.alice 1
           "s4"%string 200 Toy.users);
    [reflexivity | right; reflexivity | reflexivity | discriminate].
Defined.

Lemma read_answers_the_record_asked_for_witness :
  app.serve (L := Toy.libraries) (app.GetById (Some (Toy.token_of 2)) 9)
            "s4"%string 200 Toy.users
  = (HTTPException 404 "User not found" [], Toy.users)
  /\ app.serve (L := Toy.libraries)
               (app.GetById (Some (Toy.token_of 2)) beyond_int64)
               "s4"%string 200 Toy.users
     = (Raise int_too_large, Toy.users).
Proof.
  split.
  - apply (read_answers_the_record_asked_for
             (L := Toy.libraries) (Some (Toy.token_of 2)) Toy.bob 9
             "s4"%string 200 Toy.users);
      try reflexivity.
    intros r [<- | [<- | [<- | []]]]; discriminate.
  - apply (read_answers_the_record_asked_for
             (L := Toy.libraries) (Some (Toy.token_of 2)) Toy.bob
             beyond_int64 "s4"%string 200 Toy.users);
      reflexivity.
Defined.

Lemma setup_logger_leaves_one_handler_witness :
  utils_logging.lookup
    "barbershop-user-service.app.main"
    (snd (utils_logging.setup_logger
            "INFO" "barbershop-user-service.app.main"
            [("barbershop-user-service.app.main"%string,
              {| utils_logging.level := 10;
                 utils_logging.propagate := true;
                 utils_logging.handlers :=
                   [utils_logging.console_handler;
                    utils_logging.console_handler] |})]))
  = Some {| utils_logging.level := 20;
            utils_logging.propagate := false;
            utils_logging.handlers := [utils_logging.console_handler] |}.
Proof.
  apply (setup_logger_leaves_one_handler "INFO"). reflexivity.
Defined.

Lemma configured_loggers_have_one_handler_witness :
  Forall (fun kv =>
            utils_logging.handlers (snd kv) = [utils_logging.console_handler]
            /\ utils_logging.propagate (snd kv) = false)
         (snd (utils_logging.get_logger
                 "DEBUG" (Some "app.main"%string)
                 (snd (utils_logging.imported "DEBUG" [])))).
Proof.
  apply (configured_loggers_have_one_handler "DEBUG" _ 10 eq_refl).
  apply utils_logging.configured_get, utils_logging.configured_import.
Defined.
